(** * Trainer callbacks of axolotl (src/axolotl/utils/callbacks.py)

    A shallow embedding of the callbacks module and the properties of it
    that the specification states.  Python dictionaries whose iteration
    order is irrelevant are [gmap string _]; dictionaries whose insertion
    order is observable (the per-category benchmark tables) are association
    lists with Python's insert-or-update discipline.  Exceptions are an
    explicit result type.  Calls into external services (wandb, the model
    saver, the trainer) are described by their outcome and recorded in a
    trace of events. *)

From Stdlib Require Import ZArith QArith Qround Lia Ascii.
From stdpp Require Import base option list strings pretty gmap fin_maps.

Local Open Scope Z_scope.

(** ** Python runtime pieces *)

Module Py.

(** The exception classes that the module can meet. *)
Inductive exn_class :=
| ZeroDivisionError
| TypeError
| IndexError
| KeyError
| RuntimeError
| AttributeError
| FileNotFoundError
| ConnectionError
| BrokenPipeError
| ConnectionAbortedError
| ConnectionRefusedError
| ConnectionResetError.

(** The direct base class inside the part of the builtin hierarchy above;
    [None] stands for a base outside of it. *)
Definition base_class (c : exn_class) : option exn_class :=
  match c with
  | BrokenPipeError | ConnectionAbortedError
  | ConnectionRefusedError | ConnectionResetError => Some ConnectionError
  | _ => None
  end.

Definition exn_class_eqb (a b : exn_class) : bool :=
  match a, b with
  | ZeroDivisionError, ZeroDivisionError | TypeError, TypeError
  | IndexError, IndexError | KeyError, KeyError
  | RuntimeError, RuntimeError | AttributeError, AttributeError
  | FileNotFoundError, FileNotFoundError
  | ConnectionError, ConnectionError | BrokenPipeError, BrokenPipeError
  | ConnectionAbortedError, ConnectionAbortedError
  | ConnectionRefusedError, ConnectionRefusedError
  | ConnectionResetError, ConnectionResetError => true
  | _, _ => false
  end.

(** [issubclass c d]. The hierarchy modelled here has depth two. *)
Definition issubclass (c d : exn_class) : bool :=
  exn_class_eqb c d ||
  match base_class c with
  | Some b => exn_class_eqb b d
  | None => false
  end.

(** An exception object: its class and [str(err)]. *)
Record exn := Exn { exn_cls : exn_class; exn_str : string }.

(** What an [except (c1, c2, ...)] clause catches. *)
Definition caught_by (classes : list exn_class) (e : exn) : bool :=
  existsb (issubclass (exn_cls e)) classes.

Inductive result (A : Type) :=
| Ok (a : A)
| Raise (e : exn).
Arguments Ok {A} a.
Arguments Raise {A} e.

#[global] Instance result_ret : MRet result := fun A a => Ok a.

#[global] Instance result_bind : MBind result := fun A B k r =>
  match r with
  | Ok a => k a
  | Raise e => Raise e
  end.

(** The outcome of a call that returns nothing useful: [None] when it
    returns, [Some e] when it raises [e]. *)
Definition outcome := option exn.

(** Python's [%] on numbers, away from a zero divisor: the remainder has
    the sign of the divisor. *)
Definition mod_ (x y : Q) : Q := (x - y * inject_Z (Qfloor (x / y)))%Q.

(** [s.startswith(p)]. *)
Fixpoint startswith (p s : string) : bool :=
  match p with
  | EmptyString => true
  | String a p' =>
      match s with
      | EmptyString => false
      | String b s' => Ascii.eqb a b && startswith p' s'
      end
  end.

(** The slice [s[n:]]. *)
Fixpoint slice_from (n : nat) (s : string) : string :=
  match n with
  | O => s
  | S n' =>
      match s with
      | EmptyString => EmptyString
      | String _ s' => slice_from n' s'
      end
  end.

(** Indexing a sequence by a possibly negative integer, as lists and
    tensors do; [None] is IndexError. *)
Definition index {A} (l : list A) (i : Z) : option A :=
  let n := Z.of_nat (length l) in
  if (0 <=? i) && (i <? n) then l !! Z.to_nat i
  else if (- n <=? i) && (i <? 0) then l !! Z.to_nat (n + i)
  else None.

(** The floating-point numbers of the interpreter and of numpy, through
    the operations the module applies to them.  No law is assumed: what
    is proved holds for any rounding. *)
Class Float (F : Type) := {
  of_int : Z -> F;
  add : F -> F -> F;
  sub : F -> F -> F;
  mul : F -> F -> F;
  (** [a / b] for a divisor that is not zero *)
  div : F -> F -> F;
  (** [a < b] *)
  ltb : F -> F -> bool;
  (** [pd.isna] *)
  isna : F -> bool;
  (** [np.mean] *)
  np_mean : list F -> F;
}.

(** The builtin [sum]: starts from the integer 0 and adds from the left. *)
Definition sum `{Float F} (xs : list F) : F := fold_left add xs (of_int 0).

(** [os.path.join(a, b)] on POSIX for two components. *)
Definition starts_with_slash (s : string) : bool :=
  match s with
  | String c _ => if Ascii.eqb c "/"%char then true else false
  | EmptyString => false
  end.

Fixpoint ends_with_slash (s : string) : bool :=
  match s with
  | EmptyString => false
  | String c EmptyString => Ascii.eqb c "/"%char
  | String _ s' => ends_with_slash s'
  end.

Definition os_path_join (a b : string) : string :=
  if starts_with_slash b then b
  else match a with
       | EmptyString => b
       | _ => if ends_with_slash a then a +:+ b else a +:+ "/" +:+ b
       end.

End Py.

(** ** The host engine's objects, as far as the callbacks read them *)

Module Trainer.

Inductive IntervalStrategy := NO | STEPS | EPOCH.

Definition IntervalStrategy_eqb (a b : IntervalStrategy) : bool :=
  match a, b with
  | NO, NO | STEPS, STEPS | EPOCH, EPOCH => true
  | _, _ => false
  end.

(** [TrainingArguments]: the step intervals are Python numbers (an
    integer count or a ratio below one), hence rationals. *)
Record TrainingArguments := {
  evaluation_strategy : IntervalStrategy;
  eval_steps : Q;
  save_strategy : IntervalStrategy;
  save_steps : Q;
  logging_steps : Q;
  output_dir : string;
}.

Record TrainerState := {
  global_step : Z;
  max_steps : Z;
  is_world_process_zero : bool;
}.

Record TrainerControl := {
  should_training_stop : bool;
  should_epoch_stop : bool;
  should_save : bool;
  should_evaluate : bool;
  should_log : bool;
}.

Definition set_should_evaluate (b : bool) (c : TrainerControl) :=
  {| should_training_stop := should_training_stop c;
     should_epoch_stop := should_epoch_stop c;
     should_save := should_save c;
     should_evaluate := b;
     should_log := should_log c |}.

Definition set_should_save (b : bool) (c : TrainerControl) :=
  {| should_training_stop := should_training_stop c;
     should_epoch_stop := should_epoch_stop c;
     should_save := b;
     should_evaluate := should_evaluate c;
     should_log := should_log c |}.

Definition PREFIX_CHECKPOINT_DIR : string := "checkpoint".

End Trainer.

Import Trainer.

(** ** EvalFirstStepCallback *)

Module EvalFirstStepCallback.

(** The guard of [on_step_end]. *)
Definition first_step_eval_due (args : TrainingArguments) (state : TrainerState) : bool :=
  IntervalStrategy_eqb (evaluation_strategy args) STEPS
  && (if Qlt_le_dec (eval_steps args) 1 then true else false)
  && (global_step state =? 1).

Definition on_step_end (args : TrainingArguments) (state : TrainerState)
    (control : TrainerControl) : TrainerControl :=
  if first_step_eval_due args state
  then set_should_evaluate true control
  else control.

End EvalFirstStepCallback.

(** ** SaveBetterTransformerModelCallback *)

Module SaveBetterTransformerModelCallback.

(** What the callback asks of the outside world. *)
Inductive event :=
| SavePretrained (checkpoint_folder : string).

(** [kwargs["model"]] and the outcome of unwrapping and saving it:
    [BetterTransformer.reverse(model).save_pretrained(folder)]. *)
Record kwargs := {
  model : option (string -> Py.outcome);
}.

Definition save_due (args : TrainingArguments) (state : TrainerState) : bool :=
  IntervalStrategy_eqb (save_strategy args) STEPS
  && (if Qlt_le_dec 0 (save_steps args) then true else false)
  && Qeq_bool (Py.mod_ (inject_Z (global_step state)) (save_steps args)) 0.

Definition checkpoint_folder (args : TrainingArguments) (state : TrainerState) : string :=
  Py.os_path_join (output_dir args)
    (PREFIX_CHECKPOINT_DIR +:+ "-" +:+ pretty (global_step state)).

Definition on_step_end (args : TrainingArguments) (state : TrainerState)
    (control : TrainerControl) (kw : kwargs)
    : Py.result TrainerControl * list event :=
  let control :=
    if save_due args state then set_should_save true control else control in
  if should_save control then
    let folder := checkpoint_folder args state in
    match model kw with
    | None => (Py.Raise (Py.Exn Py.KeyError "model"), [])
    | Some save =>
        match save folder with
        | Some e => (Py.Raise e, [])
        | None => (Py.Ok (set_should_save false control), [SavePretrained folder])
        end
    end
  else (Py.Ok control, []).

End SaveBetterTransformerModelCallback.

(** ** SaveAxolotlConfigtoWandBCallback *)

Module SaveAxolotlConfigtoWandBCallback.

Inductive event :=
| ArtifactLogged (name type_ local_path : string)
| LogInfo (msg : string)
| LogWarning (msg : string).

(** The wandb client as the callback uses it: the three calls of the
    upload, each of which returns or raises. *)
Record wandb := {
  Artifact : string -> string -> Py.outcome;
  add_file : string -> Py.outcome;
  log_artifact : Py.outcome;
}.

Record self_ := { axolotl_config_path : string }.

(** The body of the [try] block, with the events it has produced when it
    returns or raises. *)
Definition upload (self : self_) (w : wandb) : Py.result unit * list event :=
  match Artifact w "axolotl-config" "config" with
  | Some e => (Py.Raise e, [])
  | None =>
      match add_file w (axolotl_config_path self) with
      | Some e => (Py.Raise e, [])
      | None =>
          match log_artifact w with
          | Some e => (Py.Raise e, [])
          | None =>
              (Py.Ok tt,
               [ArtifactLogged "axolotl-config" "config" (axolotl_config_path self);
                LogInfo "Axolotl config has been saved to WandB as an artifact."])
          end
      end
  end.

Definition handled : list Py.exn_class := [Py.FileNotFoundError; Py.ConnectionError].

Definition on_train_begin (self : self_) (is_main_process : bool) (w : wandb)
    (control : TrainerControl) : Py.result TrainerControl * list event :=
  if is_main_process then
    match upload self w with
    | (Py.Ok _, evs) => (Py.Ok control, evs)
    | (Py.Raise err, evs) =>
        if Py.caught_by handled err
        then (Py.Ok control,
              evs ++ [LogWarning ("Error while saving Axolotl config to WandB: "
                                  +:+ Py.exn_str err)])
        else (Py.Raise err, evs)
    end
  else (Py.Ok control, []).

End SaveAxolotlConfigtoWandBCallback.

(** ** rewrite_logs *)

Section RewriteLogs.
Context {V : Type}.

Definition eval_prefix : string := "eval_".
Definition test_prefix : string := "test_".

(** One turn of the loop over [d.items()]: [new_d[bucket][key] = v]. *)
Definition rewrite_item (k : string) (v : V)
    (new_d : gmap string (gmap string V)) : gmap string (gmap string V) :=
  if Py.startswith eval_prefix k then
    alter (insert (Py.slice_from (String.length eval_prefix) k) v) "eval" new_d
  else if Py.startswith test_prefix k then
    alter (insert (Py.slice_from (String.length test_prefix) k) v) "test" new_d
  else
    alter (insert k v) "train" new_d.

Definition rewrite_logs (d : gmap string V) : gmap string (gmap string V) :=
  map_fold rewrite_item
    (<["train" := ∅]> (<["eval" := ∅]> (<["test" := ∅]> ∅))) d.

End RewriteLogs.

(** ** RunPodCallback *)

Module RunPodCallback.
Section WithFloat.
Context {F : Type} `{Py.Float F} {V : Type}.

(** The instance attributes set by [__init__]. *)
Record self_ := {
  last_logged_step : option Z;
  wandb_run_url : option string;
  job_id : string;
  total_tracked_steps : option Z;
  current_tracked_steps : Z;
  verbose : bool;
  training_start_time : F;
  total_eval_time : F;
  last_log_time : F;
  metrics : gmap string (gmap string V);
}.

Definition init (job_id : string) (verbose : bool) (now1 now2 : F) : self_ :=
  {| last_logged_step := None;
     wandb_run_url := None;
     job_id := job_id;
     total_tracked_steps := None;
     current_tracked_steps := 0;
     verbose := verbose;
     training_start_time := now1;
     total_eval_time := Py.of_int 0;
     last_log_time := now2;
     metrics := ∅ |}.

Record time_seconds := { elapsed : F; remaining : F }.

(** The dictionary [progress_content] of [on_step_end]. *)
Record progress_content := {
  step : Z;
  total_steps : option Z;
  time_seconds_ : time_seconds;
  metrics_ : gmap string (gmap string V);
  wandb : option string;
}.

(** [json.dumps], from the standard library. *)
Variable json_dumps : progress_content -> string.

Inductive event :=
| LoggerInfo (message : string) (job : string)
| ProgressUpdate (job : string) (message : string).

Definition _send_update (self : self_) (message_content : progress_content)
    : list event :=
  let message := json_dumps message_content in
  [LoggerInfo message (job_id self); ProgressUpdate (job_id self) message].

Definition on_log (self : self_) (state : TrainerState) (logs : gmap string V)
    : self_ :=
  if is_world_process_zero state then
    let formatted_logs := rewrite_logs logs in
    let progress_content : gmap string (gmap string V) :=
      <["train" := default ∅ (formatted_logs !! "train")]>
      (<["eval" := default ∅ (formatted_logs !! "eval")]>
      (<["test" := default ∅ (formatted_logs !! "test")]> ∅)) in
    {| last_logged_step := last_logged_step self;
       wandb_run_url := wandb_run_url self;
       job_id := job_id self;
       total_tracked_steps := total_tracked_steps self;
       current_tracked_steps := current_tracked_steps self;
       verbose := verbose self;
       training_start_time := training_start_time self;
       total_eval_time := total_eval_time self;
       last_log_time := last_log_time self;
       metrics := progress_content |}
  else self.

(** [wandb_run]: the URL of [wandb.run] when there is a run.
    [total_num_training_steps]: the keyword argument, when passed. *)
Definition on_train_begin (self : self_) (state : TrainerState)
    (wandb_run : option string) (total_num_training_steps : option Z)
    (now : F) : self_ :=
  let url := match wandb_run with
             | Some u => Some u
             | None => wandb_run_url self
             end in
  if is_world_process_zero state then
    {| last_logged_step := Some (global_step state);
       wandb_run_url := url;
       job_id := job_id self;
       total_tracked_steps :=
         Some (default (max_steps state) total_num_training_steps);
       current_tracked_steps := current_tracked_steps self;
       verbose := verbose self;
       training_start_time := now;
       total_eval_time := total_eval_time self;
       last_log_time := last_log_time self;
       metrics := metrics self |}
  else
    {| last_logged_step := last_logged_step self;
       wandb_run_url := url;
       job_id := job_id self;
       total_tracked_steps := total_tracked_steps self;
       current_tracked_steps := current_tracked_steps self;
       verbose := verbose self;
       training_start_time := training_start_time self;
       total_eval_time := total_eval_time self;
       last_log_time := last_log_time self;
       metrics := metrics self |}.

Definition with_step_count (n : Z) (self : self_) : self_ :=
  {| last_logged_step := last_logged_step self;
     wandb_run_url := wandb_run_url self;
     job_id := job_id self;
     total_tracked_steps := total_tracked_steps self;
     current_tracked_steps := n;
     verbose := verbose self;
     training_start_time := training_start_time self;
     total_eval_time := total_eval_time self;
     last_log_time := last_log_time self;
     metrics := metrics self |}.

Definition with_last_log_time (t : F) (self : self_) : self_ :=
  {| last_logged_step := last_logged_step self;
     wandb_run_url := wandb_run_url self;
     job_id := job_id self;
     total_tracked_steps := total_tracked_steps self;
     current_tracked_steps := current_tracked_steps self;
     verbose := verbose self;
     training_start_time := training_start_time self;
     total_eval_time := total_eval_time self;
     last_log_time := t;
     metrics := metrics self |}.

(** [state.global_step % args.logging_steps == 0]; a zero divisor raises. *)
Definition time_to_log (args : TrainingArguments) (state : TrainerState)
    : Py.result bool :=
  if Qeq_bool (logging_steps args) 0
  then Py.Raise (Py.Exn Py.ZeroDivisionError "integer division or modulo by zero")
  else Py.Ok (Qeq_bool (Py.mod_ (inject_Z (global_step state)) (logging_steps args)) 0).

(** [on_step_end]; [current_time] is what [time.time()] returns.  The
    result is the updated callback with the events sent, or the exception
    together with the callback as the exception leaves it. *)
Definition on_step_end (self : self_) (args : TrainingArguments)
    (state : TrainerState) (current_time : F)
    : self_ * Py.result (list event) :=
  let self := with_step_count (current_tracked_steps self + 1) self in
  let training_time_elapsed :=
    Py.sub (Py.sub current_time (training_start_time self)) (total_eval_time self) in
  match time_to_log args state with
  | Py.Raise e => (self, Py.Raise e)
  | Py.Ok false => (self, Py.Ok [])
  | Py.Ok true =>
      if current_tracked_steps self =? 0 then
        (self, Py.Raise (Py.Exn Py.ZeroDivisionError "float division by zero"))
      else
        let time_per_step :=
          Py.div training_time_elapsed (Py.of_int (current_tracked_steps self)) in
        match total_tracked_steps self with
        | None =>
            (self, Py.Raise (Py.Exn Py.TypeError
               "unsupported operand type(s) for -: 'NoneType' and 'int'"))
        | Some total =>
            let time_remaining :=
              Py.mul time_per_step (Py.of_int (total - current_tracked_steps self)) in
            let progress_content :=
              {| step := global_step state;
                 total_steps := total_tracked_steps self;
                 time_seconds_ := {| elapsed := training_time_elapsed;
                                     remaining := time_remaining |};
                 metrics_ := metrics self;
                 wandb := wandb_run_url self |} in
            (with_last_log_time current_time self,
             Py.Ok (_send_update self progress_content))
        end
  end.

Definition on_evaluate (self : self_) (now : F) : self_ :=
  {| last_logged_step := last_logged_step self;
     wandb_run_url := wandb_run_url self;
     job_id := job_id self;
     total_tracked_steps := total_tracked_steps self;
     current_tracked_steps := current_tracked_steps self;
     verbose := verbose self;
     training_start_time := training_start_time self;
     total_eval_time := Py.add (total_eval_time self) (Py.sub now (last_log_time self));
     last_log_time := last_log_time self;
     metrics := metrics self |}.

End WithFloat.
End RunPodCallback.

(** ** Python dictionaries whose insertion order is observed *)

Module OrderedDict.
Section Ops.
Context {V : Type}.

Definition t := list (string * V).

(** [d.get(k)]; [None] when [k not in d]. *)
Fixpoint get (k : string) (d : list (string * V)) : option V :=
  match d with
  | [] => None
  | (k', v) :: d' => if decide (k' = k) then Some v else get k d'
  end.

Definition contains (k : string) (d : list (string * V)) : bool :=
  match get k d with
  | Some _ => true
  | None => false
  end.

(** [d[k] = v]: a present key keeps its place, a new key goes last. *)
Fixpoint set (k : string) (v : V) (d : list (string * V)) : list (string * V) :=
  match d with
  | [] => [(k, v)]
  | (k', v') :: d' =>
      if decide (k' = k) then (k, v) :: d' else (k', v') :: set k v d'
  end.

(** In-place update of the object stored under [k], as in
    [d[k]["refs"].append(r)]; [d[k]] raises KeyError when [k] is absent. *)
Definition update (k : string) (f : V -> V) (d : list (string * V))
    : Py.result (list (string * V)) :=
  match get k d with
  | Some v => Py.Ok (set k (f v) d)
  | None => Py.Raise (Py.Exn Py.KeyError k)
  end.

Definition keys (d : list (string * V)) : list string := map fst d.

End Ops.
End OrderedDict.

(** ** bench_eval_callback_factory *)

Module BenchEval.

Definition IGNORE_INDEX : Z := -100.
Definition bench_split : string := "eval".

(** The tokenizer, an external collaborator: its special tokens and the
    call [tokenizer(text, add_special_tokens=False).input_ids], with
    [max_length=n, truncation=True] when [Some n] is passed. *)
Record tokenizer_ := {
  bos_token : string;
  eos_token : string;
  encode : string -> option Z -> list Z;
}.

Definition option_letters : list string := ["A"; "B"; "C"; "D"; "E"; "F"; "G"].

(** [tokenizer(letter, add_special_tokens=False).input_ids[0]] *)
Definition letter_token (tokenizer : tokenizer_) (letter : string) : Py.result Z :=
  match encode tokenizer letter None with
  | t :: _ => Py.Ok t
  | [] => Py.Raise (Py.Exn Py.IndexError "list index out of range")
  end.

Definition abcd_idx (tokenizer : tokenizer_) : Py.result (list Z) :=
  mapM (letter_token tokenizer) option_letters.

(** A row of the benchmark dataset. *)
Record example := {
  input : string;
  output : string;
  subject : string;
  name : string;
}.

(** The dictionary that [tokenize_evals] returns. *)
Record tokenized := {
  input_ids : list Z;
  labels : list Z;
  subject_ : string;
}.

Definition tokenize_evals (tokenizer : tokenizer_) (ex : example) : tokenized :=
  let source := bos_token tokenizer +:+ input ex in
  let target := output ex +:+ eos_token tokenizer in
  let tokenized_source := encode tokenizer source (Some 2048) in
  let tokenized_target := encode tokenizer target (Some 2048) in
  {| input_ids := tokenized_source ++ tokenized_target;
     labels := replicate (length tokenized_source) IGNORE_INDEX ++ tokenized_target;
     subject_ := subject ex |}.

(** A row after [bench_dataset.map(tokenize_evals)]: the columns of the
    example, updated with the returned ones. *)
Record row := {
  row_input : string;
  row_output : string;
  row_subject : string;
  row_name : string;
  row_input_ids : list Z;
  row_labels : list Z;
}.

Definition dataset_map (tokenizer : tokenizer_) (ds : list example) : list row :=
  map (fun ex =>
         let t := tokenize_evals tokenizer ex in
         {| row_input := input ex;
            row_output := output ex;
            row_subject := subject_ t;
            row_name := name ex;
            row_input_ids := input_ids t;
            row_labels := labels t |}) ds.

(** [lambda x: x["labels"][-2] in abcd_idx] *)
Definition answer_is_option (abcd : list Z) (x : row) : Py.result bool :=
  match Py.index (row_labels x) (-2) with
  | Some l => Py.Ok (bool_decide (l ∈ abcd))
  | None => Py.Raise (Py.Exn Py.IndexError "list index out of range")
  end.

(** [Dataset.filter]: the predicate is applied to every row in order. *)
Fixpoint dataset_filter (p : row -> Py.result bool) (ds : list row)
    : Py.result (list row) :=
  match ds with
  | [] => Py.Ok []
  | x :: ds' =>
      b ← p x;
      kept ← dataset_filter p ds';
      Py.Ok (if b : bool then x :: kept else kept)
  end.

(** The [with zero_first(...)] block. *)
Definition prepare (tokenizer : tokenizer_) (abcd : list Z) (ds : list example)
    : Py.result (list row) :=
  dataset_filter (answer_is_option abcd) (dataset_map tokenizer ds).

Section OnEvaluate.
Context {F : Type} `{Py.Float F}.

(** A batch of the bench data loader: [batch["labels"]], one row of label
    ids per example. *)
Record batch := { batch_labels : list (list Z) }.

(** What [trainer.prediction_step(model, batch, prediction_loss_only=False)]
    returns: the loss, the logits indexed by example, position and token
    id, and the labels. *)
Record prediction := {
  loss : F;
  logits : list (list (list F));
  labels_out : list (list Z);
}.

(** The trainer with its model, and the accuracy metric
    [accuracy.compute(references=.., predictions=..)["accuracy"]]. *)
Variable prediction_step : batch -> prediction.
Variable accuracy : list Z -> list Z -> F.
(** The order in which [set(names)] is iterated. *)
Variable set_order : list string -> list string.
(** The literal [0.0]. *)
Variable zero : F.

Variable abcd : list Z.

(** [(labels != IGNORE_INDEX).nonzero()[0][0]] *)
Fixpoint first_label_from (i : Z) (labels : list Z) : Py.result Z :=
  match labels with
  | [] => Py.Raise (Py.Exn Py.IndexError
                      "index 0 is out of bounds for dimension 0 with size 0")
  | l :: labels' =>
      if decide (l = IGNORE_INDEX) then first_label_from (i + 1) labels'
      else Py.Ok i
  end.

Definition first_label (labels : list Z) : Py.result Z :=
  first_label_from 0 labels.

Definition tensor_get {A} (t : list A) (i : Z) : Py.result A :=
  match Py.index t i with
  | Some a => Py.Ok a
  | None => Py.Raise (Py.Exn Py.IndexError "index out of range")
  end.

(** [torch.argmax] of a vector: the first index of a maximal entry. *)
Fixpoint argmax_from (best_i : Z) (best : F) (i : Z) (xs : list F) : Z :=
  match xs with
  | [] => best_i
  | x :: xs' =>
      if Py.ltb best x then argmax_from i x (i + 1) xs'
      else argmax_from best_i best (i + 1) xs'
  end.

Definition argmax (xs : list F) : Py.result Z :=
  match xs with
  | [] => Py.Raise (Py.Exn Py.IndexError "argmax of an empty tensor")
  | x :: xs' => Py.Ok (argmax_from 0 x 1 xs')
  end.

(** The body of [for i, logit in enumerate(logits)]. *)
Definition predict (labels_b : list (list Z)) (i : Z) (logit : list (list F))
    : Py.result Z :=
  labels_i ← tensor_get labels_b i;
  label_non_zero_id ← first_label labels_i;
  logit_row ← tensor_get logit (label_non_zero_id - 1);
  logit_abcd ← mapM (tensor_get logit_row) abcd;
  argmax logit_abcd.

Fixpoint predict_all (labels_b : list (list Z)) (i : Z)
    (logits : list (list (list F))) : Py.result (list Z) :=
  match logits with
  | [] => Py.Ok []
  | logit :: logits' =>
      p ← predict labels_b i logit;
      ps ← predict_all labels_b (i + 1) logits';
      Py.Ok (p :: ps)
  end.

(** [t.view(-1, 2)[:, 0]] of a vector: its length must be even and not
    zero. *)
Fixpoint column0 (t : list Z) : list Z :=
  match t with
  | a :: _ :: t' => a :: column0 t'
  | _ => []
  end.

Definition view2_column0 (t : list Z) : Py.result (list Z) :=
  if (length t =? 0)%nat || Nat.odd (length t)
  then Py.Raise (Py.Exn Py.RuntimeError "shape '[-1, 2]' is invalid for input")
  else Py.Ok (column0 t).

(** [labels[labels != IGNORE_INDEX]]: the kept entries in row-major order. *)
Definition masked (labels : list (list Z)) : list Z :=
  filter (fun l => l ≠ IGNORE_INDEX) (concat labels).

(** [abcd_idx.index(label) if label in abcd_idx else -1] *)
Fixpoint index_of (label : Z) (i : Z) (l : list Z) : Z :=
  match l with
  | [] => -1
  | x :: l' => if decide (x = label) then i else index_of label (i + 1) l'
  end.

Definition reference (label : Z) : Z := index_of label 0 abcd.

(** [preds], [refs] and [loss_bench]. *)
Record running := {
  preds : list Z;
  refs : list Z;
  loss_bench : F;
}.

(** The body of the loop over the data loader. *)
Definition eval_batch (acc : running) (b : batch) : Py.result running :=
  let out := prediction_step b in
  ps ← predict_all (batch_labels b) 0 (logits out);
  labels ← view2_column0 (masked (labels_out out));
  Py.Ok {| preds := preds acc ++ ps;
           refs := refs acc ++ map reference labels;
           loss_bench := Py.add (loss_bench acc) (loss out) |}.

Fixpoint eval_batches (acc : running) (data_loader : list batch)
    : Py.result running :=
  match data_loader with
  | [] => Py.Ok acc
  | b :: data_loader' =>
      acc' ← eval_batch acc b;
      eval_batches acc' data_loader'
  end.

Definition eval_loop (data_loader : list batch) : Py.result running :=
  eval_batches {| preds := []; refs := []; loss_bench := Py.of_int 0 |} data_loader.

(** The value [{"refs": [...], "preds": [...]}] kept per category. *)
Record bench_data := { d_refs : list Z; d_preds : list Z }.

Definition no_data : bench_data := {| d_refs := []; d_preds := [] |}.

Definition append_pred (p : Z) (d : bench_data) : bench_data :=
  {| d_refs := d_refs d; d_preds := d_preds d ++ [p] |}.
Definition append_ref (r : Z) (d : bench_data) : bench_data :=
  {| d_refs := d_refs d ++ [r]; d_preds := d_preds d |}.
Definition extend_refs (rs : list Z) (d : bench_data) : bench_data :=
  {| d_refs := d_refs d ++ rs; d_preds := d_preds d |}.
Definition extend_preds (ps : list Z) (d : bench_data) : bench_data :=
  {| d_refs := d_refs d; d_preds := d_preds d ++ ps |}.

(** [{s: {"refs": [], "preds": []} for s in set(bench_name)}] *)
Definition empty_bench_names (bench_name : list string)
    : list (string * bench_data) :=
  fold_left (fun d s => OrderedDict.set s no_data d) (set_order bench_name) [].

(** [for s, p, r in zip(bench_name, preds, refs)] *)
Fixpoint by_subject (bench_names : list (string * bench_data))
    (bench_name : list string) (preds refs : list Z)
    : Py.result (list (string * bench_data)) :=
  match bench_name, preds, refs with
  | s :: bench_name', p :: preds', r :: refs' =>
      d ← OrderedDict.update s (append_pred p) bench_names;
      d ← OrderedDict.update s (append_ref r) d;
      by_subject d bench_name' preds' refs'
  | _, _, _ => Py.Ok bench_names
  end.

(** What one process holds when it reaches [barrier()]. *)
Record local_ := {
  local_bench_names : list (string * bench_data);
  local_loss_bench : F;
  local_len_data_loader : Z;
}.

Definition evaluate_local (bench_name : list string) (data_loader : list batch)
    : Py.result local_ :=
  acc ← eval_loop data_loader;
  bench_names ← by_subject (empty_bench_names bench_name) bench_name
                   (preds acc) (refs acc);
  Py.Ok {| local_bench_names := bench_names;
           local_loss_bench := loss_bench acc;
           local_len_data_loader := Z.of_nat (length data_loader) |}.

(** The loop "Combine results from all GPUs". *)
Definition combine_item (combined : list (string * bench_data))
    (item : string * bench_data) : list (string * bench_data) :=
  let '(name, data) := item in
  let combined :=
    if OrderedDict.contains name combined then combined
    else OrderedDict.set name no_data combined in
  match OrderedDict.get name combined with
  | Some d =>
      OrderedDict.set name (extend_preds (d_preds data) (extend_refs (d_refs data) d))
        combined
  | None => combined
  end.

Definition combine (gathered_bench_names : list (list (string * bench_data)))
    : list (string * bench_data) :=
  fold_left (fun combined bench_name => fold_left combine_item bench_name combined)
    gathered_bench_names [].

(** The state of the scoring loop: [results], [bench_scores],
    [bench_refs] and [bench_preds]. *)
Record scoring := {
  sc_results : gmap string F;
  sc_scores : list F;
  sc_refs : list Z;
  sc_preds : list Z;
}.

Definition accuracy_key (bench_name : string) : string :=
  bench_split +:+ "_bench_accuracy_" +:+ bench_name.

Definition score_item (st : scoring) (item : string * bench_data) : scoring :=
  let '(bench_name, data) := item in
  let bench_score := accuracy (d_refs data) (d_preds data) in
  let bench_refs := sc_refs st ++ d_refs data in
  let bench_preds := sc_preds st ++ d_preds data in
  if negb (Py.isna bench_score) then
    {| sc_results := <[accuracy_key bench_name := bench_score]> (sc_results st);
       sc_scores := sc_scores st ++ [bench_score];
       sc_refs := bench_refs;
       sc_preds := bench_preds |}
  else
    {| sc_results := <[accuracy_key bench_name := zero]> (sc_results st);
       sc_scores := sc_scores st ++ [zero];
       sc_refs := bench_refs;
       sc_preds := bench_preds |}.

(** The [else] branch of [on_evaluate], run by the main process on what
    was gathered. *)
Definition main_results (loss_bench_ranks : list F) (len_data_loader_ranks : list Z)
    (gathered_bench_names : list (list (string * bench_data)))
    : Py.result (gmap string F) :=
  let total_len := fold_left Z.add len_data_loader_ranks 0 in
  if total_len =? 0 then
    Py.Raise (Py.Exn Py.ZeroDivisionError "division by zero")
  else
    let bench_loss := Py.div (Py.sum loss_bench_ranks) (Py.of_int total_len) in
    let results := <[bench_split +:+ "_bench_loss" := bench_loss]> ∅ in
    let combined_bench_names := combine gathered_bench_names in
    let st := fold_left score_item combined_bench_names
                {| sc_results := results; sc_scores := [];
                   sc_refs := []; sc_preds := [] |} in
    let results := <[bench_split +:+ "_bench_average_accuracy"
                       := Py.np_mean (sc_scores st)]> (sc_results st) in
    let results := <[bench_split +:+ "_bench_total_accuracy"
                       := accuracy (sc_refs st) (sc_preds st)]> results in
    Py.Ok results.

(** [for key, val in results.items(): metrics[key] = val] *)
Definition update_metrics (results metrics : gmap string F) : gmap string F :=
  map_fold (fun key val metrics => <[key := val]> metrics) metrics results.

(** One process of the group: its shard of batches and the [metrics]
    dictionary passed to its callback. *)
Record process := {
  data_loader : list batch;
  metrics : gmap string F;
}.

(** The processes that take part: rank 0 and, when the run is
    distributed, the other ranks in rank order. *)
Record world := {
  is_distributed : bool;
  main : process;
  others : list process;
}.

Definition ranks (w : world) : list process :=
  main w :: (if is_distributed w then others w else []).

(** Modelled from the spec: [gather_scalar_from_all_ranks] of
    axolotl.utils.distributed, which is not among the sources; on the
    coordinating process it yields the value of every rank, in rank
    order. *)
Definition gather_scalar_from_all_ranks {A} (values : list A) : list A := values.

(** [dist.gather_object(obj, gathered, dst=0)] of torch.distributed: the
    objects of all ranks, in rank order, on rank 0. *)
Definition gather_object {A} (objects : list A) : list A := objects.

(** Modelled from the spec: [broadcast_dict] of axolotl.utils.distributed,
    which is not among the sources; every process receives the dictionary
    of the coordinating process. *)
Definition broadcast_dict (main_dict : gmap string F) (w : world)
    : list (gmap string F) :=
  map (fun _ => main_dict) (ranks w).

(** [on_evaluate] on every process of the group; the result lists the
    [metrics] dictionary of each process, in rank order, after the
    callback has returned. *)
Definition on_evaluate (bench_name : list string) (w : world)
    : Py.result (list (gmap string F)) :=
  locals ← mapM (fun p => evaluate_local bench_name (data_loader p)) (ranks w);
  let loss_bench_ranks :=
    gather_scalar_from_all_ranks (map local_loss_bench locals) in
  let len_data_loader_ranks :=
    gather_scalar_from_all_ranks (map local_len_data_loader locals) in
  let gathered_bench_names :=
    if is_distributed w
    then gather_object (map local_bench_names locals)
    else map local_bench_names (take 1 locals) in
  results ← main_results loss_bench_ranks len_data_loader_ranks gathered_bench_names;
  Py.Ok (zip_with update_metrics (broadcast_dict results w) (map metrics (ranks w))).

End OnEvaluate.
End BenchEval.

(** ** GPUStatsCallback *)

Module GPUStatsCallback.

(** [self.cfg.device] and [self.logged]. *)
Record self_ := {
  device : string;
  logged : bool;
}.

Inductive event :=
| LogGpuMemoryUsage (msg : string) (device : string).

Definition init (device : string) : self_ :=
  {| device := device; logged := false |}.

Definition on_step_end (self : self_) (state : TrainerState) (control : TrainerControl)
    : self_ * TrainerControl * list event :=
  if negb (logged self) && (global_step state >? 1) then
    ({| device := device self; logged := true |}, control,
     [LogGpuMemoryUsage "while training" (device self)])
  else (self, control, []).

(** The callback over the step ends of a run: what each call logs. *)
Fixpoint step_ends (self : self_) (states : list TrainerState) (control : TrainerControl)
    : self_ * list (list event) :=
  match states with
  | [] => (self, [])
  | state :: states' =>
      let '(self', _, events) := on_step_end self state control in
      let '(self'', rest) := step_ends self' states' control in
      (self'', events :: rest)
  end.

End GPUStatsCallback.

(** ** log_prediction_callback_factory *)

Module LogPredictionCallback.

(** The loop of [find_ranges] from index [i] on, over [lst[i:]]. *)
Fixpoint find_ranges_loop (ranges : list (Z * Z)) (start i : Z) (rest : list Z)
    : list (Z * Z) * Z :=
  match rest with
  | [] => (ranges, start)
  | x :: rest' =>
      if x =? 0 then find_ranges_loop (ranges ++ [(start, i - 1)]) i (i + 1) rest'
      else find_ranges_loop ranges start (i + 1) rest'
  end.

Definition find_ranges (lst : list Z) : list (Z * Z) :=
  let '(ranges, start) := find_ranges_loop [] 0 1 (drop 1 lst) in
  let end_ := Z.of_nat (length lst) - 1 in
  ranges ++ [(start, end_)].

(** The slice [t[start:stop]] for bounds that are not negative. *)
Definition slice {A} (t : list A) (start stop : Z) : list A :=
  take (Z.to_nat stop - Z.to_nat start) (drop (Z.to_nat start) t).

(** [pos_ranges] of one example: [pos_ids] is [None] when the batch has no
    position ids. *)
Definition pos_ranges (pos_ids : option (list Z)) (input_ids_all : list Z)
    : list (Z * Z) :=
  match pos_ids with
  | None => [(0, Z.of_nat (length input_ids_all) - 1)]
  | Some ids => find_ranges ids
  end.

(** The ranges that get past [if start == end: continue], each with the
    slice [input_ids_all[start : end + 1]]. *)
Definition sequences (pos_ids : option (list Z)) (input_ids_all : list Z)
    : list (list Z) :=
  map (fun r => slice input_ids_all r.1 (r.2 + 1))
    (filter (fun r => r.1 <> r.2) (pos_ranges pos_ids input_ids_all)).

Section Table.
Context {B R : Type}.
(** The rows a batch gives rise to (prediction step, decoding and
    generation are the trainer's and the tokenizer's). *)
Variable rows : B -> list R.

(** [table.add_data(row_index, ...); row_index += 1] over the rows of one
    batch. *)
Fixpoint add_rows (row_index : Z) (rs : list R) : list (Z * R) :=
  match rs with
  | [] => []
  | r :: rs' => (row_index, r) :: add_rows (row_index + 1) rs'
  end.

(** The loop over the data loader in [log_table_from_dataloader]. *)
Fixpoint table_loop (eval_table_size row_index : Z) (table_dataloader : list B)
    : list (Z * R) :=
  match table_dataloader with
  | [] => []
  | batch :: rest =>
      if row_index >? eval_table_size then []
      else
        let rs := rows batch in
        add_rows row_index rs
        ++ table_loop eval_table_size (row_index + Z.of_nat (length rs)) rest
  end.

Inductive event :=
| ModelEval
| WandbLog (title : string) (table : list (Z * R)).

Definition log_table_from_dataloader (eval_table_size : Z) (name : string)
    (table_dataloader : list B) : list event :=
  [WandbLog (name +:+ " - Predictions vs Ground Truth")
     (table_loop eval_table_size 0 table_dataloader)].

Definition on_evaluate (eval_table_size : Z) (is_main_process : bool)
    (control : TrainerControl) (eval_dataloader : list B)
    : TrainerControl * list event :=
  if eval_table_size <=? 0 then (control, [])
  else
    (control,
     ModelEval ::
     (if is_main_process
      then log_table_from_dataloader eval_table_size "Eval" eval_dataloader
      else [])).

End Table.
End LogPredictionCallback.

(** ** The set-up of bench_eval_callback_factory *)

Module BenchSetup.

(** [s.split(sep)] for a separator of one character. *)
Fixpoint split (sep : ascii) (s : string) : list string :=
  match s with
  | EmptyString => [EmptyString]
  | String c s' =>
      if Ascii.eqb c sep then EmptyString :: split sep s'
      else match split sep s' with
           | p :: ps => String c p :: ps
           | [] => [String c EmptyString]
           end
  end.

(** [s.split(sep, maxsplit)]. *)
Fixpoint split_max (sep : ascii) (maxsplit : nat) (s : string) : list string :=
  match s with
  | EmptyString => [EmptyString]
  | String c s' =>
      match maxsplit with
      | O => [s]
      | S n =>
          if Ascii.eqb c sep then EmptyString :: split_max sep n s'
          else match split_max sep maxsplit s' with
               | p :: ps => String c p :: ps
               | [] => [String c EmptyString]
               end
      end
  end.

(** [sep.join(parts)]. *)
Fixpoint join (sep : string) (parts : list string) : string :=
  match parts with
  | [] => EmptyString
  | [p] => p
  | p :: ps => p +:+ sep +:+ join sep ps
  end.

(** [c in s] for one character. *)
Fixpoint contains (c : ascii) (s : string) : bool :=
  match s with
  | EmptyString => false
  | String a s' => Ascii.eqb a c || contains c s'
  end.

(** [s.replace(a, b)] for single characters. *)
Fixpoint replace (a b : ascii) (s : string) : string :=
  match s with
  | EmptyString => EmptyString
  | String c s' => String (if Ascii.eqb c a then b else c) (replace a b s')
  end.

Section Subject.
(** [str.strip] and [str.lower], the interpreter's. *)
Variable strip : string -> string.
Variable lower : string -> string.

(** The dictionary that [transform_bench_subject] returns. *)
Record transformed := {
  t_name : string;
  t_subject : string;
}.

Definition transform_bench_subject (subject : string) : transformed :=
  let parts := split ":" subject in
  let first_part :=
    replace "-" "_" (lower (strip (default EmptyString (head parts)))) in
  let second_part :=
    if (1 <? length parts)%nat
    then replace "-" "_" (strip (default EmptyString (parts !! 1%nat)))
    else "all" in
  {| t_name := first_part; t_subject := second_part |}.

End Subject.

(** A call of [load_dataset(path, data_files=...)], and whether the eval
    split is then mapped through [transform_bench_subject]. *)
Record load_call := {
  path : string;
  data_files : list (string * string);
  map_subjects : bool;
}.

Inductive choice :=
| Load (call : load_call)
| ValueError (msg : string).

(** The chain of [if]s on [trainer.args.bench_dataset]. *)
Definition choose (bench_dataset : string) : choice :=
  if decide (bench_dataset = "mmlu-zs") then
    Load {| path := "openaccess-ai-collective/mmlu-evals";
            data_files := [("eval", "zero_shot_mmlu_val.json");
                           ("test", "zero_shot_mmlu_test.json")];
            map_subjects := false |}
  else if bool_decide (bench_dataset ∈ ["mmlu"; "mmlu-fs"]) then
    Load {| path := "openaccess-ai-collective/mmlu-evals";
            data_files := [("eval", "five_shot_mmlu_val.json");
                           ("test", "five_shot_mmlu_test.json")];
            map_subjects := false |}
  else if contains "/" bench_dataset then
    let bench_ds := bench_dataset in
    let bench_ds_name := join "/" (take 2 (split_max "/" 2 bench_ds)) in
    let bench_ds_data_file := join "/" (drop 2 (split_max "/" 2 bench_ds)) in
    Load {| path := bench_ds_name;
            data_files := [("eval", bench_ds_data_file)];
            map_subjects := true |}
  else
    ValueError ("unhandled value `" +:+ bench_dataset
                +:+ "` for bench_dataset training args").

(** The number of occurrences of a character. *)
Fixpoint count (c : ascii) (s : string) : nat :=
  match s with
  | EmptyString => O
  | String a s' => (if Ascii.eqb a c then 1 else 0) + count c s'
  end.

End BenchSetup.

(** ** The calls the trainer makes on a RunPodCallback *)

Module RunPodCalls.
Section WithFloat.
Context {F : Type} `{Py.Float F} {V : Type}.
Variable json_dumps : RunPodCallback.progress_content (F := F) (V := V) -> string.

(** The events after [on_train_begin], with their arguments. *)
Inductive call :=
| OnLog (state : TrainerState) (logs : gmap string V)
| OnStepEnd (args : TrainingArguments) (state : TrainerState) (current_time : F)
| OnEvaluate (now : F).

Definition is_step_end (c : call) : bool :=
  match c with
  | OnStepEnd _ _ _ => true
  | _ => false
  end.

(** The callback after one call, whether the call returned or raised. *)
Definition after (self : RunPodCallback.self_ (F := F) (V := V)) (c : call)
    : RunPodCallback.self_ :=
  match c with
  | OnLog state logs => RunPodCallback.on_log self state logs
  | OnStepEnd args state current_time =>
      fst (RunPodCallback.on_step_end json_dumps self args state current_time)
  | OnEvaluate now => RunPodCallback.on_evaluate self now
  end.

Definition after_all (self : RunPodCallback.self_ (F := F) (V := V))
    (calls : list call) : RunPodCallback.self_ :=
  fold_left after calls self.

End WithFloat.
End RunPodCalls.

(** ** Exact arithmetic: an instance of the number interface

    Rationals kept in lowest terms, and a NaN.  Binary floating point
    agrees with it on values and results that need no rounding; it is what
    the concrete runs below compute with. *)

Module Exact.

Inductive num :=
| Num (q : Q)
| NaN.

Definition lift2 (f : Q -> Q -> Q) (a b : num) : num :=
  match a, b with
  | Num x, Num y => Num (Qred (f x y))
  | _, _ => NaN
  end.

Definition div (a b : num) : num :=
  match b with
  | Num y => if Qeq_bool y 0 then NaN else lift2 Qdiv a b
  | NaN => NaN
  end.

Definition ltb (a b : num) : bool :=
  match a, b with
  | Num x, Num y => if Qlt_le_dec x y then true else false
  | _, _ => false
  end.

Definition isna (a : num) : bool :=
  match a with
  | NaN => true
  | Num _ => false
  end.

Definition of_int (z : Z) : num := Num (inject_Z z).

Definition mean (xs : list num) : num :=
  match xs with
  | [] => NaN
  | _ => div (fold_left (lift2 Qplus) xs (of_int 0)) (of_int (Z.of_nat (length xs)))
  end.

#[global] Instance float : Py.Float num := {|
  Py.of_int := of_int;
  Py.add := lift2 Qplus;
  Py.sub := lift2 Qminus;
  Py.mul := lift2 Qmult;
  Py.div := div;
  Py.ltb := ltb;
  Py.isna := isna;
  Py.np_mean := mean;
|}.

(** The accuracy metric: the share of positions where the prediction is
    the reference, and NaN over no position at all. *)
Fixpoint hits (refs preds : list Z) : Z :=
  match refs, preds with
  | r :: refs', p :: preds' => (if decide (r = p) then 1 else 0) + hits refs' preds'
  | _, _ => 0
  end.

Definition accuracy (refs preds : list Z) : num :=
  div (of_int (hits refs preds)) (of_int (Z.of_nat (length refs))).

(** A toy model over a vocabulary of ten tokens, the option tokens being
    0 to 6 and the eos token 7: at position [t] of example [i] the logit is
    1 for token [(i + t) mod 7] and 0 for every other token; the loss of a
    batch is 1/2 per example. *)
Definition toy_abcd : list Z := [0; 1; 2; 3; 4; 5; 6].

Definition toy_row (best : nat) : list num :=
  map (fun j => if (j =? best)%nat then of_int 1 else of_int 0) (seq 0 10).

Definition toy_logits (labels : list (list Z)) : list (list (list num)) :=
  imap (fun i ls => imap (fun t _ => toy_row ((i + t) mod 7)) ls) labels.

Definition toy_step (b : BenchEval.batch) : BenchEval.prediction :=
  {| BenchEval.loss := Num (Qred (Z.of_nat (length (BenchEval.batch_labels b)) # 2));
     BenchEval.logits := toy_logits (BenchEval.batch_labels b);
     BenchEval.labels_out := BenchEval.batch_labels b |}.

Definition no_running : BenchEval.running :=
  {| BenchEval.preds := []; BenchEval.refs := []; BenchEval.loss_bench := of_int 0 |}.

(** A group of two processes over a dataset of four examples in two
    categories: rank 0 holds one batch of two examples, rank 1 two batches
    of one example each. *)
Definition toy_names : list string := ["math"; "law"; "math"; "law"].

Definition toy_world : BenchEval.world :=
  {| BenchEval.is_distributed := true;
     BenchEval.main :=
       {| BenchEval.data_loader :=
            [{| BenchEval.batch_labels := [[-100; -100; 1; 7]; [-100; 3; 7; -100]] |}];
          BenchEval.metrics := ∅ |};
     BenchEval.others :=
       [{| BenchEval.data_loader :=
             [{| BenchEval.batch_labels := [[-100; 2; 7]] |};
              {| BenchEval.batch_labels := [[-100; -100; 0; 7]] |}];
           BenchEval.metrics := {["eval_loss" := Num 1]} |}] |}.

(** What the two processes of [toy_world] hold at the barrier. *)
Definition toy_locals : list BenchEval.local_ :=
  [{| BenchEval.local_bench_names :=
        [("math", {| BenchEval.d_refs := [1]; BenchEval.d_preds := [1] |});
         ("law", {| BenchEval.d_refs := [3]; BenchEval.d_preds := [1] |})];
      BenchEval.local_loss_bench := Num 1;
      BenchEval.local_len_data_loader := 1 |};
   {| BenchEval.local_bench_names :=
        [("math", {| BenchEval.d_refs := [2]; BenchEval.d_preds := [0] |});
         ("law", {| BenchEval.d_refs := [0]; BenchEval.d_preds := [1] |})];
      BenchEval.local_loss_bench := Num 1;
      BenchEval.local_len_data_loader := 2 |}].

(** The callback on [toy_world]. *)
Definition toy_on_evaluate : Py.result (list (gmap string num)) :=
  BenchEval.on_evaluate toy_step accuracy remove_dups (of_int 0) toy_abcd
    toy_names toy_world.

End Exact.

(** ** Sample inputs for concrete runs *)

Module Samples.

Definition json
    (c : RunPodCallback.progress_content (F := Exact.num) (V := Exact.num)) : string :=
  "{step " +:+ pretty (RunPodCallback.step c) +:+ "}".

Definition args10 : TrainingArguments :=
  {| evaluation_strategy := NO; eval_steps := 1;
     save_strategy := NO; save_steps := 500;
     logging_steps := 10; output_dir := "out" |}.

Definition on_zero (step : Z) : TrainerState :=
  {| global_step := step; max_steps := 100; is_world_process_zero := true |}.

Definition on_worker (step : Z) : TrainerState :=
  {| global_step := step; max_steps := 100; is_world_process_zero := false |}.

Definition fresh : RunPodCallback.self_ (F := Exact.num) (V := Exact.num) :=
  RunPodCallback.init "job" false (Exact.of_int 0) (Exact.of_int 0).

(** A callback after [on_train_begin] on world process zero. *)
Definition begun : RunPodCallback.self_ (F := Exact.num) (V := Exact.num) :=
  RunPodCallback.on_train_begin fresh (on_zero 0) None None (Exact.of_int 1).

(** A step end, a log and an evaluation. *)
Definition calls (state : Z -> TrainerState)
    : list (RunPodCalls.call (F := Exact.num) (V := Exact.num)) :=
  [RunPodCalls.OnStepEnd args10 (state 1) (Exact.of_int 2);
   RunPodCalls.OnLog (state 1) (<["loss" := Exact.Num 1]> (<["eval_loss" := Exact.Num 2]> ∅));
   RunPodCalls.OnEvaluate (Exact.of_int 3)].

(** Two processes without a batch. *)
Definition idle_world : BenchEval.world (F := Exact.num) :=
  {| BenchEval.is_distributed := true;
     BenchEval.main := {| BenchEval.data_loader := []; BenchEval.metrics := ∅ |};
     BenchEval.others := [{| BenchEval.data_loader := []; BenchEval.metrics := ∅ |}] |}.

End Samples.

(** ** Vocabulary of the statements *)

Section RewriteLogsInvariant.
Context {V : Type}.

(** The three buckets as a dictionary. *)
Definition buckets (train eval_ test : gmap string V) : gmap string (gmap string V) :=
  <["train" := train]> (<["eval" := eval_]> (<["test" := test]> ∅)).

(** What the loop of [rewrite_logs] maintains between the items seen so far
    and the buckets. *)
Definition partitioned (new_d : gmap string (gmap string V)) (d : gmap string V) : Prop :=
  exists train eval_ test : gmap string V,
    new_d = buckets train eval_ test /\
    (forall k, eval_ !! k = d !! ("eval_" +:+ k)) /\
    (forall k, test !! k = d !! ("test_" +:+ k)) /\
    (forall k, train !! k =
               if Py.startswith "eval_" k || Py.startswith "test_" k
               then None else d !! k) /\
    (size train + size eval_ + size test = size d)%nat.

End RewriteLogsInvariant.

(** The second-to-last element of a list, when it has one. *)
Definition second_to_last (l : list Z) : option Z := reverse l !! 1%nat.

(** A row whose second-to-last label is one of the option tokens. *)
Definition has_option_answer (abcd : list Z) (x : BenchEval.row) : bool :=
  match second_to_last (BenchEval.row_labels x) with
  | Some l => bool_decide (l ∈ abcd)
  | None => false
  end.

(** The tokens of the source of a benchmark example (the bos token followed
    by the input) and of its target (the output followed by the eos token),
    each cut at 2048 tokens. *)
Definition source_tokens (tokenizer : BenchEval.tokenizer_)
    (ex : BenchEval.example) : list Z :=
  BenchEval.encode tokenizer
    (BenchEval.bos_token tokenizer +:+ BenchEval.input ex) (Some 2048).

Definition target_tokens (tokenizer : BenchEval.tokenizer_)
    (ex : BenchEval.example) : list Z :=
  BenchEval.encode tokenizer
    (BenchEval.output ex +:+ BenchEval.eos_token tokenizer) (Some 2048).

(** The labels of an example: -100 for every source token, then the target
    tokens. *)
Definition example_labels (tokenizer : BenchEval.tokenizer_)
    (ex : BenchEval.example) : list Z :=
  replicate (length (source_tokens tokenizer ex)) (-100)
  ++ target_tokens tokenizer ex.

(** An example whose second-to-last label is one of the option tokens. *)
Definition example_retained (tokenizer : BenchEval.tokenizer_) (abcd : list Z)
    (ex : BenchEval.example) : bool :=
  match second_to_last (example_labels tokenizer ex) with
  | Some l => bool_decide (l ∈ abcd)
  | None => false
  end.

(** A row of the tokenized dataset is the row of an example: the columns of
    the example, with its input ids and labels. *)
Definition row_of_example (tokenizer : BenchEval.tokenizer_)
    (ex : BenchEval.example) (x : BenchEval.row) : Prop :=
  BenchEval.row_input x = BenchEval.input ex /\
  BenchEval.row_output x = BenchEval.output ex /\
  BenchEval.row_subject x = BenchEval.subject ex /\
  BenchEval.row_name x = BenchEval.name ex /\
  BenchEval.row_input_ids x = source_tokens tokenizer ex ++ target_tokens tokenizer ex /\
  BenchEval.row_labels x = example_labels tokenizer ex.

Section AnswerPosition.
Context {F : Type} `{Py.Float F}.
Variable abcd : list Z.

(** The position of the first label that is not IGNORE_INDEX. *)
Fixpoint first_answer_position (labels : list Z) : option nat :=
  match labels with
  | [] => None
  | l :: labels' =>
      if decide (l = BenchEval.IGNORE_INDEX)
      then S <$> first_answer_position labels'
      else Some 0%nat
  end.

(** The prediction for one example, in the words of the claim: the argmax
    over the logits of the option tokens at the position one before the
    first label that is not IGNORE_INDEX. *)
Definition claimed_prediction (logit : list (list F)) (labels : list Z) : option Z :=
  match first_answer_position labels with
  | Some (S before) =>
      match logit !! before with
      | Some logit_row =>
          match mapM (BenchEval.tensor_get logit_row) abcd with
          | Py.Ok options =>
              match BenchEval.argmax options with
              | Py.Ok p => Some p
              | Py.Raise _ => None
              end
          | Py.Raise _ => None
          end
      | None => None
      end
  | _ => None
  end.

(** The reference for one example, in the words of the claim: the place
    among the option tokens of the first label that is not IGNORE_INDEX, or
    -1 when it is not an option token. *)
Definition claimed_reference (labels : list Z) : option Z :=
  match first_answer_position labels with
  | Some p => BenchEval.reference abcd <$> labels !! p
  | None => None
  end.

(** The labels of an example that are not IGNORE_INDEX. *)
Definition answer_labels (labels : list Z) : list Z :=
  filter (fun l => l ≠ BenchEval.IGNORE_INDEX) labels.

End AnswerPosition.

Section Aggregation.
Context {F : Type} `{Py.Float F}.
Variable prediction_step : BenchEval.batch -> BenchEval.prediction (F := F).
Variable accuracy : list Z -> list Z -> F.
Variable zero : F.

(** The loss a process has accumulated over its batches. *)
Definition accumulated_loss (p : BenchEval.process (F := F)) : F :=
  fold_left Py.add
    (map (fun b => BenchEval.loss (prediction_step b)) (BenchEval.data_loader p))
    (Py.of_int 0).

Definition number_of_batches (p : BenchEval.process (F := F)) : Z :=
  Z.of_nat (length (BenchEval.data_loader p)).

(** The sum of the accumulated losses of all ranks over the sum of their
    numbers of batches. *)
Definition weighted_bench_loss (w : BenchEval.world (F := F)) : F :=
  Py.div (Py.sum (map accumulated_loss (BenchEval.ranks w)))
         (Py.of_int (fold_left Z.add (map number_of_batches (BenchEval.ranks w)) 0)).

(** The other reading of an average loss: the plain mean of the average
    losses of the ranks. *)
Definition rank_average (p : BenchEval.process (F := F)) : F :=
  Py.div (accumulated_loss p) (Py.of_int (number_of_batches p)).

Definition mean_of_rank_averages (w : BenchEval.world (F := F)) : F :=
  Py.np_mean (map rank_average (BenchEval.ranks w)).

(** The score of a category: its accuracy, or 0.0 when that is NaN. *)
Definition category_score (d : BenchEval.bench_data) : F :=
  let s := accuracy (BenchEval.d_refs d) (BenchEval.d_preds d) in
  if Py.isna s then zero else s.

(** The entries for one category in the tables of all ranks, in rank
    order. *)
Definition category_items (name : string)
    (tables : list (list (string * BenchEval.bench_data)))
    : list BenchEval.bench_data :=
  map snd (filter (fun item => item.1 = name) (concat tables)).

Definition join (d : BenchEval.bench_data) (ds : list BenchEval.bench_data)
    : BenchEval.bench_data :=
  {| BenchEval.d_refs := BenchEval.d_refs d ++ concat (map BenchEval.d_refs ds);
     BenchEval.d_preds := BenchEval.d_preds d ++ concat (map BenchEval.d_preds ds) |}.

(** A category merged over the ranks: absent when no rank has it, else the
    references and the predictions of the ranks one after the other. *)
Definition merged_category (name : string)
    (tables : list (list (string * BenchEval.bench_data)))
    : option BenchEval.bench_data :=
  match category_items name tables with
  | [] => None
  | ds => Some (join BenchEval.no_data ds)
  end.

End Aggregation.

Section RangesVocabulary.

(** The ranges that [find_ranges] closes from index [i] on, and the start
    of the range left open, without the accumulator. *)
Fixpoint cuts (start i : Z) (rest : list Z) : list (Z * Z) * Z :=
  match rest with
  | [] => ([], start)
  | x :: rest' =>
      if x =? 0 then
        let '(ranges, open) := cuts i (i + 1) rest' in
        ((start, i - 1) :: ranges, open)
      else cuts start (i + 1) rest'
  end.

(** Ranges that follow one another: the first starts at [from], each next
    one starts right after the one before, and the last ends at [last]. *)
Fixpoint chain (from : Z) (ranges : list (Z * Z)) (last : Z) : Prop :=
  match ranges with
  | [] => from = last + 1
  | (s, e) :: ranges' => s = from /\ s <= e /\ chain (e + 1) ranges' last
  end.

(** The number of zeros of a list. *)
Definition zeros (l : list Z) : nat := length (filter (fun x => x = 0) l).

End RangesVocabulary.

(** The index of the first element that satisfies [p]. *)
Fixpoint first_index {A} (p : A -> bool) (l : list A) : option nat :=
  match l with
  | [] => None
  | x :: l' => if p x then Some 0%nat else S <$> first_index p l'
  end.

(** The text before the first occurrence of a character, and the text
    after it when there is one. *)
Fixpoint text_before (sep : ascii) (s : string) : string :=
  match s with
  | EmptyString => EmptyString
  | String c s' => if Ascii.eqb c sep then EmptyString else String c (text_before sep s')
  end.

Fixpoint text_after (sep : ascii) (s : string) : option string :=
  match s with
  | EmptyString => None
  | String c s' => if Ascii.eqb c sep then Some s' else text_after sep s'
  end.

(** The (prediction, reference) pairs that [zip(bench_name, preds, refs)]
    gives for one subject, in order. *)
Fixpoint subject_rows (s : string) (bench_name : list string) (preds refs : list Z)
    : list (Z * Z) :=
  match bench_name, preds, refs with
  | n :: bench_name', p :: preds', r :: refs' =>
      (if decide (n = s) then [(p, r)] else [])
      ++ subject_rows s bench_name' preds' refs'
  | _, _, _ => []
  end.

(** A table entry with as many references as predictions. *)
Definition balanced (d : BenchEval.bench_data) : Prop :=
  length (BenchEval.d_refs d) = length (BenchEval.d_preds d).

(** A table entry with the pairs of some rows added at the end. *)
Definition add_rows_to (rows : list (Z * Z)) (v : BenchEval.bench_data)
    : BenchEval.bench_data :=
  {| BenchEval.d_refs := BenchEval.d_refs v ++ map snd rows;
     BenchEval.d_preds := BenchEval.d_preds v ++ map fst rows |}.

(** * Properties *)

(** ** Numbers and strings *)

Lemma mod_zero_multiple (x y : Q) :
  ~ (y == 0)%Q ->
  (Py.mod_ x y == 0)%Q <-> exists k : Z, (x == inject_Z k * y)%Q.
Proof.
  intros Hy. unfold Py.mod_. split.
  - intros Hm. exists (Qfloor (x / y)).
    rewrite <- (Qplus_0_r (inject_Z _ * y)), <- Hm. ring.
  - intros [k Hk].
    assert (Hq : (x / y == inject_Z k)%Q) by (rewrite Hk; field; exact Hy).
    rewrite Hq, Qfloor_Z, Hk. ring.
Qed.

Lemma interval_strategy_eqb_eq (a b : IntervalStrategy) :
  IntervalStrategy_eqb a b = true <-> a = b.
Proof. destruct a, b; simpl; split; congruence. Qed.

Lemma Qlt_dec_true (a b : Q) :
  (if Qlt_le_dec a b then true else false) = true <-> (a < b)%Q.
Proof.
  destruct (Qlt_le_dec a b) as [Hlt | Hle]; split; try done.
  intros Hlt. exfalso. exact (Qlt_not_le _ _ Hlt Hle).
Qed.

(** ** EvalFirstStepCallback *)

(** C6: [EvalFirstStepCallback.on_step_end] sets [should_evaluate] exactly
    when the evaluation strategy is STEPS, [eval_steps] is below 1.0 and the
    global step is 1; otherwise the control object comes back as it went in.
    In the first case every other field keeps its value. *)
Theorem eval_first_step_on_step_end
    (args : TrainingArguments) (state : TrainerState) (control : TrainerControl) :
  (EvalFirstStepCallback.first_step_eval_due args state = true <->
     evaluation_strategy args = STEPS /\ (eval_steps args < 1)%Q /\
     global_step state = 1)
  /\ EvalFirstStepCallback.on_step_end args state control =
     if EvalFirstStepCallback.first_step_eval_due args state
     then {| should_training_stop := should_training_stop control;
             should_epoch_stop := should_epoch_stop control;
             should_save := should_save control;
             should_evaluate := true;
             should_log := should_log control |}
     else control.
Proof.
  split; [| reflexivity].
  unfold EvalFirstStepCallback.first_step_eval_due.
  rewrite !andb_true_iff, interval_strategy_eqb_eq, Qlt_dec_true, Z.eqb_eq.
  tauto.
Qed.

(** ** SaveBetterTransformerModelCallback *)

Lemma save_due_spec (args : TrainingArguments) (state : TrainerState) :
  SaveBetterTransformerModelCallback.save_due args state = true <->
  save_strategy args = STEPS /\ (0 < save_steps args)%Q /\
  exists k : Z, (inject_Z (global_step state) == inject_Z k * save_steps args)%Q.
Proof.
  unfold SaveBetterTransformerModelCallback.save_due.
  rewrite !andb_true_iff, interval_strategy_eqb_eq, Qlt_dec_true, Qeq_bool_iff.
  split.
  - intros [[Hs Hpos] Hm]. repeat split; try done.
    apply mod_zero_multiple; [| done].
    intros Hz. rewrite Hz in Hpos. exact (Qlt_irrefl _ Hpos).
  - intros (Hs & Hpos & Hk). repeat split; try done.
    apply mod_zero_multiple; [| done].
    intros Hz. rewrite Hz in Hpos. exact (Qlt_irrefl _ Hpos).
Qed.

(** C9: whenever [SaveBetterTransformerModelCallback.on_step_end] returns,
    [should_save] is False and nothing else of the control object has
    changed; a save is due when the callback's own condition holds (strategy
    STEPS, positive [save_steps], global step a multiple of it) or the flag
    was set on entry, and then the callback has saved the unwrapped model to
    the checkpoint folder itself.  It returns unless the model is missing
    from the keyword arguments or saving it raises, which only happens when
    a save is due. *)
Theorem save_better_transformer_on_step_end
    (args : TrainingArguments) (state : TrainerState) (control : TrainerControl)
    (kw : SaveBetterTransformerModelCallback.kwargs) :
  let due := SaveBetterTransformerModelCallback.save_due args state
             || should_save control in
  let folder := SaveBetterTransformerModelCallback.checkpoint_folder args state in
  match SaveBetterTransformerModelCallback.on_step_end args state control kw with
  | (Py.Ok control', events) =>
      should_save control' = false /\
      should_training_stop control' = should_training_stop control /\
      should_epoch_stop control' = should_epoch_stop control /\
      should_evaluate control' = should_evaluate control /\
      should_log control' = should_log control /\
      events = (if due
                then [SaveBetterTransformerModelCallback.SavePretrained folder]
                else []) /\
      (due = false \/
       exists save, SaveBetterTransformerModelCallback.model kw = Some save /\
                    save folder = None)
  | (Py.Raise e, events) =>
      due = true /\ events = [] /\
      match SaveBetterTransformerModelCallback.model kw with
      | None => Py.exn_cls e = Py.KeyError
      | Some save => save folder = Some e
      end
  end
  /\ (SaveBetterTransformerModelCallback.save_due args state = true <->
      save_strategy args = STEPS /\ (0 < save_steps args)%Q /\
      exists k : Z,
        (inject_Z (global_step state) == inject_Z k * save_steps args)%Q).
Proof.
  split; [| apply save_due_spec].
  unfold SaveBetterTransformerModelCallback.on_step_end.
  destruct (SaveBetterTransformerModelCallback.save_due args state) eqn:Hdue;
    simpl.
  - destruct (SaveBetterTransformerModelCallback.model kw) as [save |] eqn:Hm.
    + destruct (save _) as [e |] eqn:Hs; simpl.
      * done.
      * repeat split; try done. right. by exists save.
    + done.
  - destruct (should_save control) eqn:Hc; simpl.
    + destruct (SaveBetterTransformerModelCallback.model kw) as [save |] eqn:Hm.
      * destruct (save _) as [e |] eqn:Hs; simpl.
        -- done.
        -- repeat split; try done. right. by exists save.
      * done.
    + repeat split; try done. by left.
Qed.

(** ** SaveAxolotlConfigtoWandBCallback *)




(** ** rewrite_logs *)

Lemma app_cons (a : ascii) (p s : string) :
  String a p +:+ s = String a (p +:+ s).
Proof. reflexivity. Qed.

Lemma startswith_app (p s : string) : Py.startswith p (p +:+ s) = true.
Proof.
  induction p as [| a p IH]; [done |].
  rewrite app_cons. simpl. by rewrite Ascii.eqb_refl.
Qed.

Lemma slice_from_app (p s : string) :
  Py.slice_from (String.length p) (p +:+ s) = s.
Proof. induction p as [| a p IH]; [done |]. rewrite app_cons. simpl. done. Qed.

Lemma startswith_slice (p s : string) :
  Py.startswith p s = true -> s = p +:+ Py.slice_from (String.length p) s.
Proof.
  revert s. induction p as [| a p IH]; intros s; simpl; [done |].
  destruct s as [| b s]; [done |].
  rewrite andb_true_iff, Ascii.eqb_eq. intros [-> Hp].
  rewrite app_cons. f_equal. by apply IH.
Qed.

Lemma app_inj_prefix (p s t : string) : p +:+ s = p +:+ t -> s = t.
Proof.
  induction p as [| a p IH]; [done |]. rewrite !app_cons. intros [=]. by apply IH.
Qed.

Lemma startswith_app_other (p q s : string) :
  Py.startswith p (q +:+ s) = true -> String.length p = String.length q -> p = q.
Proof.
  revert q. induction p as [| a p IH]; intros [| b q]; try done.
  rewrite app_cons. simpl.
  rewrite andb_true_iff, Ascii.eqb_eq. intros [-> Hp] [=]. f_equal. by apply IH.
Qed.

Section RewriteLogsSpec.
Context {V : Type}.

Lemma alter_train f (train eval_ test : gmap string V) :
  alter f "train" (buckets train eval_ test) = buckets (f train) eval_ test.
Proof. unfold buckets. by rewrite alter_insert_eq. Qed.

Lemma alter_eval f (train eval_ test : gmap string V) :
  alter f "eval" (buckets train eval_ test) = buckets train (f eval_) test.
Proof.
  unfold buckets. rewrite alter_insert_ne by done. by rewrite alter_insert_eq.
Qed.

Lemma alter_test f (train eval_ test : gmap string V) :
  alter f "test" (buckets train eval_ test) = buckets train eval_ (f test).
Proof.
  unfold buckets. rewrite !alter_insert_ne by done. by rewrite alter_insert_eq.
Qed.

Lemma partitioned_empty : partitioned (V := V) (buckets ∅ ∅ ∅) ∅.
Proof.
  exists ∅, ∅, ∅. repeat split; intros; rewrite ?lookup_empty; try done.
  by case_match.
Qed.

Lemma partitioned_step (i : string) (x : V) (d : gmap string V) new_d :
  d !! i = None -> partitioned new_d d ->
  partitioned (rewrite_item i x new_d) (<[i := x]> d).
Proof.
  intros Hi (train & eval_ & test & -> & Hev & Hte & Htr & Hsz).
  unfold rewrite_item, eval_prefix, test_prefix.
  destruct (Py.startswith "eval_" i) eqn:He;
    [| destruct (Py.startswith "test_" i) eqn:Ht].
  - pose proof (startswith_slice _ _ He) as Hsl.
    set (i' := Py.slice_from (String.length "eval_") i) in *.
    rewrite alter_eval. exists train, (<[i' := x]> eval_), test.
    split; [done |]. repeat split.
    + intros k. destruct (decide (i' = k)) as [<- | Hne].
      * by rewrite <- Hsl, !lookup_insert_eq.
      * rewrite !lookup_insert_ne; [apply Hev | | done].
        rewrite Hsl. intros Heq. by apply app_inj_prefix in Heq.
    + intros k. rewrite lookup_insert_ne; [apply Hte |].
      intros ->. by apply startswith_app_other in He.
    + intros k. rewrite Htr. repeat case_match; try done.
      rewrite lookup_insert_ne; [done |]. intros ->.
      rewrite He in *. done.
    + rewrite (map_size_insert_None i x d) by done.
      rewrite map_size_insert_None; [lia |]. by rewrite Hev, <- Hsl.
  - pose proof (startswith_slice _ _ Ht) as Hsl.
    set (i' := Py.slice_from (String.length "test_") i) in *.
    rewrite alter_test. exists train, eval_, (<[i' := x]> test).
    split; [done |]. repeat split.
    + intros k. rewrite lookup_insert_ne; [apply Hev |].
      intros ->. by rewrite startswith_app in He.
    + intros k. destruct (decide (i' = k)) as [<- | Hne].
      * by rewrite <- Hsl, !lookup_insert_eq.
      * rewrite !lookup_insert_ne; [apply Hte | | done].
        rewrite Hsl. intros Heq. by apply app_inj_prefix in Heq.
    + intros k. rewrite Htr. repeat case_match; try done.
      rewrite lookup_insert_ne; [done |]. intros ->.
      rewrite He, Ht in *. done.
    + rewrite (map_size_insert_None i x d) by done.
      rewrite map_size_insert_None; [lia |]. by rewrite Hte, <- Hsl.
  - rewrite alter_train. exists (<[i := x]> train), eval_, test.
    split; [done |]. repeat split.
    + intros k. rewrite lookup_insert_ne; [apply Hev |].
      intros ->. by rewrite startswith_app in He.
    + intros k. rewrite lookup_insert_ne; [apply Hte |].
      intros ->. by rewrite startswith_app in Ht.
    + intros k. destruct (decide (i = k)) as [<- | Hne].
      * by rewrite He, Ht, !lookup_insert_eq.
      * rewrite !lookup_insert_ne by done. apply Htr.
    + rewrite (map_size_insert_None i x d) by done.
      rewrite map_size_insert_None; [lia |]. by rewrite Htr, He, Ht.
Qed.

(** C10: [rewrite_logs] returns exactly the three dictionaries 'train',
    'eval' and 'test'; the 'eval' one holds, under the key without its
    prefix, the value of every key that begins with 'eval_' and nothing
    else; the 'test' one does so for 'test_'; the 'train' one holds the
    entries of all other keys as they are; and the three together have as
    many entries as the input. *)
Theorem rewrite_logs_partition (d : gmap string V) :
  exists train eval_ test : gmap string V,
    rewrite_logs d = <["train" := train]> (<["eval" := eval_]> (<["test" := test]> ∅)) /\
    (forall k, eval_ !! k = d !! ("eval_" +:+ k)) /\
    (forall k, test !! k = d !! ("test_" +:+ k)) /\
    (forall k, train !! k =
               if Py.startswith "eval_" k || Py.startswith "test_" k
               then None else d !! k) /\
    (size train + size eval_ + size test = size d)%nat.
Proof.
  unfold rewrite_logs.
  apply (map_fold_weak_ind partitioned rewrite_item).
  - apply partitioned_empty.
  - intros i x m r Hi Hp. by apply partitioned_step.
Qed.

End RewriteLogsSpec.

(** ** RunPodCallback *)

Section RunPodSpec.
Context {F : Type} `{Py.Float F} {V : Type}.
Variable json_dumps : RunPodCallback.progress_content (F := F) (V := V) -> string.

Lemma time_to_log_spec (args : TrainingArguments) (state : TrainerState) :
  ~ (logging_steps args == 0)%Q ->
  exists b, RunPodCallback.time_to_log args state = Py.Ok b /\
    (b = true <->
     exists k : Z, (inject_Z (global_step state) == inject_Z k * logging_steps args)%Q).
Proof.
  intros Hnz. unfold RunPodCallback.time_to_log.
  destruct (Qeq_bool (logging_steps args) 0) eqn:Hz.
  - by apply Qeq_bool_iff in Hz.
  - eexists. split; [done |].
    rewrite Qeq_bool_iff. by apply mod_zero_multiple.
Qed.

(** On a callback whose total step count is known and whose step counter
    is not negative, [on_step_end] counts the step and sends one update,
    with the contents below, exactly when the global step is a multiple of
    the logging interval. *)
Lemma runpod_on_step_end_tracked
    (self : RunPodCallback.self_ (F := F) (V := V))
    (args : TrainingArguments) (state : TrainerState) (current_time : F)
    (total : Z) :
  ~ (logging_steps args == 0)%Q ->
  RunPodCallback.total_tracked_steps self = Some total ->
  0 <= RunPodCallback.current_tracked_steps self ->
  let n := RunPodCallback.current_tracked_steps self + 1 in
  let counted := RunPodCallback.with_step_count n self in
  let elapsed :=
    Py.sub (Py.sub current_time (RunPodCallback.training_start_time self))
           (RunPodCallback.total_eval_time self) in
  let message := json_dumps
    {| RunPodCallback.step := global_step state;
       RunPodCallback.total_steps := Some total;
       RunPodCallback.time_seconds_ :=
         {| RunPodCallback.elapsed := elapsed;
            RunPodCallback.remaining :=
              Py.mul (Py.div elapsed (Py.of_int n)) (Py.of_int (total - n)) |};
       RunPodCallback.metrics_ := RunPodCallback.metrics self;
       RunPodCallback.wandb := RunPodCallback.wandb_run_url self |} in
  exists due : bool,
    (due = true <->
     exists k : Z, (inject_Z (global_step state) == inject_Z k * logging_steps args)%Q)
    /\ RunPodCallback.on_step_end json_dumps self args state current_time =
       if due
       then (RunPodCallback.with_last_log_time current_time counted,
             Py.Ok [RunPodCallback.LoggerInfo message (RunPodCallback.job_id self);
                    RunPodCallback.ProgressUpdate (RunPodCallback.job_id self) message])
       else (counted, Py.Ok []).
Proof.
  intros Hnz Htotal Hcount. cbv zeta.
  destruct (time_to_log_spec args state Hnz) as (due & Hdue & Hiff).
  exists due. split; [done |].
  unfold RunPodCallback.on_step_end. rewrite Hdue.
  destruct due; [| done]. simpl.
  destruct (Z.eqb_spec (RunPodCallback.current_tracked_steps self + 1) 0) as [Hz |_];
    [lia |].
  by rewrite Htotal.
Qed.

End RunPodSpec.

(** C7, the run that breaks it: a callback on a process that is not world
    process zero keeps [total_tracked_steps = None] through
    [on_train_begin]; at the first step end whose global step is a multiple
    of [logging_steps] (here step 10 of interval 10), [on_step_end] raises
    TypeError on [None - int] and no update is sent. *)
Theorem runpod_on_step_end_without_total
    (json_dumps : RunPodCallback.progress_content (F := Exact.num) (V := Exact.num)
                  -> string) :
  let worker := {| global_step := 0; max_steps := 100;
                   is_world_process_zero := false |} in
  let args := {| evaluation_strategy := NO; eval_steps := 1;
                 save_strategy := NO; save_steps := 500;
                 logging_steps := 10; output_dir := "out" |} in
  let self0 := RunPodCallback.init "job" false (Exact.of_int 0) (Exact.of_int 0) in
  let self1 := RunPodCallback.on_train_begin self0 worker None None (Exact.of_int 1) in
  RunPodCallback.time_to_log args
    {| global_step := 10; max_steps := 100; is_world_process_zero := false |}
  = Py.Ok true
  /\ RunPodCallback.total_tracked_steps self1 = None
  /\ snd (RunPodCallback.on_step_end json_dumps self1 args
            {| global_step := 10; max_steps := 100; is_world_process_zero := false |}
            (Exact.of_int 5))
     = Py.Raise (Py.Exn Py.TypeError
                   "unsupported operand type(s) for -: 'NoneType' and 'int'").
Proof. cbv zeta. repeat split; vm_compute; reflexivity. Qed.

(** ** tokenize_evals and the dataset filter *)

Lemma index_minus_two (l : list Z) :
  Py.index l (-2) = second_to_last l.
Proof.
  unfold Py.index, second_to_last.
  destruct (Z.leb_spec 0 (-2)) as [? | _]; [lia |]. simpl.
  destruct (decide (2 <= length l)%nat) as [Hlen | Hlen].
  - destruct (Z.leb_spec (- Z.of_nat (length l)) (-2)) as [_ | ?]; [| lia]. simpl.
    rewrite reverse_lookup by lia. f_equal. lia.
  - destruct (Z.leb_spec (- Z.of_nat (length l)) (-2)) as [? | _]; [lia |]. simpl.
    symmetry. apply lookup_ge_None. rewrite length_reverse. lia.
Qed.

Lemma answer_is_option_spec (abcd : list Z) (x : BenchEval.row) :
  match BenchEval.answer_is_option abcd x with
  | Py.Ok b => b = has_option_answer abcd x /\ (2 <= length (BenchEval.row_labels x))%nat
  | Py.Raise e =>
      Py.exn_cls e = Py.IndexError /\ (length (BenchEval.row_labels x) < 2)%nat
  end.
Proof.
  unfold BenchEval.answer_is_option, has_option_answer.
  rewrite index_minus_two. unfold second_to_last.
  destruct (reverse (BenchEval.row_labels x) !! 1%nat) as [l |] eqn:Hl.
  - split; [done |]. apply lookup_lt_Some in Hl. rewrite length_reverse in Hl. lia.
  - split; [done |]. apply lookup_ge_None in Hl. rewrite length_reverse in Hl. lia.
Qed.

Lemma dataset_filter_spec (abcd : list Z) (ds : list BenchEval.row) :
  match BenchEval.dataset_filter (BenchEval.answer_is_option abcd) ds with
  | Py.Ok kept =>
      kept = List.filter (has_option_answer abcd) ds /\
      Forall (fun x => (2 <= length (BenchEval.row_labels x))%nat) ds
  | Py.Raise e =>
      Py.exn_cls e = Py.IndexError /\
      Exists (fun x => (length (BenchEval.row_labels x) < 2)%nat) ds
  end.
Proof.
  induction ds as [| x ds IH]; simpl; [done |].
  pose proof (answer_is_option_spec abcd x) as Hx.
  destruct (BenchEval.answer_is_option abcd x) as [b | e]; simpl.
  - destruct Hx as [-> Hlen].
    destruct (BenchEval.dataset_filter _ ds) as [kept | e]; simpl.
    + destruct IH as [-> Hall]. split; [done | by constructor].
    + destruct IH as [He Hex]. split; [done | by apply Exists_cons_tl].
  - destruct Hx as [He Hlen]. split; [done | by apply Exists_cons_hd].
Qed.

Lemma mapM_result_cons {A B} (f : A -> Py.result B) (x : A) (l : list A) :
  mapM f (x :: l) =
  match f x with
  | Py.Ok y =>
      match mapM f l with
      | Py.Ok ys => Py.Ok (y :: ys)
      | Py.Raise e => Py.Raise e
      end
  | Py.Raise e => Py.Raise e
  end.
Proof. simpl. destruct (f x); simpl; [| done]. by destruct (mapM f l). Qed.

Lemma letter_token_spec (tokenizer : BenchEval.tokenizer_) (letter : string) :
  match BenchEval.letter_token tokenizer letter with
  | Py.Ok t => head (BenchEval.encode tokenizer letter None) = Some t
  | Py.Raise e => BenchEval.encode tokenizer letter None = []
  end.
Proof.
  unfold BenchEval.letter_token.
  by destruct (BenchEval.encode tokenizer letter None).
Qed.

Lemma abcd_idx_spec (tokenizer : BenchEval.tokenizer_) (letters : list string) :
  match mapM (BenchEval.letter_token tokenizer) letters with
  | Py.Ok abcd =>
      Forall2 (fun letter t => head (BenchEval.encode tokenizer letter None) = Some t)
        letters abcd
  | Py.Raise e =>
      Exists (fun letter => BenchEval.encode tokenizer letter None = []) letters
  end.
Proof.
  induction letters as [| letter letters IH]; [constructor |].
  rewrite mapM_result_cons.
  pose proof (letter_token_spec tokenizer letter) as Ht.
  destruct (BenchEval.letter_token tokenizer letter) as [t | e].
  - destruct (mapM _ letters) as [abcd | e].
    + by constructor.
    + by apply Exists_cons_tl.
  - by apply Exists_cons_hd.
Qed.

Lemma dataset_map_rows (tokenizer : BenchEval.tokenizer_)
    (ds : list BenchEval.example) :
  Forall2 (row_of_example tokenizer) ds (BenchEval.dataset_map tokenizer ds).
Proof.
  unfold BenchEval.dataset_map.
  induction ds as [| ex ds IH]; simpl; constructor; [| done].
  by repeat split.
Qed.

Lemma row_of_example_retained (tokenizer : BenchEval.tokenizer_) (abcd : list Z)
    (ex : BenchEval.example) (x : BenchEval.row) :
  row_of_example tokenizer ex x ->
  has_option_answer abcd x = example_retained tokenizer abcd ex.
Proof.
  intros (_ & _ & _ & _ & _ & Hl).
  unfold has_option_answer, example_retained. by rewrite Hl.
Qed.

Lemma filter_rows (tokenizer : BenchEval.tokenizer_) (abcd : list Z)
    (ds : list BenchEval.example) (rows : list BenchEval.row) :
  Forall2 (row_of_example tokenizer) ds rows ->
  Forall2 (row_of_example tokenizer)
    (List.filter (example_retained tokenizer abcd) ds)
    (List.filter (has_option_answer abcd) rows).
Proof.
  induction 1 as [| ex x ds rows Hx _ IH]; simpl; [constructor |].
  rewrite (row_of_example_retained tokenizer abcd ex x Hx).
  destruct (example_retained tokenizer abcd ex); [by constructor | done].
Qed.

(** C5: [tokenize_evals] gives [input_ids] the tokens of the source (the
    bos token followed by the input, cut at 2048) followed by the tokens of
    the target (the output followed by the eos token, cut at 2048), and
    [labels] one IGNORE_INDEX per source token followed by the target
    tokens; the mapped dataset has one row per example, in order, holding
    these input ids and labels beside the columns of the example; the
    filter then keeps, in order, exactly the rows of the examples whose
    second-to-last label is one of the option tokens, which are the first
    tokens of the seven letters A to G.  The filter raises IndexError
    instead when some example has fewer than two labels. *)
Theorem tokenize_evals_and_filter
    (tokenizer : BenchEval.tokenizer_) (abcd : list Z) (ds : list BenchEval.example) :
  (forall ex : BenchEval.example,
     let source := BenchEval.encode tokenizer
                     (BenchEval.bos_token tokenizer +:+ BenchEval.input ex) (Some 2048) in
     let target := BenchEval.encode tokenizer
                     (BenchEval.output ex +:+ BenchEval.eos_token tokenizer) (Some 2048) in
     BenchEval.input_ids (BenchEval.tokenize_evals tokenizer ex) = source ++ target /\
     BenchEval.labels (BenchEval.tokenize_evals tokenizer ex) =
       replicate (length source) (-100) ++ target)
  /\ Forall2 (row_of_example tokenizer) ds (BenchEval.dataset_map tokenizer ds)
  /\ match BenchEval.prepare tokenizer abcd ds with
     | Py.Ok kept =>
         Forall2 (row_of_example tokenizer)
           (List.filter (example_retained tokenizer abcd) ds) kept /\
         kept = List.filter (has_option_answer abcd) (BenchEval.dataset_map tokenizer ds) /\
         (forall x, x ∈ kept <->
                    x ∈ BenchEval.dataset_map tokenizer ds /\
                    exists l, second_to_last (BenchEval.row_labels x) = Some l /\ l ∈ abcd)
     | Py.Raise e =>
         Py.exn_cls e = Py.IndexError /\
         Exists (fun ex => (length (example_labels tokenizer ex) < 2)%nat) ds /\
         Exists (fun x => (length (BenchEval.row_labels x) < 2)%nat)
           (BenchEval.dataset_map tokenizer ds)
     end
  /\ match BenchEval.abcd_idx tokenizer with
     | Py.Ok abcd' =>
         Forall2 (fun letter t => head (BenchEval.encode tokenizer letter None) = Some t)
           ["A"; "B"; "C"; "D"; "E"; "F"; "G"] abcd'
     | Py.Raise e => True
     end.
Proof.
  pose proof (dataset_map_rows tokenizer ds) as Hrows.
  split; [done |]. split; [done |]. split.
  - unfold BenchEval.prepare.
    pose proof (dataset_filter_spec abcd (BenchEval.dataset_map tokenizer ds)) as Hf.
    destruct (BenchEval.dataset_filter _ _) as [kept | e].
    + destruct Hf as [-> _].
      split; [by apply filter_rows |]. split; [done |].
      intros x. rewrite list_elem_of_In, filter_In, <- list_elem_of_In.
      unfold has_option_answer.
      destruct (second_to_last (BenchEval.row_labels x)) as [l |].
      * rewrite bool_decide_eq_true. split.
        -- intros [Hin Hl]. split; [done |]. by exists l.
        -- intros [Hin (l' & [= <-] & Hl)]. done.
      * split; [intros [_ [=]] | intros [_ (l' & [=] & _)]].
    + destruct Hf as [He Hex]. split; [done |]. split; [| done].
      apply Exists_exists in Hex as (x & Hx & Hlen).
      apply list_elem_of_lookup in Hx as (i & Hi).
      destruct (Forall2_lookup_r _ _ _ _ _ Hrows Hi) as (ex & Hex & Hrow).
      apply Exists_exists. exists ex. split; [by eapply list_elem_of_lookup_2 |].
      destruct Hrow as (_ & _ & _ & _ & _ & Hl). by rewrite <- Hl.
  - pose proof (abcd_idx_spec tokenizer BenchEval.option_letters) as Ha.
    unfold BenchEval.abcd_idx. by destruct (mapM _ _).
Qed.

(** ** The evaluation loop: predictions and references *)

Section BatchSpec.
Context {F : Type} `{Py.Float F}.
Variable prediction_step : BenchEval.batch -> BenchEval.prediction (F := F).
Variable abcd : list Z.

Lemma tensor_get_nat {A} (t : list A) (i : nat) :
  BenchEval.tensor_get t (Z.of_nat i) =
  match t !! i with
  | Some a => Py.Ok a
  | None => Py.Raise (Py.Exn Py.IndexError "index out of range")
  end.
Proof.
  unfold BenchEval.tensor_get, Py.index.
  destruct (Z.leb_spec 0 (Z.of_nat i)) as [_ | ?]; [| lia]. simpl.
  destruct (Z.ltb_spec (Z.of_nat i) (Z.of_nat (length t))) as [Hlt | Hge]; simpl.
  - rewrite Nat2Z.id. by destruct (t !! i).
  - destruct (Z.leb_spec (- Z.of_nat (length t)) (Z.of_nat i)); simpl;
      (destruct (Z.ltb_spec (Z.of_nat i) 0); [lia |]); simpl;
      by rewrite (lookup_ge_None_2 t i) by lia.
Qed.

Lemma first_label_from_spec (labels : list Z) (i : Z) :
  match first_answer_position labels with
  | Some p => BenchEval.first_label_from i labels = Py.Ok (i + Z.of_nat p)
  | None => exists e, BenchEval.first_label_from i labels = Py.Raise e
  end.
Proof.
  revert i. induction labels as [| l labels IH]; intros i; simpl; [by eexists |].
  destruct (decide (l = BenchEval.IGNORE_INDEX)) as [_ | _].
  - specialize (IH (i + 1)).
    destruct (first_answer_position labels) as [p |]; simpl; [| done].
    rewrite IH. f_equal. lia.
  - f_equal. lia.
Qed.

Lemma first_answer_head (labels : list Z) :
  match first_answer_position labels with
  | Some p => labels !! p = head (answer_labels labels) /\ is_Some (labels !! p)
  | None => answer_labels labels = []
  end.
Proof.
  unfold answer_labels.
  induction labels as [| l labels IH]; simpl; [done |].
  destruct (decide (l = BenchEval.IGNORE_INDEX)) as [Heq | Hne].
  - rewrite filter_cons_False by (intros Hn; by apply Hn).
    destruct (first_answer_position labels) as [p |]; simpl; done.
  - rewrite filter_cons_True by done. simpl. split; [done | by eexists].
Qed.

Lemma predict_spec (labels_b : list (list Z)) (i : nat) (logit : list (list F))
    (ls : list Z) (p : Z) :
  labels_b !! i = Some ls ->
  claimed_prediction abcd logit ls = Some p ->
  BenchEval.predict abcd labels_b (Z.of_nat i) logit = Py.Ok p.
Proof.
  intros Hls Hp. unfold BenchEval.predict, BenchEval.first_label.
  rewrite tensor_get_nat, Hls. simpl.
  unfold claimed_prediction in Hp.
  pose proof (first_label_from_spec ls 0) as Hfirst.
  destruct (first_answer_position ls) as [[| before] |]; try done.
  rewrite Hfirst. simpl.
  replace (0 + Z.of_nat (S before) - 1) with (Z.of_nat before) by lia.
  rewrite tensor_get_nat.
  destruct (logit !! before) as [logit_row |]; [| done]. simpl.
  destruct (mapM (BenchEval.tensor_get logit_row) abcd) as [options |]; [| done].
  unfold mbind, Py.result_bind. by destruct (BenchEval.argmax options) as [q |]; simplify_eq.
Qed.

Lemma predict_all_spec (labels_b : list (list Z)) (logits : list (list (list F)))
    (i : nat) :
  Forall2 (fun logit ls => is_Some (claimed_prediction abcd logit ls))
    logits (drop i labels_b) ->
  exists ps,
    BenchEval.predict_all abcd labels_b (Z.of_nat i) logits = Py.Ok ps /\
    Forall2 (fun '(logit, ls) p => claimed_prediction abcd logit ls = Some p)
      (zip logits (drop i labels_b)) ps.
Proof.
  revert i. induction logits as [| logit logits IH]; intros i Hall; simpl.
  - exists []. split; [done | constructor].
  - destruct (drop i labels_b) as [| ls rest] eqn:Hdrop; [by inversion Hall |].
    inversion Hall as [| ? ? ? ? [p Hp] Hrest]; subst.
    assert (Hls : labels_b !! i = Some ls).
    { pose proof (lookup_drop labels_b i 0) as Hd.
      rewrite Hdrop, Nat.add_0_r in Hd. done. }
    assert (Hnext : drop (S i) labels_b = rest).
    { pose proof (drop_S labels_b ls i Hls) as Hd.
      rewrite Hdrop in Hd. by injection Hd. }
    rewrite (predict_spec _ _ _ _ _ Hls Hp). simpl.
    replace (Z.of_nat i + 1) with (Z.of_nat (S i)) by lia.
    destruct (IH (S i)) as (ps & Hps & Hf); [by rewrite Hnext |].
    rewrite Hps. simpl. exists (p :: ps). split; [done |].
    constructor; [done |]. by rewrite <- Hnext.
Qed.

Lemma masked_concat (labels : list (list Z)) :
  BenchEval.masked labels = concat (map answer_labels labels).
Proof.
  unfold BenchEval.masked, answer_labels.
  induction labels as [| ls labels IH]; simpl; [done |].
  by rewrite filter_app, IH.
Qed.

Lemma column0_pairs (rows : list (list Z)) :
  Forall (fun r => length r = 2%nat) rows ->
  BenchEval.column0 (concat rows) = omap head rows /\
  length (concat rows) = (2 * length rows)%nat.
Proof.
  induction 1 as [| r rows Hr _ [IH1 IH2]]; simpl; [done |].
  destruct r as [| a [| b [| c r]]]; try done. simpl.
  rewrite IH1, IH2. split; [done | lia].
Qed.

Lemma view2_column0_spec (labels : list (list Z)) :
  labels <> [] ->
  Forall (fun ls => length (answer_labels ls) = 2%nat) labels ->
  exists firsts,
    BenchEval.view2_column0 (BenchEval.masked labels) = Py.Ok firsts /\
    Forall2 (fun ls l => head (answer_labels ls) = Some l) labels firsts.
Proof.
  intros Hne Hall. rewrite masked_concat.
  assert (Hrows : Forall (fun r => length r = 2%nat) (map answer_labels labels)).
  { by apply Forall_map. }
  destruct (column0_pairs _ Hrows) as [Hcol Hlen].
  unfold BenchEval.view2_column0. rewrite Hlen, length_map, Hcol.
  replace (Nat.odd (2 * length labels)) with false
    by (symmetry; rewrite <- Nat.negb_even, Nat.even_mul; done).
  replace (2 * length labels =? 0)%nat with false
    by (symmetry; apply Nat.eqb_neq; destruct labels; simpl; [done | lia]).
  simpl. eexists. split; [done |].
  clear Hne Hrows Hcol Hlen.
  induction Hall as [| ls labels Hls _ IH]; simpl; [constructor |].
  destruct (answer_labels ls) as [| a r] eqn:Ha; [done |]. simpl.
  constructor; [by rewrite Ha | done].
Qed.

Lemma claimed_reference_head (ls : list Z) (l : Z) :
  head (answer_labels ls) = Some l ->
  claimed_reference abcd ls = Some (BenchEval.reference abcd l).
Proof.
  intros Hl. unfold claimed_reference.
  pose proof (first_answer_head ls) as Hfirst.
  destruct (first_answer_position ls) as [p |].
  - destruct Hfirst as [-> _]. by rewrite Hl.
  - by rewrite Hfirst in Hl.
Qed.

(** X22: under the assumption that the comment of the loop states (two
    tokens per example, the output and the eos token): on a batch whose
    labels come back from the prediction
    step unchanged, in which every example has exactly two labels that are
    not IGNORE_INDEX, the first of them not at position 0, and whose logits
    cover the position before it and the option tokens, the loop body
    appends one prediction and one reference per example, the i-th ones
    being those of the i-th example: the argmax over the option logits one
    position before its first such label, and the place of that label among
    the option tokens (or -1). *)
Theorem bench_batch_alignment (acc : BenchEval.running) (b : BenchEval.batch) :
  BenchEval.labels_out (prediction_step b) = BenchEval.batch_labels b ->
  BenchEval.batch_labels b <> [] ->
  Forall (fun ls => length (answer_labels ls) = 2%nat) (BenchEval.batch_labels b) ->
  Forall2 (fun logit ls => is_Some (claimed_prediction abcd logit ls))
    (BenchEval.logits (prediction_step b)) (BenchEval.batch_labels b) ->
  exists ps rs,
    BenchEval.eval_batch prediction_step abcd acc b =
      Py.Ok {| BenchEval.preds := BenchEval.preds acc ++ ps;
               BenchEval.refs := BenchEval.refs acc ++ rs;
               BenchEval.loss_bench :=
                 Py.add (BenchEval.loss_bench acc)
                        (BenchEval.loss (prediction_step b)) |} /\
    length ps = length (BenchEval.batch_labels b) /\
    length rs = length (BenchEval.batch_labels b) /\
    forall (i : nat) logit ls,
      BenchEval.logits (prediction_step b) !! i = Some logit ->
      BenchEval.batch_labels b !! i = Some ls ->
      is_Some (ps !! i) /\
      ps !! i = claimed_prediction abcd logit ls /\
      rs !! i = claimed_reference abcd ls.
Proof.
  intros Hout Hne Htwo Hdef.
  destruct (predict_all_spec (BenchEval.batch_labels b)
              (BenchEval.logits (prediction_step b)) 0) as (ps & Hps & Hpred);
    [by rewrite drop_0 |].
  destruct (view2_column0_spec _ Hne Htwo) as (firsts & Hview & Hfirsts).
  rewrite drop_0 in Hpred.
  exists ps, (map (BenchEval.reference abcd) firsts).
  unfold BenchEval.eval_batch. cbv zeta.
  change (Z.of_nat 0) with 0 in Hps. rewrite Hps, Hout. simpl. rewrite Hview. simpl.
  split; [done |].
  pose proof (Forall2_length _ _ _ Hdef) as Hlen1.
  pose proof (Forall2_length _ _ _ Hpred) as Hlen2.
  pose proof (Forall2_length _ _ _ Hfirsts) as Hlen3.
  rewrite length_zip_with in Hlen2.
  split; [lia |]. split; [by rewrite length_map |].
  intros i logit ls Hlogit Hls.
  assert (Hz : zip (BenchEval.logits (prediction_step b)) (BenchEval.batch_labels b)
               !! i = Some (logit, ls)).
  { rewrite lookup_zip_with, Hlogit. simpl. by rewrite Hls. }
  destruct (Forall2_lookup_l _ _ _ _ _ Hpred Hz) as (p & Hp & Hcp).
  destruct (Forall2_lookup_l _ _ _ _ _ Hfirsts Hls) as (l & Hl & Hhead).
  rewrite Hp, Hcp, list_lookup_fmap, Hl. simpl.
  split; [by eexists |]. split; [done |].
  symmetry. by apply claimed_reference_head.
Qed.

End BatchSpec.

(** X22, a run of [bench_batch_alignment]: two examples with two answer labels
    each, the second one padded on the right. *)
Lemma bench_batch_alignment_witness :
  exists ps rs,
    BenchEval.eval_batch Exact.toy_step Exact.toy_abcd Exact.no_running
      {| BenchEval.batch_labels := [[-100; -100; 1; 7]; [-100; 3; 7; -100]] |} =
      Py.Ok {| BenchEval.preds := [] ++ ps;
               BenchEval.refs := [] ++ rs;
               BenchEval.loss_bench :=
                 Py.add (Exact.of_int 0) (Exact.Num 1) |} /\
    length ps = 2%nat /\
    length rs = 2%nat /\
    forall (i : nat) logit ls,
      Exact.toy_logits [[-100; -100; 1; 7]; [-100; 3; 7; -100]] !! i = Some logit ->
      [[-100; -100; 1; 7]; [-100; 3; 7; -100]] !! i = Some ls ->
      is_Some (ps !! i) /\
      ps !! i = claimed_prediction Exact.toy_abcd logit ls /\
      rs !! i = claimed_reference Exact.toy_abcd ls.
Proof.
  apply (bench_batch_alignment Exact.toy_step Exact.toy_abcd Exact.no_running
           {| BenchEval.batch_labels := [[-100; -100; 1; 7]; [-100; 3; 7; -100]] |}).
  - reflexivity.
  - discriminate.
  - repeat constructor.
  - repeat constructor; eexists; vm_compute; reflexivity.
Defined.

(** C4: the loop body on a batch that the dataset filter lets through and
    that breaks the assumption of the loop's comment: the first example has
    four labels that are not IGNORE_INDEX (its second-to-last label is an
    option token, so the filter keeps it), the second has two.  The loop
    body appends two predictions and three references, and the reference
    at index 1 is the place of a label of the first example, while the
    prediction at index 1 is that of the second example, whose reference
    is 2: the i-th prediction and the i-th reference are not those of the
    same example. *)
Lemma bench_batch_misaligned :
  BenchEval.eval_batch Exact.toy_step Exact.toy_abcd Exact.no_running
    {| BenchEval.batch_labels := [[-100; 8; 9; 1; 7]; [-100; -100; -100; 2; 7]] |} =
    Py.Ok {| BenchEval.preds := [0; 3];
             BenchEval.refs := [-1; 1; 2];
             BenchEval.loss_bench := Exact.Num 1 |}
  /\ claimed_prediction Exact.toy_abcd
       (default [] (Exact.toy_logits [[-100; 8; 9; 1; 7]; [-100; -100; -100; 2; 7]]
                    !! 1%nat))
       [-100; -100; -100; 2; 7] = Some 3
  /\ claimed_reference Exact.toy_abcd [-100; -100; -100; 2; 7] = Some 2
  /\ claimed_reference Exact.toy_abcd [-100; 8; 9; 1; 7] = Some (-1)
  /\ BenchEval.answer_is_option Exact.toy_abcd
       {| BenchEval.row_input := ""; BenchEval.row_output := "";
          BenchEval.row_subject := ""; BenchEval.row_name := "";
          BenchEval.row_input_ids := []; BenchEval.row_labels := [-100; 8; 9; 1; 7] |}
     = Py.Ok true.
Proof. repeat split; vm_compute; reflexivity. Qed.

(** ** Ordered dictionaries *)

Section OrderedDictFacts.
Context {V : Type}.
Implicit Types (d : list (string * V)) (k : string) (v : V).

Lemma od_get_set_eq k v d : OrderedDict.get k (OrderedDict.set k v d) = Some v.
Proof.
  induction d as [| [k' v'] d IH]; simpl.
  - by rewrite decide_True.
  - destruct (decide (k' = k)) as [-> | Hne]; simpl.
    + by rewrite decide_True.
    + by rewrite decide_False.
Qed.

Lemma od_get_set_ne k k' v d :
  k <> k' -> OrderedDict.get k' (OrderedDict.set k v d) = OrderedDict.get k' d.
Proof.
  intros Hne. induction d as [| [k0 v0] d IH]; simpl.
  - by rewrite decide_False.
  - destruct (decide (k0 = k)) as [-> | Hne0]; simpl.
    + by rewrite !decide_False.
    + by rewrite IH.
Qed.

Lemma od_get_None k d : OrderedDict.get k d = None <-> k ∉ OrderedDict.keys d.
Proof.
  unfold OrderedDict.keys.
  induction d as [| [k' v'] d IH]; simpl.
  - split; [intros _; apply not_elem_of_nil | done].
  - rewrite not_elem_of_cons. destruct (decide (k' = k)) as [-> | Hne].
    + split; [done | by intros [? _]].
    + rewrite IH. split; [by intros ?; split | by intros [_ ?]].
Qed.

Lemma od_get_Some k v d :
  NoDup (OrderedDict.keys d) -> (k, v) ∈ d -> OrderedDict.get k d = Some v.
Proof.
  unfold OrderedDict.keys.
  induction d as [| [k' v'] d IH]; simpl; intros Hnd Hin.
  - by apply elem_of_nil in Hin.
  - apply NoDup_cons in Hnd as [Hk' Hnd].
    apply elem_of_cons in Hin as [[= <- <-] | Hin].
    + by rewrite decide_True.
    + rewrite decide_False; [by apply IH |].
      intros ->. apply Hk'. apply list_elem_of_fmap. by exists (k, v).
Qed.

Lemma od_get_elem k v d : OrderedDict.get k d = Some v -> (k, v) ∈ d.
Proof.
  induction d as [| [k' v'] d IH]; simpl; [done |].
  destruct (decide (k' = k)) as [-> | Hne].
  - intros [= ->]. apply elem_of_cons. by left.
  - intros Hg. apply elem_of_cons. right. by apply IH.
Qed.

Lemma od_keys_set k v d :
  OrderedDict.keys (OrderedDict.set k v d) =
  if OrderedDict.contains k d then OrderedDict.keys d else OrderedDict.keys d ++ [k].
Proof.
  unfold OrderedDict.keys, OrderedDict.contains.
  induction d as [| [k' v'] d IH]; simpl; [done |].
  destruct (decide (k' = k)) as [-> | Hne]; simpl; [done |].
  rewrite IH. by destruct (OrderedDict.get k d).
Qed.

Lemma od_set_NoDup k v d :
  NoDup (OrderedDict.keys d) -> NoDup (OrderedDict.keys (OrderedDict.set k v d)).
Proof.
  intros Hnd. rewrite od_keys_set. unfold OrderedDict.contains.
  destruct (OrderedDict.get k d) eqn:Hg; [done |].
  apply NoDup_app. split; [done |]. split; [| apply NoDup_singleton].
  intros x Hx Hk. apply list_elem_of_singleton in Hk as ->.
  by apply od_get_None in Hg.
Qed.

End OrderedDictFacts.

(** ** Merging the tables of the ranks *)

Section CombineFacts.
Implicit Types (combined : list (string * BenchEval.bench_data)).

Lemma join_one (d x : BenchEval.bench_data) :
  BenchEval.extend_preds (BenchEval.d_preds x)
    (BenchEval.extend_refs (BenchEval.d_refs x) d) = join d [x].
Proof.
  unfold join, BenchEval.extend_preds, BenchEval.extend_refs. simpl.
  by rewrite !app_nil_r.
Qed.

Lemma join_join (d x : BenchEval.bench_data) (ds : list BenchEval.bench_data) :
  join (join d [x]) ds = join d (x :: ds).
Proof. unfold join. simpl. by rewrite !app_nil_r, !app_assoc. Qed.

Lemma join_no_items (d : BenchEval.bench_data) : join d [] = d.
Proof. destruct d. unfold join. simpl. by rewrite !app_nil_r. Qed.

Lemma combine_item_get combined (n name : string) (data : BenchEval.bench_data) :
  OrderedDict.get name (BenchEval.combine_item combined (n, data)) =
  if decide (n = name)
  then Some (join (default BenchEval.no_data (OrderedDict.get n combined)) [data])
  else OrderedDict.get name combined.
Proof.
  unfold BenchEval.combine_item, OrderedDict.contains.
  destruct (OrderedDict.get n combined) as [d |] eqn:Hn.
  - rewrite Hn, join_one. destruct (decide (n = name)) as [<- | Hne].
    + by rewrite od_get_set_eq.
    + by rewrite od_get_set_ne.
  - rewrite od_get_set_eq, join_one. destruct (decide (n = name)) as [<- | Hne].
    + by rewrite od_get_set_eq.
    + by rewrite !od_get_set_ne.
Qed.

Lemma combine_item_NoDup combined (item : string * BenchEval.bench_data) :
  NoDup (OrderedDict.keys combined) ->
  NoDup (OrderedDict.keys (BenchEval.combine_item combined item)).
Proof.
  intros Hnd. destruct item as [n data].
  unfold BenchEval.combine_item, OrderedDict.contains.
  destruct (OrderedDict.get n combined) as [d |] eqn:Hn.
  - rewrite Hn. by apply od_set_NoDup.
  - rewrite od_get_set_eq. by do 2 apply od_set_NoDup.
Qed.

Lemma combine_items_NoDup (items : list (string * BenchEval.bench_data)) combined :
  NoDup (OrderedDict.keys combined) ->
  NoDup (OrderedDict.keys (fold_left BenchEval.combine_item items combined)).
Proof.
  revert combined. induction items as [| item items IH]; intros combined Hnd;
    simpl; [done |].
  apply IH. by apply combine_item_NoDup.
Qed.

Lemma combine_items_get (items : list (string * BenchEval.bench_data)) combined
    (name : string) :
  OrderedDict.get name (fold_left BenchEval.combine_item items combined) =
  match OrderedDict.get name combined,
        map snd (filter (fun item => item.1 = name) items) with
  | Some d, ds => Some (join d ds)
  | None, [] => None
  | None, ds => Some (join BenchEval.no_data ds)
  end.
Proof.
  revert combined. induction items as [| [n data] items IH]; intros combined;
    cbn [fold_left].
  - rewrite filter_nil. simpl.
    destruct (OrderedDict.get name combined); [by rewrite join_no_items | done].
  - rewrite IH, combine_item_get.
    destruct (decide (n = name)) as [<- | Hne].
    + rewrite filter_cons_True by done. simpl. rewrite join_join.
      by destruct (OrderedDict.get n combined).
    + by rewrite filter_cons_False by done.
Qed.

Lemma combine_concat (tables : list (list (string * BenchEval.bench_data))) combined :
  fold_left (fun c table => fold_left BenchEval.combine_item table c) tables combined =
  fold_left BenchEval.combine_item (concat tables) combined.
Proof.
  revert combined. induction tables as [| table tables IH]; intros combined; simpl;
    [done |].
  by rewrite IH, fold_left_app.
Qed.

(** The combined table has each category once, and holds for it what the
    ranks hold for it, in rank order. *)
Lemma combine_spec (tables : list (list (string * BenchEval.bench_data))) :
  NoDup (OrderedDict.keys (BenchEval.combine tables)) /\
  forall name, OrderedDict.get name (BenchEval.combine tables) =
               merged_category name tables.
Proof.
  unfold BenchEval.combine. rewrite combine_concat. split.
  - apply combine_items_NoDup. constructor.
  - intros name. by rewrite combine_items_get.
Qed.

End CombineFacts.

(** ** The keys of the results *)

Lemma accuracy_key_inj (a b : string) :
  BenchEval.accuracy_key a = BenchEval.accuracy_key b -> a = b.
Proof.
  unfold BenchEval.accuracy_key, BenchEval.bench_split. intros Heq.
  by do 2 apply app_inj_prefix in Heq.
Qed.

Lemma accuracy_key_not_loss (a : string) :
  BenchEval.bench_split +:+ "_bench_loss" <> BenchEval.accuracy_key a.
Proof. unfold BenchEval.accuracy_key. cbv. congruence. Qed.

Lemma accuracy_key_not_average (a : string) :
  BenchEval.bench_split +:+ "_bench_average_accuracy" <> BenchEval.accuracy_key a.
Proof. unfold BenchEval.accuracy_key. cbv. congruence. Qed.

Lemma accuracy_key_not_total (a : string) :
  BenchEval.bench_split +:+ "_bench_total_accuracy" <> BenchEval.accuracy_key a.
Proof. unfold BenchEval.accuracy_key. cbv. congruence. Qed.

(** ** Scoring on the main process *)

Section ScoringFacts.
Context {F : Type} `{Py.Float F}.
Variable prediction_step : BenchEval.batch -> BenchEval.prediction (F := F).
Variable accuracy : list Z -> list Z -> F.
Variable set_order : list string -> list string.
Variable zero : F.
Variable abcd : list Z.

Local Abbreviation score_item := (BenchEval.score_item accuracy zero).
Local Abbreviation score := (category_score accuracy zero).

Lemma score_item_eq (st : BenchEval.scoring) (n : string) (d : BenchEval.bench_data) :
  score_item st (n, d) =
  {| BenchEval.sc_results :=
       <[BenchEval.accuracy_key n := score d]> (BenchEval.sc_results st);
     BenchEval.sc_scores := BenchEval.sc_scores st ++ [score d];
     BenchEval.sc_refs := BenchEval.sc_refs st ++ BenchEval.d_refs d;
     BenchEval.sc_preds := BenchEval.sc_preds st ++ BenchEval.d_preds d |}.
Proof.
  unfold BenchEval.score_item, category_score.
  by destruct (Py.isna (accuracy (BenchEval.d_refs d) (BenchEval.d_preds d))).
Qed.

Lemma score_loop_lists (items : list (string * BenchEval.bench_data))
    (st : BenchEval.scoring) :
  BenchEval.sc_scores (fold_left score_item items st) =
    BenchEval.sc_scores st ++ map (fun item => score item.2) items /\
  BenchEval.sc_refs (fold_left score_item items st) =
    BenchEval.sc_refs st ++ concat (map (fun item => BenchEval.d_refs item.2) items) /\
  BenchEval.sc_preds (fold_left score_item items st) =
    BenchEval.sc_preds st ++ concat (map (fun item => BenchEval.d_preds item.2) items).
Proof.
  revert st. induction items as [| [n d] items IH]; intros st; cbn [fold_left].
  - simpl. by rewrite !app_nil_r.
  - destruct (IH (score_item st (n, d))) as (-> & -> & ->).
    rewrite score_item_eq. simpl. by rewrite <- !app_assoc.
Qed.

Lemma score_loop_untouched (items : list (string * BenchEval.bench_data))
    (st : BenchEval.scoring) (k : string) :
  (forall n, n ∈ OrderedDict.keys items -> k <> BenchEval.accuracy_key n) ->
  BenchEval.sc_results (fold_left score_item items st) !! k =
  BenchEval.sc_results st !! k.
Proof.
  revert st. induction items as [| [n d] items IH]; intros st Hk; cbn [fold_left];
    [done |].
  rewrite IH.
  - rewrite score_item_eq. simpl. rewrite lookup_insert_ne; [done |].
    intros Heq. apply (Hk n); [| done]. apply elem_of_cons. by left.
  - intros m Hm. apply Hk. apply elem_of_cons. by right.
Qed.

Lemma score_loop_category (items : list (string * BenchEval.bench_data))
    (st : BenchEval.scoring) (name : string) (d : BenchEval.bench_data) :
  NoDup (OrderedDict.keys items) ->
  OrderedDict.get name items = Some d ->
  BenchEval.sc_results (fold_left score_item items st)
    !! BenchEval.accuracy_key name = Some (score d).
Proof.
  revert st. induction items as [| [n d'] items IH]; intros st Hnd Hget;
    cbn [fold_left]; [done |].
  apply NoDup_cons in Hnd as [Hn Hnd]. simpl in Hget.
  destruct (decide (n = name)) as [-> | Hne].
  - injection Hget as ->.
    rewrite score_loop_untouched.
    + rewrite score_item_eq. simpl. by rewrite lookup_insert_eq.
    + intros m Hm Heq. apply accuracy_key_inj in Heq as ->. done.
  - by apply IH.
Qed.

Lemma score_loop_keys (items : list (string * BenchEval.bench_data))
    (st : BenchEval.scoring) (k : string) :
  is_Some (BenchEval.sc_results (fold_left score_item items st) !! k) ->
  is_Some (BenchEval.sc_results st !! k) \/
  exists name, name ∈ OrderedDict.keys items /\ k = BenchEval.accuracy_key name.
Proof.
  revert st. induction items as [| [n d] items IH]; intros st Hk; cbn [fold_left] in Hk;
    [by left |].
  destruct (IH _ Hk) as [Hst | (name & Hname & ->)].
  - rewrite score_item_eq in Hst. simpl in Hst.
    destruct (decide (BenchEval.accuracy_key n = k)) as [<- | Hne].
    + right. exists n. split; [| done]. apply elem_of_cons. by left.
    + left. by rewrite lookup_insert_ne in Hst.
  - right. exists name. split; [| done]. apply elem_of_cons. by right.
Qed.

Lemma main_results_spec (loss_bench_ranks : list F) (len_data_loader_ranks : list Z)
    (tables : list (list (string * BenchEval.bench_data))) :
  fold_left Z.add len_data_loader_ranks 0 <> 0 ->
  exists results,
    BenchEval.main_results accuracy zero loss_bench_ranks len_data_loader_ranks tables
      = Py.Ok results /\
    results !! "eval_bench_loss" =
      Some (Py.div (Py.sum loss_bench_ranks)
                   (Py.of_int (fold_left Z.add len_data_loader_ranks 0))) /\
    results !! "eval_bench_average_accuracy" =
      Some (Py.np_mean (map (fun item => score item.2) (BenchEval.combine tables))) /\
    results !! "eval_bench_total_accuracy" =
      Some (accuracy
              (concat (map (fun item => BenchEval.d_refs item.2) (BenchEval.combine tables)))
              (concat (map (fun item => BenchEval.d_preds item.2) (BenchEval.combine tables))))
    /\
    (forall name d,
       OrderedDict.get name (BenchEval.combine tables) = Some d ->
       results !! ("eval_bench_accuracy_" +:+ name) = Some (score d)) /\
    (forall k, is_Some (results !! k) ->
       k = "eval_bench_loss" \/ k = "eval_bench_average_accuracy" \/
       k = "eval_bench_total_accuracy" \/
       exists name, name ∈ OrderedDict.keys (BenchEval.combine tables) /\
                    k = "eval_bench_accuracy_" +:+ name).
Proof.
  intros Hlen. unfold BenchEval.main_results. cbv zeta.
  destruct (Z.eqb_spec (fold_left Z.add len_data_loader_ranks 0) 0) as [? | _];
    [done |].
  change (BenchEval.bench_split +:+ "_bench_total_accuracy")
    with "eval_bench_total_accuracy".
  change (BenchEval.bench_split +:+ "_bench_average_accuracy")
    with "eval_bench_average_accuracy".
  change (BenchEval.bench_split +:+ "_bench_loss") with "eval_bench_loss".
  eexists. split; [done |].
  destruct (combine_spec tables) as [Hnd _].
  set (st0 := {| BenchEval.sc_results := _ |}).
  destruct (score_loop_lists (BenchEval.combine tables) st0) as (Hs & Hr & Hp).
  rewrite Hs, Hr, Hp. simpl.
  repeat split.
  - rewrite !lookup_insert_ne by done.
    rewrite score_loop_untouched by (intros; apply accuracy_key_not_loss).
    subst st0. simpl. by rewrite lookup_insert_eq.
  - rewrite lookup_insert_ne by done. by rewrite lookup_insert_eq.
  - by rewrite lookup_insert_eq.
  - intros name d Hget.
    change ("eval_bench_accuracy_" +:+ name) with (BenchEval.accuracy_key name).
    rewrite lookup_insert_ne by (apply accuracy_key_not_total).
    rewrite lookup_insert_ne by (apply accuracy_key_not_average).
    by apply score_loop_category.
  - intros k Hk.
    destruct (decide (k = "eval_bench_total_accuracy")) as [-> | Hk1]; [tauto |].
    destruct (decide (k = "eval_bench_average_accuracy")) as [-> | Hk2]; [tauto |].
    destruct (decide (k = "eval_bench_loss")) as [-> | Hk3]; [tauto |].
    do 3 right. rewrite !lookup_insert_ne in Hk by done.
    destruct (score_loop_keys _ _ _ Hk) as [Hst | Hex]; [| done].
    subst st0. simpl in Hst. rewrite lookup_insert_ne in Hst by done.
    rewrite lookup_empty in Hst. by destruct Hst.
Qed.

End ScoringFacts.

(** ** The callback on all processes *)

Section OnEvaluateFacts.
Context {F : Type} `{Py.Float F}.
Variable prediction_step : BenchEval.batch -> BenchEval.prediction (F := F).
Variable accuracy : list Z -> list Z -> F.
Variable set_order : list string -> list string.
Variable zero : F.
Variable abcd : list Z.
Variable bench_name : list string.

Local Abbreviation evaluate_local :=
  (BenchEval.evaluate_local prediction_step set_order abcd bench_name).
Local Abbreviation on_evaluate :=
  (BenchEval.on_evaluate prediction_step accuracy set_order zero abcd bench_name).

Lemma update_metrics_union (results metrics : gmap string F) :
  BenchEval.update_metrics results metrics = results ∪ metrics.
Proof.
  unfold BenchEval.update_metrics.
  apply (map_fold_weak_ind (fun r m => r = m ∪ metrics)).
  - by rewrite (left_id_L ∅ (∪)).
  - intros k v m r Hk ->. by rewrite insert_union_l.
Qed.

Lemma mapM_result_Forall2 {A B} (f : A -> Py.result B) (l : list A) (ys : list B) :
  Forall2 (fun x y => f x = Py.Ok y) l ys -> mapM f l = Py.Ok ys.
Proof.
  induction 1 as [| x y l ys Hx _ IH]; [done |].
  by rewrite mapM_result_cons, Hx, IH.
Qed.

Lemma eval_batch_loss (acc acc' : BenchEval.running) (b : BenchEval.batch) :
  BenchEval.eval_batch prediction_step abcd acc b = Py.Ok acc' ->
  BenchEval.loss_bench acc' =
  Py.add (BenchEval.loss_bench acc) (BenchEval.loss (prediction_step b)).
Proof.
  unfold BenchEval.eval_batch. cbv zeta. unfold mbind, Py.result_bind.
  destruct (BenchEval.predict_all _ _ _ _); [| done].
  destruct (BenchEval.view2_column0 _); [| done].
  by intros [= <-].
Qed.

Lemma eval_batches_loss (data_loader : list BenchEval.batch)
    (acc acc' : BenchEval.running) :
  BenchEval.eval_batches prediction_step abcd acc data_loader = Py.Ok acc' ->
  BenchEval.loss_bench acc' =
  fold_left Py.add (map (fun b => BenchEval.loss (prediction_step b)) data_loader)
    (BenchEval.loss_bench acc).
Proof.
  revert acc. induction data_loader as [| b data_loader IH]; intros acc; simpl.
  - by intros [= <-].
  - unfold mbind, Py.result_bind.
    destruct (BenchEval.eval_batch prediction_step abcd acc b) as [acc1 |] eqn:Hb;
      [| done].
    intros Hrest. rewrite (IH _ Hrest). by rewrite (eval_batch_loss _ _ _ Hb).
Qed.

Lemma evaluate_local_loss (p : BenchEval.process) (l : BenchEval.local_) :
  evaluate_local (BenchEval.data_loader p) = Py.Ok l ->
  BenchEval.local_loss_bench l = accumulated_loss prediction_step p /\
  BenchEval.local_len_data_loader l = number_of_batches p.
Proof.
  unfold BenchEval.evaluate_local, BenchEval.eval_loop, mbind, Py.result_bind.
  destruct (BenchEval.eval_batches _ _ _ _) as [acc |] eqn:Hacc; [| done].
  destruct (BenchEval.by_subject _ _ _ _); [| done].
  intros [= <-]. simpl. split; [| done].
  by rewrite (eval_batches_loss _ _ _ Hacc).
Qed.

Lemma locals_losses (ps : list BenchEval.process) (locals : list BenchEval.local_) :
  Forall2 (fun p l => evaluate_local (BenchEval.data_loader p) = Py.Ok l) ps locals ->
  map BenchEval.local_loss_bench locals = map (accumulated_loss prediction_step) ps /\
  map BenchEval.local_len_data_loader locals = map number_of_batches ps.
Proof.
  induction 1 as [| p l ps locals Hp _ [IH1 IH2]]; [done |]. simpl.
  destruct (evaluate_local_loss _ _ Hp) as [-> ->]. by rewrite IH1, IH2.
Qed.

Lemma broadcast_zip (results : gmap string F) (ps : list BenchEval.process) :
  zip_with BenchEval.update_metrics (map (fun _ => results) ps)
    (map BenchEval.metrics ps) =
  map (fun p => results ∪ BenchEval.metrics p) ps.
Proof.
  induction ps as [| p ps IH]; simpl; [done |].
  by rewrite update_metrics_union, IH.
Qed.

(** When every process gets through its evaluation loop and there is a
    batch somewhere, the callback returns on every process, with the
    results of the main process laid over each [metrics]. *)
Lemma on_evaluate_spec (w : BenchEval.world) (locals : list BenchEval.local_) :
  Forall2 (fun p l => evaluate_local (BenchEval.data_loader p) = Py.Ok l)
    (BenchEval.ranks w) locals ->
  fold_left Z.add (map number_of_batches (BenchEval.ranks w)) 0 <> 0 ->
  exists results,
    BenchEval.main_results accuracy zero
      (map (accumulated_loss prediction_step) (BenchEval.ranks w))
      (map number_of_batches (BenchEval.ranks w))
      (map BenchEval.local_bench_names locals) = Py.Ok results /\
    on_evaluate w =
      Py.Ok (map (fun p => results ∪ BenchEval.metrics p) (BenchEval.ranks w)).
Proof.
  intros Hlocals Hbatches.
  destruct (locals_losses _ _ Hlocals) as [Hloss Hlen].
  destruct (main_results_spec accuracy zero
              (map (accumulated_loss prediction_step) (BenchEval.ranks w))
              (map number_of_batches (BenchEval.ranks w))
              (map BenchEval.local_bench_names locals) Hbatches)
    as (results & Hres & _).
  exists results. split; [done |].
  unfold BenchEval.on_evaluate.
  rewrite (mapM_result_Forall2 _ _ _ Hlocals). simpl.
  unfold BenchEval.gather_scalar_from_all_ranks, BenchEval.gather_object.
  rewrite Hloss, Hlen.
  assert (Hgathered :
    (if BenchEval.is_distributed w
     then map BenchEval.local_bench_names locals
     else map BenchEval.local_bench_names (take 1 locals))
    = map BenchEval.local_bench_names locals).
  { destruct (BenchEval.is_distributed w) eqn:Hd; [done |].
    apply Forall2_length in Hlocals. unfold BenchEval.ranks in Hlocals.
    rewrite Hd in Hlocals. simpl in Hlocals.
    destruct locals as [| l [| l' locals]]; simpl in *; done. }
  rewrite Hgathered, Hres.
  unfold mbind, Py.result_bind, BenchEval.broadcast_dict.
  by rewrite broadcast_zip, update_metrics_union.
Qed.

(** C2: when the callback returns, which it does when every process gets
    through its evaluation loop and there is a batch somewhere, the entry
    'eval_bench_loss' of every process is the sum over the ranks of the
    loss each has accumulated over its batches, divided by the sum over the
    ranks of their numbers of batches. *)
Theorem bench_loss_weighted (w : BenchEval.world) (locals : list BenchEval.local_) :
  Forall2 (fun p l => evaluate_local (BenchEval.data_loader p) = Py.Ok l)
    (BenchEval.ranks w) locals ->
  fold_left Z.add (map number_of_batches (BenchEval.ranks w)) 0 <> 0 ->
  exists ms,
    on_evaluate w = Py.Ok ms /\
    length ms = length (BenchEval.ranks w) /\
    forall m, m ∈ ms ->
      m !! "eval_bench_loss" = Some (weighted_bench_loss prediction_step w).
Proof.
  intros Hlocals Hbatches.
  destruct (on_evaluate_spec w locals Hlocals Hbatches) as (results & Hres & Hrun).
  destruct (main_results_spec accuracy zero
              (map (accumulated_loss prediction_step) (BenchEval.ranks w)) _
              (map BenchEval.local_bench_names locals) Hbatches)
    as (results' & Hres' & Hloss & _).
  rewrite Hres in Hres'. injection Hres' as <-.
  eexists. split; [exact Hrun |]. split; [by rewrite length_map |].
  intros m Hm. apply list_elem_of_fmap in Hm as (p & -> & _).
  by apply lookup_union_Some_l.
Qed.

(** C1: when the callback returns (as above), the dictionary that the main
    process has computed from what it gathered holds the bench loss, the
    average accuracy, the total accuracy and one accuracy per category, and
    after the callback the [metrics] of every process holds every entry of
    that dictionary, its other entries being as before. *)
Theorem bench_results_broadcast (w : BenchEval.world) (locals : list BenchEval.local_) :
  Forall2 (fun p l => evaluate_local (BenchEval.data_loader p) = Py.Ok l)
    (BenchEval.ranks w) locals ->
  fold_left Z.add (map number_of_batches (BenchEval.ranks w)) 0 <> 0 ->
  exists results ms,
    BenchEval.main_results accuracy zero
      (BenchEval.gather_scalar_from_all_ranks (map BenchEval.local_loss_bench locals))
      (BenchEval.gather_scalar_from_all_ranks
         (map BenchEval.local_len_data_loader locals))
      (BenchEval.gather_object (map BenchEval.local_bench_names locals))
      = Py.Ok results /\
    is_Some (results !! "eval_bench_loss") /\
    is_Some (results !! "eval_bench_average_accuracy") /\
    is_Some (results !! "eval_bench_total_accuracy") /\
    (forall name,
       name ∈ OrderedDict.keys
                (BenchEval.combine (map BenchEval.local_bench_names locals)) ->
       is_Some (results !! ("eval_bench_accuracy_" +:+ name))) /\
    on_evaluate w = Py.Ok ms /\
    Forall2 (fun p m =>
               (forall k v, results !! k = Some v -> m !! k = Some v) /\
               (forall k, results !! k = None -> m !! k = BenchEval.metrics p !! k))
      (BenchEval.ranks w) ms.
Proof.
  intros Hlocals Hbatches.
  destruct (on_evaluate_spec w locals Hlocals Hbatches) as (results & Hres & Hrun).
  destruct (main_results_spec accuracy zero
              (map (accumulated_loss prediction_step) (BenchEval.ranks w)) _
              (map BenchEval.local_bench_names locals) Hbatches)
    as (results' & Hres' & Hloss & Havg & Htot & Hcat & _).
  rewrite Hres in Hres'. injection Hres' as <-.
  destruct (locals_losses _ _ Hlocals) as [Hl1 Hl2].
  exists results. eexists.
  unfold BenchEval.gather_scalar_from_all_ranks, BenchEval.gather_object.
  rewrite Hl1, Hl2.
  split; [done |]. split; [by rewrite Hloss |]. split; [by rewrite Havg |].
  split; [by rewrite Htot |]. split.
  - intros name Hname.
    destruct (OrderedDict.get name
                (BenchEval.combine (map BenchEval.local_bench_names locals)))
      as [d |] eqn:Hget.
    + rewrite (Hcat _ _ Hget). by eexists.
    + by apply od_get_None in Hget.
  - split; [exact Hrun |].
    apply Forall2_fmap_r, Forall_Forall2_diag, Forall_forall.
    intros p _. split.
    + intros k v Hk. by apply lookup_union_Some_l.
    + intros k Hk. by rewrite lookup_union_r.
Qed.

(** C3: when the callback returns (as above), the tables of the ranks are
    merged by category name, each category once and holding the references
    and predictions of the ranks in rank order; on every process the entry
    'eval_bench_accuracy_{name}' is the accuracy of that category, or 0.0
    when it is NaN; 'eval_bench_average_accuracy' is the mean of these
    per-category values, 0.0 included; and 'eval_bench_total_accuracy' is
    the accuracy over the references and the predictions of all categories
    put end to end. *)
Theorem bench_accuracy_aggregation (w : BenchEval.world)
    (locals : list BenchEval.local_) :
  Forall2 (fun p l => evaluate_local (BenchEval.data_loader p) = Py.Ok l)
    (BenchEval.ranks w) locals ->
  fold_left Z.add (map number_of_batches (BenchEval.ranks w)) 0 <> 0 ->
  let tables := map BenchEval.local_bench_names locals in
  let combined := BenchEval.combine tables in
  NoDup (OrderedDict.keys combined) /\
  (forall name, OrderedDict.get name combined = merged_category name tables) /\
  exists ms,
    on_evaluate w = Py.Ok ms /\
    length ms = length (BenchEval.ranks w) /\
    forall m, m ∈ ms ->
      (forall name d,
         OrderedDict.get name combined = Some d ->
         m !! ("eval_bench_accuracy_" +:+ name) =
           Some (let s := accuracy (BenchEval.d_refs d) (BenchEval.d_preds d) in
                 if Py.isna s then zero else s)) /\
      m !! "eval_bench_average_accuracy" =
        Some (Py.np_mean (map (fun item => category_score accuracy zero item.2)
                            combined)) /\
      m !! "eval_bench_total_accuracy" =
        Some (accuracy
                (concat (map (fun item => BenchEval.d_refs item.2) combined))
                (concat (map (fun item => BenchEval.d_preds item.2) combined))).
Proof.
  intros Hlocals Hbatches tables combined.
  destruct (combine_spec tables) as [Hnd Hmerged].
  split; [done |]. split; [done |].
  destruct (on_evaluate_spec w locals Hlocals Hbatches) as (results & Hres & Hrun).
  destruct (main_results_spec accuracy zero
              (map (accumulated_loss prediction_step) (BenchEval.ranks w)) _
              (map BenchEval.local_bench_names locals) Hbatches)
    as (results' & Hres' & _ & Havg & Htot & Hcat & _).
  rewrite Hres in Hres'. injection Hres' as <-.
  eexists. split; [exact Hrun |]. split; [by rewrite length_map |].
  intros m Hm. apply list_elem_of_fmap in Hm as (p & -> & _).
  split; [| split].
  - intros name d Hget. apply lookup_union_Some_l. by apply Hcat.
  - by apply lookup_union_Some_l.
  - by apply lookup_union_Some_l.
Qed.

End OnEvaluateFacts.

(** ** The callback on a group of two processes *)

Lemma toy_world_runs :
  Forall2 (fun p l =>
             BenchEval.evaluate_local Exact.toy_step remove_dups Exact.toy_abcd
               Exact.toy_names (BenchEval.data_loader p) = Py.Ok l)
    (BenchEval.ranks Exact.toy_world) Exact.toy_locals.
Proof. repeat constructor. Defined.

Lemma toy_world_has_batches :
  fold_left Z.add (map number_of_batches (BenchEval.ranks Exact.toy_world)) 0 <> 0.
Proof. vm_compute. discriminate. Defined.

(** C2, a run of [bench_loss_weighted]: rank 0 accumulates the loss 1 over one
    batch, rank 1 the loss 1 over two batches; the bench loss is 2/3, while
    the mean of the two per-rank averages 1 and 1/2 is 3/4. *)
Lemma bench_loss_weighted_witness :
  (exists ms,
     Exact.toy_on_evaluate = Py.Ok ms /\
     length ms = length (BenchEval.ranks Exact.toy_world) /\
     forall m, m ∈ ms ->
       m !! "eval_bench_loss" =
       Some (weighted_bench_loss Exact.toy_step Exact.toy_world))
  /\ weighted_bench_loss Exact.toy_step Exact.toy_world = Exact.Num (2 # 3)
  /\ mean_of_rank_averages Exact.toy_step Exact.toy_world = Exact.Num (3 # 4).
Proof.
  split; [| split; vm_compute; reflexivity].
  exact (bench_loss_weighted Exact.toy_step Exact.accuracy remove_dups
           (Exact.of_int 0) Exact.toy_abcd Exact.toy_names Exact.toy_world
           Exact.toy_locals toy_world_runs toy_world_has_batches).
Defined.

(** C1, a run of [bench_results_broadcast] on the same group of two
    processes. *)
Lemma bench_results_broadcast_witness :
  exists results ms,
    BenchEval.main_results Exact.accuracy (Exact.of_int 0)
      (BenchEval.gather_scalar_from_all_ranks
         (map BenchEval.local_loss_bench Exact.toy_locals))
      (BenchEval.gather_scalar_from_all_ranks
         (map BenchEval.local_len_data_loader Exact.toy_locals))
      (BenchEval.gather_object (map BenchEval.local_bench_names Exact.toy_locals))
      = Py.Ok results /\
    is_Some (results !! "eval_bench_loss") /\
    is_Some (results !! "eval_bench_average_accuracy") /\
    is_Some (results !! "eval_bench_total_accuracy") /\
    (forall name,
       name ∈ OrderedDict.keys
                (BenchEval.combine (map BenchEval.local_bench_names Exact.toy_locals)) ->
       is_Some (results !! ("eval_bench_accuracy_" +:+ name))) /\
    Exact.toy_on_evaluate = Py.Ok ms /\
    Forall2 (fun p m =>
               (forall k v, results !! k = Some v -> m !! k = Some v) /\
               (forall k, results !! k = None -> m !! k = BenchEval.metrics p !! k))
      (BenchEval.ranks Exact.toy_world) ms.
Proof.
  exact (bench_results_broadcast Exact.toy_step Exact.accuracy remove_dups
           (Exact.of_int 0) Exact.toy_abcd Exact.toy_names Exact.toy_world
           Exact.toy_locals toy_world_runs toy_world_has_batches).
Defined.

(** C3, a run of [bench_accuracy_aggregation] on the same group: the
    categories math and law, with accuracies 1/2 and 0. *)
Lemma bench_accuracy_aggregation_witness :
  let tables := map BenchEval.local_bench_names Exact.toy_locals in
  let combined := BenchEval.combine tables in
  NoDup (OrderedDict.keys combined) /\
  (forall name, OrderedDict.get name combined = merged_category name tables) /\
  exists ms,
    Exact.toy_on_evaluate = Py.Ok ms /\
    length ms = length (BenchEval.ranks Exact.toy_world) /\
    forall m, m ∈ ms ->
      (forall name d,
         OrderedDict.get name combined = Some d ->
         m !! ("eval_bench_accuracy_" +:+ name) =
           Some (let s := Exact.accuracy (BenchEval.d_refs d) (BenchEval.d_preds d) in
                 if Py.isna s then Exact.of_int 0 else s)) /\
      m !! "eval_bench_average_accuracy" =
        Some (Py.np_mean
                (map (fun item => category_score Exact.accuracy (Exact.of_int 0) item.2)
                   combined)) /\
      m !! "eval_bench_total_accuracy" =
        Some (Exact.accuracy
                (concat (map (fun item => BenchEval.d_refs item.2) combined))
                (concat (map (fun item => BenchEval.d_preds item.2) combined))).
Proof.
  exact (bench_accuracy_aggregation Exact.toy_step Exact.accuracy remove_dups
           (Exact.of_int 0) Exact.toy_abcd Exact.toy_names Exact.toy_world
           Exact.toy_locals toy_world_runs toy_world_has_batches).
Defined.

(** ** find_ranges *)

Section FindRanges.
Import LogPredictionCallback.

Lemma find_ranges_loop_cuts (rest : list Z) (ranges : list (Z * Z)) (start i : Z) :
  find_ranges_loop ranges start i rest =
  (ranges ++ (cuts start i rest).1, (cuts start i rest).2).
Proof.
  revert ranges start i. induction rest as [| x rest IH]; intros ranges start i; simpl.
  - by rewrite app_nil_r.
  - destruct (x =? 0).
    + rewrite IH. destruct (cuts i (i + 1) rest) as [rs open]. simpl.
      by rewrite <- app_assoc.
    + apply IH.
Qed.

Lemma find_ranges_cuts (lst : list Z) :
  find_ranges lst =
  (cuts 0 1 (drop 1 lst)).1
  ++ [((cuts 0 1 (drop 1 lst)).2, Z.of_nat (length lst) - 1)].
Proof. unfold find_ranges. by rewrite find_ranges_loop_cuts. Qed.

Lemma slice_nat {A} (t : list A) (s e : nat) :
  slice t (Z.of_nat s) (Z.of_nat e) = take (e - s) (drop s t).
Proof. unfold slice. by rewrite !Nat2Z.id. Qed.

(** The ranges closed from index [i] on, and the open one, cut [lst] from
    [start] on into consecutive slices. *)
Lemma cuts_slices (lst rest : list Z) (start i : nat) :
  (start < i)%nat -> length lst = (i + length rest)%nat ->
  drop i lst = rest ->
  concat (map (fun r => slice lst r.1 (r.2 + 1))
            ((cuts (Z.of_nat start) (Z.of_nat i) rest).1
             ++ [((cuts (Z.of_nat start) (Z.of_nat i) rest).2,
                  Z.of_nat (length lst) - 1)]))
  = drop start lst
  /\ chain (Z.of_nat start)
       ((cuts (Z.of_nat start) (Z.of_nat i) rest).1
        ++ [((cuts (Z.of_nat start) (Z.of_nat i) rest).2,
             Z.of_nat (length lst) - 1)])
       (Z.of_nat (length lst) - 1).
Proof.
  revert start i. induction rest as [| x rest IH]; intros start i Hlt Hlen Hdrop; simpl.
  - rewrite app_nil_r.
    replace (Z.of_nat (length lst) - 1 + 1) with (Z.of_nat (length lst)) by lia.
    rewrite slice_nat. split; [| lia].
    apply take_ge. rewrite length_drop. lia.
  - assert (Hnext : drop (S i) lst = rest).
    { replace (S i) with (i + 1)%nat by lia. by rewrite <- drop_drop, Hdrop. }
    replace (Z.of_nat i + 1) with (Z.of_nat (S i)) by lia.
    destruct (x =? 0).
    + destruct (IH i (S i)) as [IH1 IH2]; [lia | simpl in Hlen; lia | done |].
      destruct (cuts (Z.of_nat i) (Z.of_nat (S i)) rest) as [rs open]. simpl in *.
      replace (Z.of_nat i - 1 + 1) with (Z.of_nat i) by lia.
      rewrite slice_nat, IH1. split; [| repeat split; [lia | ]].
      * rewrite <- (take_drop (i - start) (drop start lst)) at 2.
        rewrite drop_drop. by replace (start + (i - start))%nat with i by lia.
      * by replace (Z.of_nat i - 1 + 1) with (Z.of_nat i) in * by lia.
    + apply IH; [lia | simpl in Hlen; lia | done].
Qed.

(** X1: [find_ranges] cuts a sequence of position ids into consecutive
    ranges: the first starts at 0, each next one starts right after the one
    before, the last ends at [len(lst) - 1], and the slices
    [lst[start : end + 1]] of the ranges, put end to end, are the sequence
    itself.  On a sequence that is not empty no range is empty. *)
Theorem find_ranges_partition (lst : list Z) :
  concat (map (fun r => slice lst r.1 (r.2 + 1)) (find_ranges lst)) = lst
  /\ match lst with
     | [] => find_ranges lst = [(0, -1)]
     | _ => chain 0 (find_ranges lst) (Z.of_nat (length lst) - 1)
     end.
Proof.
  destruct lst as [| x lst]; [done |].
  rewrite find_ranges_cuts.
  destruct (cuts_slices (x :: lst) (drop 1 (x :: lst)) 0 1) as [H1 H2];
    [lia | simpl; by rewrite drop_0 | done |].
  split; [exact H1 | exact H2].
Qed.

Lemma cuts_boundaries (lst rest : list Z) (start i : nat) :
  (start < i)%nat -> drop i lst = rest ->
  (forall j : nat, (start < j < i)%nat -> lst !! j <> Some 0) ->
  length (cuts (Z.of_nat start) (Z.of_nat i) rest).1 = zeros rest /\
  forall s e : Z,
    (s, e) ∈ (cuts (Z.of_nat start) (Z.of_nat i) rest).1
             ++ [((cuts (Z.of_nat start) (Z.of_nat i) rest).2,
                  Z.of_nat (length lst) - 1)] ->
    (s = Z.of_nat start \/ lst !! Z.to_nat s = Some 0) /\
    Z.of_nat start <= s /\
    forall j : nat, s < Z.of_nat j <= e -> lst !! j <> Some 0.
Proof.
  unfold zeros.
  revert start i. induction rest as [| x rest IH]; intros start i Hlt Hdrop Hin; simpl.
  - split; [done |]. intros s e Hse.
    apply list_elem_of_singleton in Hse as [= -> ->].
    split; [by left |]. split; [lia |].
    intros j Hj. destruct (decide (j < i)%nat) as [Hji | Hji]; [apply Hin; lia |].
    rewrite lookup_ge_None_2; [done |].
    assert (length (drop i lst) = 0%nat) as Hl by (by rewrite Hdrop).
    rewrite length_drop in Hl. lia.
  - assert (Hnext : drop (S i) lst = rest).
    { replace (S i) with (i + 1)%nat by lia. by rewrite <- drop_drop, Hdrop. }
    assert (Hi : lst !! i = Some x).
    { rewrite <- (Nat.add_0_r i), <- lookup_drop, Hdrop. done. }
    replace (Z.of_nat i + 1) with (Z.of_nat (S i)) by lia.
    destruct (Z.eqb_spec x 0) as [-> | Hx].
    + rewrite filter_cons_True by done.
      destruct (IH i (S i)) as [IH1 IH2]; [lia | done | intros j ?; lia |].
      destruct (cuts (Z.of_nat i) (Z.of_nat (S i)) rest) as [rs open]. simpl in *.
      split; [by rewrite IH1 |]. intros s e Hse.
      apply elem_of_cons in Hse as [[= -> ->] | Hse].
      * split; [by left |]. split; [lia |]. intros j Hj. apply Hin. lia.
      * destruct (IH2 _ _ Hse) as (Hs & Hge & Hno).
        split; [| split; [lia | done]].
        right. destruct Hs as [-> | Hs]; [by rewrite Nat2Z.id | done].
    + rewrite filter_cons_False by done.
      apply IH; [lia | done |].
      intros j Hj. destruct (decide (j = i)) as [-> | Hne]; [| apply Hin; lia].
      rewrite Hi. by intros [= ->].
Qed.

(** X2: the ranges of [find_ranges] are cut exactly at the zeros after the
    first position: there is one range more than there are such zeros,
    every range but the first starts at a zero, and no position of a range
    after its start holds a zero. *)
Theorem find_ranges_boundaries (lst : list Z) :
  length (find_ranges lst) = S (zeros (drop 1 lst)) /\
  forall s e : Z, (s, e) ∈ find_ranges lst ->
    0 <= s /\
    (s = 0 \/ lst !! Z.to_nat s = Some 0) /\
    forall j : nat, s < Z.of_nat j <= e -> lst !! j <> Some 0.
Proof.
  rewrite find_ranges_cuts.
  destruct (cuts_boundaries lst (drop 1 lst) 0 1) as [Hlen Hall];
    [lia | done | intros j ?; lia |].
  change (Z.of_nat 0) with 0 in *. change (Z.of_nat 1) with 1 in *.
  split.
  - rewrite length_app, Hlen. simpl. lia.
  - intros s e Hse. destruct (Hall s e Hse) as (Hs & Hge & Hno).
    split; [lia |]. split; [| done]. destruct Hs as [-> | Hs]; [by left | by right].
Qed.

End FindRanges.

(** ** The prediction table *)

Section TableFacts.
Import LogPredictionCallback.
Context {B R : Type}.
Variable rows : B -> list R.

Lemma add_rows_spec (rs : list R) (row_index : Z) :
  map snd (add_rows row_index rs) = rs /\
  length (add_rows row_index rs) = length rs /\
  forall (k : nat) id r,
    add_rows row_index rs !! k = Some (id, r) -> id = row_index + Z.of_nat k.
Proof.
  revert row_index. induction rs as [| r rs IH]; intros row_index; simpl; [done |].
  destruct (IH (row_index + 1)) as (IH1 & IH2 & IH3).
  rewrite IH1, IH2. repeat split.
  intros [| k] id r'; simpl.
  - intros [= <- <-]. lia.
  - intros Hk. rewrite (IH3 _ _ _ Hk). lia.
Qed.

(** The loop from [row_index] on: it takes the rows of a number of whole
    batches, numbers them from [row_index], starts a batch only while the
    count so far is at most [eval_table_size], and stops short of the end
    only once the count is above it. *)
Lemma table_loop_spec (eval_table_size : Z) (batches : list B) (row_index : Z) :
  let table := table_loop rows eval_table_size row_index batches in
  exists n : nat,
    (n <= length batches)%nat /\
    map snd table = concat (map rows (take n batches)) /\
    (forall (k : nat) id r, table !! k = Some (id, r) -> id = row_index + Z.of_nat k) /\
    (n = length batches \/ eval_table_size < row_index + Z.of_nat (length table)) /\
    (forall m : nat, (m < n)%nat ->
       row_index + Z.of_nat (length (concat (map rows (take m batches))))
       <= eval_table_size).
Proof.
  cbv zeta. revert row_index.
  induction batches as [| batch batches IH]; intros row_index; simpl.
  - exists 0%nat. repeat split; first [done | by left | intros m ?; lia].
  - destruct (Z.gtb_spec row_index eval_table_size) as [Hgt | Hle].
    + exists 0%nat. simpl.
      repeat split; first [done | lia | right; lia | intros m ?; lia].
    + destruct (IH (row_index + Z.of_nat (length (rows batch))))
        as (n & Hn & Hrows & Hids & Hstop & Hstart).
      destruct (add_rows_spec (rows batch) row_index) as (Ha1 & Ha2 & Ha3).
      exists (S n). simpl. split; [lia |]. split; [| split; [| split]].
      * by rewrite map_app, Ha1, Hrows.
      * intros k id r Hk.
        destruct (decide (k < length (add_rows row_index (rows batch)))%nat)
          as [Hlt | Hge].
        -- rewrite lookup_app_l in Hk by done. by apply (Ha3 _ _ _ Hk).
        -- rewrite lookup_app_r in Hk by lia.
           rewrite (Hids _ _ _ Hk), Ha2. rewrite Ha2 in Hge. lia.
      * destruct Hstop as [-> | Hstop]; [by left | right].
        rewrite length_app, Ha2. lia.
      * intros [| m] Hm; simpl; [lia |].
        rewrite length_app. specialize (Hstart m). lia.
Qed.

Lemma table_loop_rows (eval_table_size : Z) (batches : list B) :
  let table := table_loop rows eval_table_size 0 batches in
  (exists n : nat, map snd table = concat (map rows (take n batches))) /\
  map fst table = map Z.of_nat (seq 0 (length table)).
Proof.
  cbv zeta.
  destruct (table_loop_spec eval_table_size batches 0)
    as (n & _ & Hrows & Hids & _).
  split; [by exists n |].
  apply list_eq. intros k.
  rewrite !list_lookup_fmap.
  destruct (table_loop rows eval_table_size 0 batches !! k) as [[id r] |] eqn:Hk.
  - rewrite (Hids _ _ _ Hk). simpl.
    apply lookup_lt_Some in Hk as Hlt.
    rewrite lookup_seq_lt by done. simpl. f_equal; lia.
  - apply lookup_ge_None in Hk. simpl.
    rewrite lookup_seq_ge by done. done.
Qed.

(** X5: the size of the table against [eval_table_size]: the check
    [row_index > eval_table_size] is made once per batch, so the table
    holds all rows of the loader when these are at most [eval_table_size],
    and more than [eval_table_size] rows otherwise; it never holds more
    than [eval_table_size] rows before its last batch. *)
Theorem prediction_table_size (eval_table_size : Z) (batches : list B) :
  let table := table_loop rows eval_table_size 0 batches in
  let available := concat (map rows batches) in
  (if Z.of_nat (length available) <=? eval_table_size
   then map snd table = available
   else eval_table_size < Z.of_nat (length table)) /\
  exists n : nat,
    map snd table = concat (map rows (take n batches)) /\
    forall m : nat, (m < n)%nat ->
      Z.of_nat (length (concat (map rows (take m batches)))) <= eval_table_size.
Proof.
  cbv zeta.
  destruct (table_loop_spec eval_table_size batches 0)
    as (n & Hn & Hrows & _ & Hstop & Hstart).
  split; [| exists n; split; [done |]; intros m Hm; specialize (Hstart m Hm); lia].
  assert (Hlen : length (table_loop rows eval_table_size 0 batches)
                 = length (concat (map rows (take n batches)))).
  { by rewrite <- Hrows, length_map. }
  destruct (Z.leb_spec (Z.of_nat (length (concat (map rows batches))))
              eval_table_size) as [Hle | Hgt].
  - destruct Hstop as [-> | Hstop]; [by rewrite firstn_all in Hrows |].
    exfalso.
    assert (length (concat (map rows (take n batches)))
            <= length (concat (map rows batches)))%nat; [| lia].
    rewrite <- (take_drop n batches) at 2.
    rewrite map_app, concat_app, length_app. lia.
  - destruct Hstop as [-> | Hstop]; [| lia].
    rewrite firstn_all in Hlen. lia.
Qed.

(** X4: [LogPredictionCallback.on_evaluate] gives the control object back as
    it is; it does nothing at all when [eval_table_size] is not positive;
    otherwise it puts the model in evaluation mode and, on the main process
    only, logs one table under the title for "Eval", which holds the rows
    of the first batches of the loader, whole batches only and in order,
    numbered 0, 1, 2, ... in its id column. *)
Theorem log_prediction_table (eval_table_size : Z) (is_main_process : bool)
    (control : TrainerControl) (eval_dataloader : list B) :
  let '(control', events) :=
    on_evaluate rows eval_table_size is_main_process control eval_dataloader in
  control' = control /\
  match events with
  | [] => eval_table_size <= 0
  | [ModelEval] => 0 < eval_table_size /\ is_main_process = false
  | [ModelEval; WandbLog title table] =>
      0 < eval_table_size /\ is_main_process = true /\
      title = "Eval - Predictions vs Ground Truth" /\
      (exists n : nat, map snd table = concat (map rows (take n eval_dataloader))) /\
      map fst table = map Z.of_nat (seq 0 (length table))
  | _ => False
  end.
Proof.
  unfold on_evaluate, log_table_from_dataloader.
  destruct (Z.leb_spec eval_table_size 0) as [Hle | Hgt]; [done |].
  split; [done |]. destruct is_main_process; [| done].
  destruct (table_loop_rows eval_table_size eval_dataloader) as [Hrows Hids].
  done.
Qed.

End TableFacts.

(** ** GPUStatsCallback *)

Lemma gpu_stats_logged_stays (self : GPUStatsCallback.self_)
    (states : list TrainerState) (control : TrainerControl) :
  GPUStatsCallback.logged self = true ->
  GPUStatsCallback.step_ends self states control =
  (self, map (fun _ => []) states).
Proof.
  intros Hlogged. induction states as [| state states IH]; simpl; [done |].
  unfold GPUStatsCallback.on_step_end. rewrite Hlogged. simpl. by rewrite IH.
Qed.

(** X6: over the step ends of a run, a fresh [GPUStatsCallback] logs the GPU
    memory usage once, at the first step end whose global step is above 1,
    and at no other step end; it never logs when there is no such step
    end; and every call gives the control object back as it is. *)
Theorem gpu_stats_logs_once (device : string) (states : list TrainerState)
    (control : TrainerControl) :
  let '(self', logs) :=
    GPUStatsCallback.step_ends (GPUStatsCallback.init device) states control in
  let first := first_index (fun state => global_step state >? 1) states in
  length logs = length states /\
  GPUStatsCallback.logged self' = bool_decide (is_Some first) /\
  (forall k : nat, (k < length states)%nat ->
     logs !! k =
     Some (if decide (first = Some k)
           then [GPUStatsCallback.LogGpuMemoryUsage "while training" device]
           else [])) /\
  forall self state,
    (GPUStatsCallback.on_step_end self state control).1.2 = control.
Proof.
  unfold GPUStatsCallback.init.
  assert (Hctl : forall self state,
            (GPUStatsCallback.on_step_end self state control).1.2 = control).
  { intros self state. unfold GPUStatsCallback.on_step_end. by case_match. }
  induction states as [| state states IH]; simpl.
  - repeat split; try done. intros k ?; lia.
  - unfold GPUStatsCallback.on_step_end at 1. simpl.
    destruct (global_step state >? 1) eqn:Hgs; simpl.
    + rewrite gpu_stats_logged_stays by done. simpl.
      rewrite length_map. repeat split; try done.
      intros [| k] Hk; simpl; [done |].
      rewrite list_lookup_fmap.
      destruct (states !! k) eqn:Hsk; [done |].
      apply lookup_ge_None in Hsk. lia.
    + destruct (GPUStatsCallback.step_ends _ states control) as [self' logs].
      destruct IH as (Hlen & Hlogged & Hlogs & _). simpl.
      split; [by rewrite Hlen |]. split; [| split; [| done]].
      * rewrite Hlogged.
        by destruct (first_index _ states).
      * intros [| k] Hk; simpl.
        -- destruct (first_index _ states); simpl; try case_decide; by simplify_eq.
        -- rewrite Hlogs by lia.
           destruct (first_index _ states) as [i |]; simpl;
             repeat case_decide; by simplify_eq.
Qed.

(** ** The set-up of the benchmark: dataset choice and subjects *)

Section BenchSetupFacts.
Import BenchSetup.

Lemma str_app_assoc (a b c : string) : (a +:+ b) +:+ c = a +:+ b +:+ c.
Proof. induction a as [| x a IH]; [done |]. rewrite !app_cons. by rewrite IH. Qed.

Lemma count_app (c : ascii) (a b : string) :
  count c (a +:+ b) = (count c a + count c b)%nat.
Proof.
  induction a as [| x a IH]; [done |]. rewrite app_cons. simpl. rewrite IH. lia.
Qed.

Lemma contains_count (c : ascii) (s : string) :
  contains c s = true <-> (0 < count c s)%nat.
Proof.
  induction s as [| x s IH]; simpl; [split; [done | lia] |].
  destruct (Ascii.eqb x c); simpl; [split; [lia | done] | done].
Qed.

Lemma split_max_cons (sep : ascii) (n : nat) (s : string) :
  exists p ps, split_max sep n s = p :: ps.
Proof.
  destruct s as [| c s]; simpl; [by eexists _, _ |].
  destruct n as [| n]; [by eexists _, _ |].
  destruct (Ascii.eqb c sep); [by eexists _, _ |].
  destruct (split_max sep (S n) s); by eexists _, _.
Qed.

Lemma join_cons (sep p q : string) (ps : list string) :
  join sep (p :: q :: ps) = p +:+ sep +:+ join sep (q :: ps).
Proof. reflexivity. Qed.

Lemma join_push (c : ascii) (sep p : string) (ps : list string) :
  join sep (String c p :: ps) = String c (join sep (p :: ps)).
Proof. destruct ps as [| q ps]; [done |]. by rewrite !join_cons, app_cons. Qed.

(** Splitting at most [n] times: the parts joined give the string back,
    there is one part more than separators split at, and the parts before
    the [n]-th hold no separator. *)
Lemma split_max_spec (sep : ascii) (s : string) (n : nat) :
  join (String sep EmptyString) (split_max sep n s) = s /\
  length (split_max sep n s) = S (min n (count sep s)) /\
  forall (i : nat) p, split_max sep n s !! i = Some p -> (i < n)%nat -> count sep p = 0%nat.
Proof.
  revert n. induction s as [| c s IH]; intros n; simpl.
  - split; [done |]. split; [by rewrite Nat.min_0_r |].
    by intros [| i] p; simpl; [intros [= <-] |].
  - destruct n as [| n]; [split; [done |]; split; [done |]; intros; lia |].
    destruct (Ascii.eqb_spec c sep) as [-> | Hne]; simpl.
    + destruct (IH n) as (IH1 & IH2 & IH3).
      destruct (split_max_cons sep n s) as (p & ps & Hp).
      rewrite Hp in *. rewrite IH1, IH2. simpl.
      split; [done |]. split; [done |].
      intros [| i] q; simpl; [by intros [= <-] |].
      intros Hq Hi. apply (IH3 i); [done | lia].
    + destruct (IH (S n)) as (IH1 & IH2 & IH3).
      destruct (split_max_cons sep (S n) s) as (p & ps & Hp).
      rewrite Hp in *. rewrite join_push, IH1. simpl in *.
      split; [done |]. split; [done |].
      intros [| i] q; simpl.
      * intros [= <-] _. simpl. rewrite (proj2 (Ascii.eqb_neq _ _) Hne).
        apply (IH3 0%nat); [done | lia].
      * intros Hq Hi. by apply (IH3 (S i)).
Qed.

(** X7: [choose] raises ValueError exactly for a value that is none of
    "mmlu-zs", "mmlu" and "mmlu-fs" and holds no "/"; for the three names it
    loads both splits of the MMLU evals and leaves the subjects alone. *)
Theorem bench_dataset_unhandled (bench_dataset : string) :
  match choose bench_dataset with
  | ValueError msg =>
      (bench_dataset ∉ ["mmlu-zs"; "mmlu"; "mmlu-fs"]) /\
      contains "/" bench_dataset = false /\
      msg = ("unhandled value `" +:+ bench_dataset
             +:+ "` for bench_dataset training args")
  | Load call =>
      if map_subjects call
      then (bench_dataset ∉ ["mmlu-zs"; "mmlu"; "mmlu-fs"]) /\
           contains "/" bench_dataset = true /\
           map fst (data_files call) = ["eval"]
      else bench_dataset ∈ ["mmlu-zs"; "mmlu"; "mmlu-fs"] /\
           path call = "openaccess-ai-collective/mmlu-evals" /\
           map fst (data_files call) = ["eval"; "test"]
  end.
Proof.
  unfold choose.
  destruct (decide (bench_dataset = "mmlu-zs")) as [-> | Hzs]; simpl.
  { split; [apply elem_of_cons; by left | done]. }
  destruct (bool_decide_reflect (bench_dataset ∈ ["mmlu"; "mmlu-fs"])) as [Hin | Hnin];
    simpl.
  { split; [apply elem_of_cons; by right | done]. }
  assert (Hother : bench_dataset ∉ ["mmlu-zs"; "mmlu"; "mmlu-fs"]).
  { intros Hin. apply elem_of_cons in Hin as [Hin | Hin]; done. }
  by destruct (contains "/" bench_dataset).
Qed.

(** X8: for any other value with a "/" in it, [choose] loads the repository
    named by the text up to the second "/", with the rest as the one data
    file of the split "eval": with two or more "/" the two put together
    with a "/" are the value again and the repository name holds exactly
    one "/"; with one "/" the repository is the whole value and the data
    file is the empty string. *)
Theorem bench_dataset_custom_path (bench_dataset : string) :
  match choose bench_dataset with
  | Load call =>
      if map_subjects call then
        exists bench_ds_data_file,
          data_files call = [("eval", bench_ds_data_file)] /\
          if (2 <=? count "/" bench_dataset)%nat
          then bench_dataset = (path call +:+ "/" +:+ bench_ds_data_file) /\
               count "/" (path call) = 1%nat
          else path call = bench_dataset /\ bench_ds_data_file = EmptyString
      else True
  | ValueError _ => True
  end.
Proof.
  unfold choose.
  destruct (decide (bench_dataset = "mmlu-zs")); [done |].
  destruct (bool_decide (bench_dataset ∈ ["mmlu"; "mmlu-fs"])); [done |].
  destruct (contains "/" bench_dataset) eqn:Hc; [| done].
  apply contains_count in Hc.
  destruct (split_max_spec "/" bench_dataset 2) as (Hjoin & Hlen & Hparts).
  destruct (Nat.leb_spec 2 (count "/" bench_dataset)) as [Htwo | Hone];
    destruct (split_max "/" 2 bench_dataset) as [| a [| b [| c [| d parts]]]] eqn:Hs;
    cbn [length] in Hlen; try lia; simpl; eexists; (split; [done |]).
  - split.
    + rewrite <- Hjoin at 1. rewrite !join_cons. simpl. by rewrite str_app_assoc.
    + rewrite !count_app, (Hparts 0%nat a), (Hparts 1%nat b); done || lia.
  - done.
Qed.

Section SubjectFacts.
Variable strip : string -> string.
Variable lower : string -> string.

Lemma split_before_after (sep : ascii) (s : string) :
  split sep s =
  text_before sep s ::
  match text_after sep s with
  | Some rest => split sep rest
  | None => []
  end.
Proof.
  induction s as [| c s IH]; simpl; [done |].
  destruct (Ascii.eqb c sep); [done |]. by rewrite IH.
Qed.

Lemma replace_removes (a b : ascii) (s : string) :
  a <> b -> count a (replace a b s) = 0%nat.
Proof.
  intros Hne. induction s as [| c s IH]; simpl; [done |].
  destruct (Ascii.eqb_spec c a) as [-> | Hca].
  - rewrite (proj2 (Ascii.eqb_neq b a)) by done. done.
  - rewrite (proj2 (Ascii.eqb_neq c a)) by done. done.
Qed.

(** X9: [transform_bench_subject] reads the name from the text before the
    first ":" (stripped, lower-cased) and the subject from the text between
    the first and the second ":" (stripped), or "all" when there is no ":";
    whatever follows a second ":" is dropped, and neither result holds a
    "-". *)
Theorem transform_bench_subject_parts (subject : string) :
  let t := transform_bench_subject strip lower subject in
  t_name t = replace "-" "_" (lower (strip (text_before ":" subject))) /\
  t_subject t =
    match text_after ":" subject with
    | Some rest => replace "-" "_" (strip (text_before ":" rest))
    | None => "all"
    end /\
  count "-" (t_name t) = 0%nat /\
  count "-" (t_subject t) = 0%nat.
Proof.
  cbv zeta. unfold transform_bench_subject. simpl.
  rewrite split_before_after. simpl.
  split; [done |].
  assert (Hsub :
    (if (1 <? S (length match text_after ":" subject with
                         | Some rest => split ":" rest
                         | None => []
                         end))%nat
     then replace "-" "_"
            (strip (default EmptyString
                      (match text_after ":" subject with
                       | Some rest => split ":" rest
                       | None => []
                       end !! 0%nat)))
     else "all") =
    match text_after ":" subject with
    | Some rest => replace "-" "_" (strip (text_before ":" rest))
    | None => "all"
    end).
  { destruct (text_after ":" subject) as [rest |]; [| done].
    by rewrite split_before_after. }
  rewrite Hsub. split; [done |]. split; [by apply replace_removes |].
  destruct (text_after ":" subject); [by apply replace_removes | done].
Qed.

End SubjectFacts.
End BenchSetupFacts.

(** ** RunPodCallback over a run *)

Section RunPodRun.
Context {F : Type} `{Py.Float F} {V : Type}.
Variable json_dumps : RunPodCallback.progress_content (F := F) (V := V) -> string.

Local Abbreviation on_step_end := (RunPodCallback.on_step_end json_dumps).
Local Abbreviation after_all := (RunPodCalls.after_all json_dumps).

Lemma rewrite_logs_partitioned (d : gmap string V) : partitioned (rewrite_logs d) d.
Proof.
  unfold rewrite_logs.
  apply (map_fold_weak_ind partitioned rewrite_item).
  - apply partitioned_empty.
  - intros i x m r Hi Hp. by apply partitioned_step.
Qed.

(** X17: [on_log] keeps, on world process zero, exactly what [rewrite_logs]
    makes of the logs, and nothing on any other process; none of the nine
    other attributes of the callback changes. *)
Theorem runpod_on_log (self : RunPodCallback.self_ (F := F) (V := V))
    (state : TrainerState) (logs : gmap string V) :
  let self' := RunPodCallback.on_log self state logs in
  RunPodCallback.metrics self' =
    (if is_world_process_zero state then rewrite_logs logs
     else RunPodCallback.metrics self) /\
  RunPodCallback.total_tracked_steps self' = RunPodCallback.total_tracked_steps self /\
  RunPodCallback.current_tracked_steps self' = RunPodCallback.current_tracked_steps self /\
  RunPodCallback.training_start_time self' = RunPodCallback.training_start_time self /\
  RunPodCallback.total_eval_time self' = RunPodCallback.total_eval_time self /\
  RunPodCallback.last_log_time self' = RunPodCallback.last_log_time self /\
  RunPodCallback.wandb_run_url self' = RunPodCallback.wandb_run_url self /\
  RunPodCallback.job_id self' = RunPodCallback.job_id self /\
  RunPodCallback.last_logged_step self' = RunPodCallback.last_logged_step self /\
  RunPodCallback.verbose self' = RunPodCallback.verbose self.
Proof.
  cbv zeta. unfold RunPodCallback.on_log.
  destruct (is_world_process_zero state); [| done]. simpl.
  split; [| done].
  destruct (rewrite_logs_partitioned logs) as (train & eval_ & test & -> & _).
  unfold buckets.
  rewrite lookup_insert_eq.
  rewrite lookup_insert_ne by done. rewrite lookup_insert_eq.
  rewrite !lookup_insert_ne by done. rewrite lookup_insert_eq.
  done.
Qed.

(** X18: what [on_step_end] does to the callback, whether it returns or raises:
    it counts the step, sets [last_log_time] exactly when it has sent an
    update, and leaves each of the eight other attributes alone
    ([last_logged_step] and [verbose] among them); it sends either nothing
    or one message, to the logger and as a progress update. *)
Theorem runpod_on_step_end_frame (self : RunPodCallback.self_ (F := F) (V := V))
    (args : TrainingArguments) (state : TrainerState) (current_time : F) :
  let '(self', outcome) := on_step_end self args state current_time in
  RunPodCallback.current_tracked_steps self'
    = RunPodCallback.current_tracked_steps self + 1 /\
  RunPodCallback.total_tracked_steps self' = RunPodCallback.total_tracked_steps self /\
  RunPodCallback.training_start_time self' = RunPodCallback.training_start_time self /\
  RunPodCallback.total_eval_time self' = RunPodCallback.total_eval_time self /\
  RunPodCallback.metrics self' = RunPodCallback.metrics self /\
  RunPodCallback.wandb_run_url self' = RunPodCallback.wandb_run_url self /\
  RunPodCallback.job_id self' = RunPodCallback.job_id self /\
  RunPodCallback.last_logged_step self' = RunPodCallback.last_logged_step self /\
  RunPodCallback.verbose self' = RunPodCallback.verbose self /\
  match outcome with
  | Py.Ok [] => RunPodCallback.last_log_time self' = RunPodCallback.last_log_time self
  | Py.Ok [RunPodCallback.LoggerInfo message job;
           RunPodCallback.ProgressUpdate job' message'] =>
      RunPodCallback.last_log_time self' = current_time /\
      job = RunPodCallback.job_id self /\ job' = job /\ message' = message
  | Py.Ok _ => False
  | Py.Raise e =>
      RunPodCallback.last_log_time self' = RunPodCallback.last_log_time self /\
      (Py.exn_cls e = Py.ZeroDivisionError \/ Py.exn_cls e = Py.TypeError)
  end.
Proof.
  unfold RunPodCallback.on_step_end, RunPodCallback.time_to_log,
    RunPodCallback._send_update.
  destruct (Qeq_bool (logging_steps args) 0); simpl; [by repeat split; try left |].
  destruct (Qeq_bool _ 0); simpl; [| done].
  destruct (RunPodCallback.current_tracked_steps self + 1 =? 0); simpl;
    [by repeat split; try left |].
  destruct (RunPodCallback.total_tracked_steps self) eqn:Htotal; simpl;
    [done | by repeat split; try right].
Qed.

Lemma after_fields (self : RunPodCallback.self_ (F := F) (V := V))
    (c : RunPodCalls.call) :
  RunPodCallback.total_tracked_steps (RunPodCalls.after json_dumps self c)
    = RunPodCallback.total_tracked_steps self /\
  RunPodCallback.current_tracked_steps (RunPodCalls.after json_dumps self c)
    = RunPodCallback.current_tracked_steps self
      + (if RunPodCalls.is_step_end c then 1 else 0).
Proof.
  destruct c as [state logs | args state current_time | now]; simpl.
  - unfold RunPodCallback.on_log.
    destruct (is_world_process_zero state); simpl; split; done || lia.
  - unfold RunPodCallback.on_step_end.
    destruct (RunPodCallback.time_to_log args state) as [[] | e]; simpl; [| done ..].
    destruct (_ =? 0); simpl; [done |].
    by destruct (RunPodCallback.total_tracked_steps self) eqn:Htotal.
  - split; [done | lia].
Qed.

Lemma after_all_fields (calls : list RunPodCalls.call)
    (self : RunPodCallback.self_ (F := F) (V := V)) :
  RunPodCallback.total_tracked_steps (after_all self calls)
    = RunPodCallback.total_tracked_steps self /\
  RunPodCallback.current_tracked_steps (after_all self calls)
    = RunPodCallback.current_tracked_steps self
      + Z.of_nat (length (List.filter RunPodCalls.is_step_end calls)).
Proof.
  unfold RunPodCalls.after_all.
  revert self. induction calls as [| c calls IH]; intros self; simpl.
  - split; [done | lia].
  - destruct (IH (RunPodCalls.after json_dumps self c)) as [-> ->].
    destruct (after_fields self c) as [-> ->].
    split; [done |]. destruct (RunPodCalls.is_step_end c); simpl; lia.
Qed.

(** X20: on world process zero: after [on_train_begin], whatever calls follow,
    the callback knows the total (the keyword argument, or [max_steps]
    without it) and has counted the step ends so far, so that a step end
    with a logging interval that is not zero never raises. *)
Theorem runpod_world_process_zero (job : string) (verbose : bool) (t0 t1 now : F)
    (state0 : TrainerState) (wandb_run : option string)
    (total_num_training_steps : option Z) (calls : list RunPodCalls.call) :
  is_world_process_zero state0 = true ->
  let self := after_all
                (RunPodCallback.on_train_begin (RunPodCallback.init job verbose t0 t1)
                   state0 wandb_run total_num_training_steps now) calls in
  RunPodCallback.total_tracked_steps self
    = Some (default (max_steps state0) total_num_training_steps) /\
  RunPodCallback.current_tracked_steps self
    = Z.of_nat (length (List.filter RunPodCalls.is_step_end calls)) /\
  forall args state current_time,
    ~ (logging_steps args == 0)%Q ->
    exists events, (on_step_end self args state current_time).2 = Py.Ok events.
Proof.
  intros Hzero. cbv zeta.
  destruct (after_all_fields calls
              (RunPodCallback.on_train_begin (RunPodCallback.init job verbose t0 t1)
                 state0 wandb_run total_num_training_steps now)) as [Htotal Hcount].
  set (self1 := RunPodCallback.on_train_begin _ _ _ _ _) in *.
  assert (Hbegin : RunPodCallback.total_tracked_steps self1
                   = Some (default (max_steps state0) total_num_training_steps)
                   /\ RunPodCallback.current_tracked_steps self1 = 0).
  { subst self1. unfold RunPodCallback.on_train_begin. by rewrite Hzero. }
  destruct Hbegin as [Hb1 Hb2]. rewrite Hb1 in Htotal. rewrite Hb2 in Hcount.
  split; [done |]. split; [by rewrite Hcount |].
  intros args state current_time Hnz.
  destruct (runpod_on_step_end_tracked json_dumps _ args state current_time _
              Hnz Htotal) as (due & _ & ->); [lia |].
  destruct due; by eexists.
Qed.

(** X21: on any other process: [on_train_begin] leaves the total unknown, no
    later call sets it, and so no step end ever sends an update: it sends
    nothing off the logging interval, and raises on it. *)
Theorem runpod_other_process (job : string) (verbose : bool) (t0 t1 now : F)
    (state0 : TrainerState) (wandb_run : option string)
    (total_num_training_steps : option Z) (calls : list RunPodCalls.call) :
  is_world_process_zero state0 = false ->
  let self := after_all
                (RunPodCallback.on_train_begin (RunPodCallback.init job verbose t0 t1)
                   state0 wandb_run total_num_training_steps now) calls in
  RunPodCallback.total_tracked_steps self = None /\
  forall args state current_time,
    match (on_step_end self args state current_time).2 with
    | Py.Ok events =>
        events = [] /\
        RunPodCallback.time_to_log args state = Py.Ok false
    | Py.Raise e =>
        RunPodCallback.time_to_log args state = Py.Raise e \/
        RunPodCallback.time_to_log args state = Py.Ok true
    end.
Proof.
  intros Hzero. cbv zeta.
  destruct (after_all_fields calls
              (RunPodCallback.on_train_begin (RunPodCallback.init job verbose t0 t1)
                 state0 wandb_run total_num_training_steps now)) as [Htotal _].
  set (self1 := RunPodCallback.on_train_begin _ _ _ _ _) in *.
  assert (Hbegin : RunPodCallback.total_tracked_steps self1 = None).
  { subst self1. unfold RunPodCallback.on_train_begin. by rewrite Hzero. }
  rewrite Hbegin in Htotal.
  split; [done |].
  intros args state current_time. unfold RunPodCallback.on_step_end.
  destruct (RunPodCallback.time_to_log args state) as [[] | e]; simpl.
  - destruct (_ =? 0); simpl; [by right |].
    rewrite Htotal. by right.
  - done.
  - by left.
Qed.

End RunPodRun.

(** ** Tokenized examples, predictions and references *)

(** X10: the labels of a tokenized example line up with its input ids: both
    have the same length, the labels over the source tokens are all
    IGNORE_INDEX, and the labels over the target tokens are the input ids
    there. *)
Theorem tokenize_evals_alignment (tokenizer : BenchEval.tokenizer_)
    (ex : BenchEval.example) :
  let t := BenchEval.tokenize_evals tokenizer ex in
  let n_source :=
    length (BenchEval.encode tokenizer
              (BenchEval.bos_token tokenizer +:+ BenchEval.input ex) (Some 2048)) in
  length (BenchEval.labels t) = length (BenchEval.input_ids t) /\
  BenchEval.subject_ t = BenchEval.subject ex /\
  forall (i : nat) (l : Z),
    BenchEval.labels t !! i = Some l ->
    if decide (i < n_source)%nat
    then l = BenchEval.IGNORE_INDEX
    else BenchEval.input_ids t !! i = Some l.
Proof.
  cbv zeta. unfold BenchEval.tokenize_evals. simpl.
  split; [by rewrite !length_app, length_replicate |]. split; [done |].
  intros i l Hl. case_decide as Hi.
  - rewrite lookup_app_l in Hl by (by rewrite length_replicate).
    by apply lookup_replicate in Hl as [-> _].
  - rewrite lookup_app_r in Hl by (rewrite length_replicate; lia).
    rewrite length_replicate in Hl.
    by rewrite lookup_app_r by lia.
Qed.

Section PredictionFacts.
Context {F : Type} `{Py.Float F}.
Variable prediction_step : BenchEval.batch -> BenchEval.prediction (F := F).
Variable abcd : list Z.

Lemma argmax_from_range (xs : list F) (best_i i : Z) (best : F) :
  let r := BenchEval.argmax_from best_i best i xs in
  r = best_i \/ i <= r < i + Z.of_nat (length xs).
Proof.
  cbv zeta. revert best_i i best.
  induction xs as [| x xs IH]; intros best_i i best; simpl; [by left |].
  destruct (Py.ltb best x).
  - destruct (IH i (i + 1) x) as [-> | Hr]; right; lia.
  - destruct (IH best_i (i + 1) best) as [-> | Hr]; [by left | right; lia].
Qed.

Lemma mapM_result_length {A B} (f : A -> Py.result B) (l : list A) (ys : list B) :
  mapM f l = Py.Ok ys -> length ys = length l.
Proof.
  revert ys. induction l as [| x l IH]; intros ys; [by intros [= <-] |].
  rewrite mapM_result_cons.
  destruct (f x); [| done]. destruct (mapM f l) as [zs |]; [| done].
  intros [= <-]. simpl. by rewrite (IH zs).
Qed.

Lemma mapM_tensor_get_error {A} (t : list A) (l : list Z) (e : Py.exn) :
  mapM (BenchEval.tensor_get t) l = Py.Raise e -> Py.exn_cls e = Py.IndexError.
Proof.
  induction l as [| x l IH]; [done |].
  rewrite mapM_result_cons.
  destruct (BenchEval.tensor_get t x) eqn:Hx.
  - destruct (mapM _ l); [done |]. intros [= <-]. by apply IH.
  - intros [= <-]. unfold BenchEval.tensor_get in Hx.
    destruct (Py.index t x); by simplify_eq.
Qed.

Lemma first_label_from_error (labels : list Z) (i : Z) (e : Py.exn) :
  BenchEval.first_label_from i labels = Py.Raise e ->
  Py.exn_cls e = Py.IndexError /\ answer_labels labels = [].
Proof.
  unfold answer_labels.
  revert i. induction labels as [| l labels IH]; intros i; simpl.
  - by intros [= <-].
  - destruct (decide (l = BenchEval.IGNORE_INDEX)) as [-> | Hne]; [| done].
    intros He. rewrite filter_cons_False by (intros Hn; by apply Hn).
    by apply (IH (i + 1)).
Qed.

Lemma index_of_spec (label : Z) (l : list Z) (i : Z) :
  let r := BenchEval.index_of label i l in
  (r = -1 /\ label ∉ l) \/
  (i <= r /\ l !! Z.to_nat (r - i) = Some label /\
   forall j : nat, Z.of_nat j < r - i -> l !! j <> Some label).
Proof.
  cbv zeta. revert i. induction l as [| x l IH]; intros i; simpl.
  - left. split; [done | apply not_elem_of_nil].
  - destruct (decide (x = label)) as [-> | Hne].
    + right. split; [lia |]. rewrite Z.sub_diag. split; [done |]. intros j ?; lia.
    + destruct (IH (i + 1)) as [[-> Hnin] | (Hle & Hat & Hbefore)].
      * left. split; [done |]. by apply not_elem_of_cons.
      * right. split; [lia |].
        replace (Z.to_nat (BenchEval.index_of label (i + 1) l - i))
          with (S (Z.to_nat (BenchEval.index_of label (i + 1) l - (i + 1)))) by lia.
        split; [done |].
        intros [| j] Hj; simpl; [by intros [= ->] |].
        apply Hbefore. lia.
Qed.

Lemma predict_range (labels_b : list (list Z)) (i : Z) (logit : list (list F)) :
  match BenchEval.predict abcd labels_b i logit with
  | Py.Ok p => 0 <= p < Z.of_nat (length abcd)
  | Py.Raise e => Py.exn_cls e = Py.IndexError
  end.
Proof.
  unfold BenchEval.predict, BenchEval.first_label, mbind, Py.result_bind.
  destruct (BenchEval.tensor_get labels_b i) as [labels_i | e] eqn:Hl.
  2: { unfold BenchEval.tensor_get in Hl. destruct (Py.index labels_b i); by simplify_eq. }
  destruct (BenchEval.first_label_from 0 labels_i) as [pos | e] eqn:Hp.
  2: { by apply first_label_from_error in Hp as [-> _]. }
  destruct (BenchEval.tensor_get logit (pos - 1)) as [row | e] eqn:Hr.
  2: { unfold BenchEval.tensor_get in Hr. destruct (Py.index logit (pos - 1)); by simplify_eq. }
  destruct (mapM (BenchEval.tensor_get row) abcd) as [options | e] eqn:Ho.
  2: { by apply mapM_tensor_get_error in Ho. }
  apply mapM_result_length in Ho.
  destruct options as [| x xs]; simpl; [done |].
  pose proof (argmax_from_range xs 0 1 x) as Hrange. cbv zeta in Hrange.
  rewrite <- Ho. simpl. lia.
Qed.

(** X11: a prediction, when there is one, is a place in the list of option
    tokens, and the only exception the prediction of an example raises is
    IndexError; a reference is -1 exactly for a label that is no option
    token, and otherwise the first place of the label in that list. *)
Theorem prediction_and_reference_range (labels_b : list (list Z)) (i : Z)
    (logit : list (list F)) (label : Z) :
  match BenchEval.predict abcd labels_b i logit with
  | Py.Ok p => 0 <= p < Z.of_nat (length abcd)
  | Py.Raise e => Py.exn_cls e = Py.IndexError
  end /\
  let r := BenchEval.reference abcd label in
  -1 <= r < Z.of_nat (length abcd) /\
  (r = -1 <-> label ∉ abcd) /\
  (0 <= r ->
   abcd !! Z.to_nat r = Some label /\
   forall j : nat, Z.of_nat j < r -> abcd !! j <> Some label).
Proof.
  split; [apply predict_range |].
  cbv zeta. unfold BenchEval.reference.
  pose proof (index_of_spec label abcd 0) as Hspec. cbv zeta in Hspec.
  destruct Hspec as [[-> Hnin] | (Hle & Hat & Hbefore)].
  - split; [lia |]. split; [done |]. intros ?; lia.
  - rewrite Z.sub_0_r in Hat, Hbefore.
    apply lookup_lt_Some in Hat as Hlt.
    split; [lia |]. split; [| done].
    split; [lia |]. intros Hnin. exfalso. apply Hnin.
    by apply list_elem_of_lookup_2 in Hat.
Qed.

Lemma predict_all_length (labels_b : list (list Z)) (logits : list (list (list F)))
    (i : Z) :
  match BenchEval.predict_all abcd labels_b i logits with
  | Py.Ok ps => length ps = length logits
  | Py.Raise e => Py.exn_cls e = Py.IndexError
  end.
Proof.
  revert i. induction logits as [| logit logits IH]; intros i; simpl; [done |].
  unfold mbind, Py.result_bind.
  pose proof (predict_range labels_b i logit) as Hone.
  destruct (BenchEval.predict abcd labels_b i logit); [| done].
  specialize (IH (i + 1)).
  destruct (BenchEval.predict_all abcd labels_b (i + 1) logits); [| done].
  simpl. by rewrite IH.
Qed.

Lemma column0_length_both (t : list Z) :
  length (BenchEval.column0 t) = Nat.div2 (length t) /\
  forall a, length (BenchEval.column0 (a :: t)) = Nat.div2 (S (length t)).
Proof.
  induction t as [| b t [IH1 IH2]]; [done |].
  split; [apply IH2 |]. intros a. simpl. by rewrite IH1.
Qed.

Lemma column0_length (t : list Z) : length (BenchEval.column0 t) = Nat.div2 (length t).
Proof. apply column0_length_both. Qed.

(** X12: the body of the loop over one batch: when it returns, the labels the
    prediction step gave back hold an even, positive number of entries that
    are not IGNORE_INDEX; the references have grown by half that number and
    the predictions by the number of examples in the logits.  It raises
    IndexError when some example cannot be predicted, and RuntimeError when
    that number of label entries is zero or odd. *)
Theorem eval_batch_growth (acc : BenchEval.running) (b : BenchEval.batch) :
  let out := prediction_step b in
  let kept := length (BenchEval.masked (BenchEval.labels_out out)) in
  match BenchEval.eval_batch prediction_step abcd acc b with
  | Py.Ok acc' =>
      Nat.even kept = true /\ (0 < kept)%nat /\
      length (BenchEval.preds acc')
        = (length (BenchEval.preds acc) + length (BenchEval.logits out))%nat /\
      length (BenchEval.refs acc')
        = (length (BenchEval.refs acc) + Nat.div2 kept)%nat
  | Py.Raise e =>
      Py.exn_cls e = Py.IndexError \/
      Py.exn_cls e = Py.RuntimeError /\ (kept = 0%nat \/ Nat.odd kept = true)
  end.
Proof.
  cbv zeta. unfold BenchEval.eval_batch, mbind, Py.result_bind.
  pose proof (predict_all_length (BenchEval.batch_labels b)
                (BenchEval.logits (prediction_step b)) 0) as Hps.
  destruct (BenchEval.predict_all _ _ _ _) as [ps | e]; [| by left].
  unfold BenchEval.view2_column0.
  destruct (Nat.eqb_spec (length (BenchEval.masked
              (BenchEval.labels_out (prediction_step b)))) 0) as [Hz | Hnz]; simpl.
  { right. split; [done | by left]. }
  destruct (Nat.odd _) eqn:Hodd; simpl.
  { right. split; [done | by right]. }
  rewrite !length_app, length_map, column0_length, Hps.
  rewrite <- Nat.negb_odd, Hodd. repeat split. lia.
Qed.

End PredictionFacts.

(** ** The table of one process *)

Section LocalTable.
Variable set_order : list string -> list string.
Implicit Types (d : list (string * BenchEval.bench_data)).

Lemma od_update_get {V} (k : string) (f : V -> V) (d : list (string * V)) (v : V) :
  OrderedDict.get k d = Some v ->
  OrderedDict.update k f d = Py.Ok (OrderedDict.set k (f v) d).
Proof. intros Hg. unfold OrderedDict.update. by rewrite Hg. Qed.

Lemma od_set_set {V} (k : string) (v1 v2 : V) (d : list (string * V)) :
  OrderedDict.set k v2 (OrderedDict.set k v1 d) = OrderedDict.set k v2 d.
Proof.
  induction d as [| [k' v'] d IH]; simpl.
  - by rewrite decide_True.
  - destruct (decide (k' = k)) as [-> | Hne]; simpl.
    + by rewrite decide_True.
    + rewrite decide_False by done. by rewrite IH.
Qed.

Lemma empty_bench_names_get (names : list string) d (s : string) :
  OrderedDict.get s
    (fold_left (fun d s => OrderedDict.set s BenchEval.no_data d) names d) =
  if bool_decide (s ∈ names) then Some BenchEval.no_data else OrderedDict.get s d.
Proof.
  revert d. induction names as [| n names IH]; intros d; simpl; [done |].
  rewrite IH.
  destruct (bool_decide_reflect (s ∈ names)) as [Hin | Hnin].
  - rewrite bool_decide_eq_true_2; [done |]. apply elem_of_cons. by right.
  - destruct (decide (n = s)) as [-> | Hne].
    + rewrite od_get_set_eq. rewrite bool_decide_eq_true_2; [done |].
      apply elem_of_cons. by left.
    + rewrite od_get_set_ne by done. rewrite bool_decide_eq_false_2; [done |].
      intros Hin. apply elem_of_cons in Hin as [-> | Hin]; done.
Qed.

Lemma by_subject_spec (bench_name : list string) (preds refs : list Z) d :
  (forall s, s ∈ bench_name -> is_Some (OrderedDict.get s d)) ->
  exists d',
    BenchEval.by_subject d bench_name preds refs = Py.Ok d' /\
    forall s, OrderedDict.get s d' =
              add_rows_to (subject_rows s bench_name preds refs)
                <$> OrderedDict.get s d.
Proof.
  revert preds refs d.
  induction bench_name as [| n bench_name IH]; intros preds refs d Hkeys.
  - exists d. split; [done |]. intros s. simpl.
    destruct (OrderedDict.get s d) as [[rs ps] |]; simpl; [| done].
    unfold add_rows_to. simpl. by rewrite !app_nil_r.
  - destruct preds as [| p preds]; [| destruct refs as [| r refs]].
    1, 2: exists d; split; [done |]; intros s; simpl;
          destruct (OrderedDict.get s d) as [[rs ps] |]; simpl; [| done];
          unfold add_rows_to; simpl; by rewrite !app_nil_r.
    destruct (Hkeys n) as [v Hv]; [apply elem_of_cons; by left |].
    cbn [BenchEval.by_subject]. unfold mbind, Py.result_bind.
    rewrite (od_update_get _ _ _ _ Hv).
    rewrite (od_update_get _ _ _ _ (od_get_set_eq n _ d)), od_set_set.
    destruct (IH preds refs
                (OrderedDict.set n
                   (BenchEval.append_ref r (BenchEval.append_pred p v)) d))
      as (d' & Hrun & Hget).
    { intros s Hs. destruct (decide (n = s)) as [-> | Hne].
      - rewrite od_get_set_eq. by eexists.
      - rewrite od_get_set_ne by done. apply Hkeys. apply elem_of_cons. by right. }
    exists d'. split; [done |]. intros s. rewrite Hget. simpl.
    destruct (decide (n = s)) as [-> | Hne].
    + rewrite od_get_set_eq, Hv. simpl. f_equal.
      unfold add_rows_to, BenchEval.append_ref, BenchEval.append_pred. simpl.
      by rewrite <- !app_assoc.
    + by rewrite od_get_set_ne.
Qed.

(** X13: when the iteration over [set(bench_name)] yields every name (as a set
    does), the loop over [zip(bench_name, preds, refs)] returns a table
    with exactly the names yielded, each holding the predictions and the
    references zipped with that name, in order and as many of the one as of
    the other. *)
Theorem local_table_groups (bench_name : list string) (preds refs : list Z) :
  Forall (fun s => s ∈ set_order bench_name) bench_name ->
  exists d,
    BenchEval.by_subject (BenchEval.empty_bench_names set_order bench_name)
      bench_name preds refs = Py.Ok d /\
    forall s,
      OrderedDict.get s d =
      if bool_decide (s ∈ set_order bench_name)
      then Some {| BenchEval.d_refs := map snd (subject_rows s bench_name preds refs);
                   BenchEval.d_preds := map fst (subject_rows s bench_name preds refs) |}
      else None.
Proof.
  intros Hset. rewrite Forall_forall in Hset.
  destruct (by_subject_spec bench_name preds refs
              (BenchEval.empty_bench_names set_order bench_name)) as (d & Hrun & Hget).
  { intros s Hs. unfold BenchEval.empty_bench_names.
    rewrite empty_bench_names_get, bool_decide_eq_true_2 by (by apply Hset).
    by eexists. }
  exists d. split; [done |]. intros s. rewrite Hget.
  unfold BenchEval.empty_bench_names. rewrite empty_bench_names_get.
  by destruct (bool_decide (s ∈ set_order bench_name)).
Qed.

End LocalTable.

(** ** What the accuracy is computed over, and the keys of the results *)

Section WorldFacts.
Context {F : Type} `{Py.Float F}.
Variable prediction_step : BenchEval.batch -> BenchEval.prediction (F := F).
Variable accuracy : list Z -> list Z -> F.
Variable set_order : list string -> list string.
Variable zero : F.
Variable abcd : list Z.
Variable bench_name : list string.

Local Abbreviation evaluate_local :=
  (BenchEval.evaluate_local prediction_step set_order abcd bench_name).
Local Abbreviation on_evaluate :=
  (BenchEval.on_evaluate prediction_step accuracy set_order zero abcd bench_name).
Local Abbreviation all_balanced :=
  (Forall (fun item : string * BenchEval.bench_data => balanced item.2)).

Lemma od_set_Forall {V} (P : string * V -> Prop) (k : string) (v : V)
    (d : list (string * V)) :
  Forall P d -> P (k, v) -> Forall P (OrderedDict.set k v d).
Proof.
  intros Hd Hv. induction Hd as [| [k' v'] d Hx Hd IH]; simpl.
  - by constructor.
  - destruct (decide (k' = k)); by constructor.
Qed.

Lemma by_subject_balanced (names : list string) (preds refs : list Z)
    (d d' : list (string * BenchEval.bench_data)) :
  all_balanced d ->
  BenchEval.by_subject d names preds refs = Py.Ok d' ->
  all_balanced d'.
Proof.
  revert preds refs d.
  induction names as [| n names IH]; intros preds refs d Hd; [by intros [= <-] |].
  destruct preds as [| p preds]; [by intros [= <-] |].
  destruct refs as [| r refs]; [by intros [= <-] |].
  cbn [BenchEval.by_subject]. unfold mbind, Py.result_bind.
  unfold OrderedDict.update at 1.
  destruct (OrderedDict.get n d) as [v |] eqn:Hv; [| done].
  rewrite (od_update_get _ _ _ _ (od_get_set_eq n _ d)), od_set_set.
  apply IH. apply od_set_Forall; [done |].
  apply od_get_elem in Hv.
  rewrite Forall_forall in Hd. specialize (Hd _ Hv).
  unfold balanced, BenchEval.append_ref, BenchEval.append_pred in *. simpl in *.
  rewrite !length_app. simpl. lia.
Qed.

Lemma empty_bench_names_balanced (names : list string)
    (d : list (string * BenchEval.bench_data)) :
  all_balanced d ->
  all_balanced (fold_left (fun d s => OrderedDict.set s BenchEval.no_data d) names d).
Proof.
  revert d. induction names as [| n names IH]; intros d Hd; simpl; [done |].
  apply IH. by apply od_set_Forall.
Qed.

Lemma evaluate_local_balanced (data_loader : list BenchEval.batch)
    (l : BenchEval.local_) :
  evaluate_local data_loader = Py.Ok l ->
  all_balanced (BenchEval.local_bench_names l).
Proof.
  unfold BenchEval.evaluate_local, mbind, Py.result_bind.
  destruct (BenchEval.eval_loop _ _ _) as [acc |]; [| done].
  destruct (BenchEval.by_subject _ _ _ _) as [d |] eqn:Hd; [| done].
  intros [= <-]. simpl.
  eapply by_subject_balanced; [| exact Hd].
  apply empty_bench_names_balanced. constructor.
Qed.

Lemma combine_item_balanced (combined : list (string * BenchEval.bench_data))
    (item : string * BenchEval.bench_data) :
  all_balanced combined -> balanced item.2 ->
  all_balanced (BenchEval.combine_item combined item).
Proof.
  intros Hc Hi. destruct item as [n data].
  unfold BenchEval.combine_item, OrderedDict.contains.
  assert (Hext : forall v, balanced v ->
            balanced (BenchEval.extend_preds (BenchEval.d_preds data)
                        (BenchEval.extend_refs (BenchEval.d_refs data) v))).
  { intros v Hv. unfold balanced, BenchEval.extend_preds, BenchEval.extend_refs in *.
    simpl in *. rewrite !length_app. lia. }
  destruct (OrderedDict.get n combined) as [v |] eqn:Hv.
  - rewrite Hv. apply od_set_Forall; [done |]. apply Hext.
    apply od_get_elem in Hv. rewrite Forall_forall in Hc. by apply (Hc _ Hv).
  - rewrite od_get_set_eq. apply od_set_Forall.
    + by apply od_set_Forall.
    + by apply Hext.
Qed.

Lemma combine_balanced (tables : list (list (string * BenchEval.bench_data))) :
  Forall all_balanced tables -> all_balanced (BenchEval.combine tables).
Proof.
  unfold BenchEval.combine. rewrite combine_concat.
  intros Htables.
  assert (Hitems : all_balanced (concat tables)).
  { induction Htables as [| t tables Ht _ IH]; simpl; [done |].
    by apply Forall_app. }
  assert (Hnil : all_balanced []) by constructor. revert Hnil.
  generalize (@nil (string * BenchEval.bench_data)).
  induction Hitems as [| item items Hi _ IH]; intros combined Hc; simpl; [done |].
  apply IH. by apply combine_item_balanced.
Qed.

(** X14: whatever the batches were: when every process gets through its
    evaluation loop, every category of the combined table holds as many
    references as predictions, so the accuracy of a category is never asked
    of two lists of different length. *)
Theorem combined_table_balanced (w : BenchEval.world (F := F))
    (locals : list (BenchEval.local_ (F := F))) :
  Forall2 (fun p l => evaluate_local (BenchEval.data_loader p) = Py.Ok l)
    (BenchEval.ranks w) locals ->
  Forall (fun item : string * BenchEval.bench_data =>
            length (BenchEval.d_refs item.2) = length (BenchEval.d_preds item.2))
    (BenchEval.combine (map BenchEval.local_bench_names locals)).
Proof.
  intros Hlocals. apply combine_balanced, Forall_fmap.
  induction Hlocals as [| p l ps locals Hp _ IH]; constructor; [| done].
  by apply (evaluate_local_balanced _ _ Hp).
Qed.

(** X15: with no batch on any process, every process gets through its (empty)
    evaluation loop and the bench loss is 0 / 0: the callback raises
    ZeroDivisionError. *)
Theorem on_evaluate_without_batches (w : BenchEval.world) :
  Forall (fun p => BenchEval.data_loader p = []) (BenchEval.ranks w) ->
  exists e, on_evaluate w = Py.Raise e /\ Py.exn_cls e = Py.ZeroDivisionError.
Proof.
  intros Hempty.
  set (local0 :=
    {| BenchEval.local_bench_names := BenchEval.empty_bench_names set_order bench_name;
       BenchEval.local_loss_bench := Py.of_int 0;
       BenchEval.local_len_data_loader := 0 |}).
  assert (Hlocals :
    Forall2 (fun p l => evaluate_local (BenchEval.data_loader p) = Py.Ok l)
      (BenchEval.ranks w) (map (fun _ => local0) (BenchEval.ranks w))).
  { apply Forall2_fmap_r, Forall_Forall2_diag.
    eapply Forall_impl; [exact Hempty |]. intros p ->.
    unfold BenchEval.evaluate_local, BenchEval.eval_loop. simpl.
    by destruct bench_name. }
  unfold BenchEval.on_evaluate.
  rewrite (mapM_result_Forall2 _ _ _ Hlocals).
  unfold mbind, Py.result_bind, BenchEval.gather_scalar_from_all_ranks,
    BenchEval.main_results.
  cbv zeta.
  assert (Hsum : fold_left Z.add
                   (map BenchEval.local_len_data_loader
                      (map (fun _ => local0) (BenchEval.ranks w))) 0 = 0).
  { generalize (BenchEval.ranks w). intros ps. induction ps; simpl; done. }
  rewrite Hsum. simpl. by eexists.
Qed.

(** X16: the entries the callback adds: after it has returned, the [metrics] of
    a process holds a key exactly when it held it before, or the key is
    'eval_bench_loss', 'eval_bench_average_accuracy',
    'eval_bench_total_accuracy', or 'eval_bench_accuracy_' followed by the
    name of a category of the combined table. *)
Theorem on_evaluate_keys (w : BenchEval.world) (locals : list BenchEval.local_) :
  Forall2 (fun p l => evaluate_local (BenchEval.data_loader p) = Py.Ok l)
    (BenchEval.ranks w) locals ->
  fold_left Z.add (map number_of_batches (BenchEval.ranks w)) 0 <> 0 ->
  exists ms,
    on_evaluate w = Py.Ok ms /\
    Forall2 (fun p m =>
               forall k,
                 is_Some (m !! k) <->
                 is_Some (BenchEval.metrics p !! k) \/
                 k = "eval_bench_loss" \/ k = "eval_bench_average_accuracy" \/
                 k = "eval_bench_total_accuracy" \/
                 exists name,
                   name ∈ OrderedDict.keys
                            (BenchEval.combine
                               (map BenchEval.local_bench_names locals)) /\
                   k = "eval_bench_accuracy_" +:+ name)
      (BenchEval.ranks w) ms.
Proof.
  intros Hlocals Hbatches.
  destruct (on_evaluate_spec prediction_step accuracy set_order zero abcd bench_name
              w locals Hlocals Hbatches) as (results & Hres & Hrun).
  destruct (main_results_spec accuracy zero
              (map (accumulated_loss prediction_step) (BenchEval.ranks w)) _
              (map BenchEval.local_bench_names locals) Hbatches)
    as (results' & Hres' & Hloss & Havg & Htot & Hcat & Hkeys).
  rewrite Hres in Hres'. injection Hres' as <-.
  eexists. split; [exact Hrun |].
  apply Forall2_fmap_r, Forall_Forall2_diag, Forall_forall.
  intros p _ k. rewrite lookup_union_is_Some. split.
  - intros [Hk | Hk]; [| by left]. right. by apply Hkeys.
  - intros [Hk | [-> | [-> | [-> | (name & Hname & ->)]]]].
    + by right.
    + left. by rewrite Hloss.
    + left. by rewrite Havg.
    + left. by rewrite Htot.
    + left.
      destruct (OrderedDict.get name
                  (BenchEval.combine (map BenchEval.local_bench_names locals)))
        as [d |] eqn:Hget.
      * by rewrite (Hcat _ _ Hget).
      * by apply od_get_None in Hget.
Qed.

End WorldFacts.

(** ** Runs on the sample inputs *)

Section RunPodInterval.
Context {F : Type} `{Py.Float F} {V : Type}.
Variable json_dumps : RunPodCallback.progress_content (F := F) (V := V) -> string.

(** X19: on a callback that knows the total (set by [on_train_begin] on world
    process zero) and whose step counter is not negative, with a logging
    interval that is not zero, [on_step_end] sends an update exactly when
    the global step is a multiple of the interval; the message is the JSON
    of the step, the total, the elapsed time, the remaining time
    (elapsed / counted steps * steps left), the kept metrics and the wandb
    URL, and it goes to the logger and to the progress update. *)
Theorem runpod_update_on_interval
    (self : RunPodCallback.self_ (F := F) (V := V))
    (args : TrainingArguments) (state : TrainerState) (current_time : F)
    (total : Z) :
  ~ (logging_steps args == 0)%Q ->
  RunPodCallback.total_tracked_steps self = Some total ->
  0 <= RunPodCallback.current_tracked_steps self ->
  let n := RunPodCallback.current_tracked_steps self + 1 in
  let counted := RunPodCallback.with_step_count n self in
  let elapsed :=
    Py.sub (Py.sub current_time (RunPodCallback.training_start_time self))
           (RunPodCallback.total_eval_time self) in
  let message := json_dumps
    {| RunPodCallback.step := global_step state;
       RunPodCallback.total_steps := Some total;
       RunPodCallback.time_seconds_ :=
         {| RunPodCallback.elapsed := elapsed;
            RunPodCallback.remaining :=
              Py.mul (Py.div elapsed (Py.of_int n)) (Py.of_int (total - n)) |};
       RunPodCallback.metrics_ := RunPodCallback.metrics self;
       RunPodCallback.wandb := RunPodCallback.wandb_run_url self |} in
  exists due : bool,
    (due = true <->
     exists k : Z, (inject_Z (global_step state) == inject_Z k * logging_steps args)%Q)
    /\ RunPodCallback.on_step_end json_dumps self args state current_time =
       if due
       then (RunPodCallback.with_last_log_time current_time counted,
             Py.Ok [RunPodCallback.LoggerInfo message (RunPodCallback.job_id self);
                    RunPodCallback.ProgressUpdate (RunPodCallback.job_id self) message])
       else (counted, Py.Ok []).
Proof. exact (runpod_on_step_end_tracked json_dumps self args state current_time total). Qed.

End RunPodInterval.

Lemma sample_interval_not_zero : ~ (logging_steps Samples.args10 == 0)%Q.
Proof. vm_compute. discriminate. Defined.

(** X19, a run of [runpod_update_on_interval]: step 10 of 100 with interval 10;
    the update is sent. *)
Lemma runpod_update_on_interval_witness :
  (exists due : bool,
     (due = true <->
      exists k : Z, (inject_Z 10 == inject_Z k * logging_steps Samples.args10)%Q)
     /\ RunPodCallback.on_step_end Samples.json Samples.begun Samples.args10
          (Samples.on_zero 10) (Exact.of_int 6) =
        if due
        then (RunPodCallback.with_last_log_time (Exact.of_int 6)
                (RunPodCallback.with_step_count 1 Samples.begun),
              Py.Ok [RunPodCallback.LoggerInfo "{step 10}" "job";
                     RunPodCallback.ProgressUpdate "job" "{step 10}"])
        else (RunPodCallback.with_step_count 1 Samples.begun, Py.Ok []))
  /\ (RunPodCallback.on_step_end Samples.json Samples.begun Samples.args10
        (Samples.on_zero 10) (Exact.of_int 6)).2
     = Py.Ok [RunPodCallback.LoggerInfo "{step 10}" "job";
              RunPodCallback.ProgressUpdate "job" "{step 10}"].
Proof.
  split; [| vm_compute; reflexivity].
  apply (runpod_update_on_interval Samples.json Samples.begun Samples.args10
           (Samples.on_zero 10) (Exact.of_int 6) 100).
  - exact sample_interval_not_zero.
  - reflexivity.
  - vm_compute. discriminate.
Defined.

(** X20, a run of [runpod_world_process_zero]: after a step end, a log and an
    evaluation the total is still 100 and one step is counted. *)
Lemma runpod_world_process_zero_witness :
  let self := RunPodCalls.after_all Samples.json
                (RunPodCallback.on_train_begin
                   (RunPodCallback.init "job" false (Exact.of_int 0) (Exact.of_int 0))
                   (Samples.on_zero 0) None None (Exact.of_int 1))
                (Samples.calls Samples.on_zero) in
  RunPodCallback.total_tracked_steps self = Some 100 /\
  RunPodCallback.current_tracked_steps self = 1 /\
  forall args state current_time,
    ~ (logging_steps args == 0)%Q ->
    exists events,
      (RunPodCallback.on_step_end Samples.json self args state current_time).2
      = Py.Ok events.
Proof.
  apply (runpod_world_process_zero Samples.json "job" false (Exact.of_int 0)
           (Exact.of_int 0) (Exact.of_int 1) (Samples.on_zero 0) None None
           (Samples.calls Samples.on_zero)).
  reflexivity.
Defined.

(** X21, a run of [runpod_other_process]: the same calls on a process that is
    not world process zero. *)
Lemma runpod_other_process_witness :
  let self := RunPodCalls.after_all Samples.json
                (RunPodCallback.on_train_begin
                   (RunPodCallback.init "job" false (Exact.of_int 0) (Exact.of_int 0))
                   (Samples.on_worker 0) None None (Exact.of_int 1))
                (Samples.calls Samples.on_worker) in
  RunPodCallback.total_tracked_steps self = None /\
  forall args state current_time,
    match (RunPodCallback.on_step_end Samples.json self args state current_time).2 with
    | Py.Ok events =>
        events = [] /\
        RunPodCallback.time_to_log args state = Py.Ok false
    | Py.Raise e =>
        RunPodCallback.time_to_log args state = Py.Raise e \/
        RunPodCallback.time_to_log args state = Py.Ok true
    end.
Proof.
  apply (runpod_other_process Samples.json "job" false (Exact.of_int 0)
           (Exact.of_int 0) (Exact.of_int 1) (Samples.on_worker 0) None None
           (Samples.calls Samples.on_worker)).
  reflexivity.
Defined.

(** X13, a run of [local_table_groups]: four names in two subjects, with the
    names of the set in the order of their first occurrence. *)
Lemma local_table_groups_witness :
  exists d,
    BenchEval.by_subject (BenchEval.empty_bench_names remove_dups Exact.toy_names)
      Exact.toy_names [1; 1; 0; 1] [1; 3; 2; 0] = Py.Ok d /\
    forall s,
      OrderedDict.get s d =
      if bool_decide (s ∈ remove_dups Exact.toy_names)
      then Some {| BenchEval.d_refs :=
                     map snd (subject_rows s Exact.toy_names [1; 1; 0; 1] [1; 3; 2; 0]);
                   BenchEval.d_preds :=
                     map fst (subject_rows s Exact.toy_names [1; 1; 0; 1] [1; 3; 2; 0]) |}
      else None.
Proof.
  apply (local_table_groups remove_dups Exact.toy_names [1; 1; 0; 1] [1; 3; 2; 0]).
  repeat constructor; by vm_compute.
Defined.

(** X14, a run of [combined_table_balanced] on the group of two processes. *)
Lemma combined_table_balanced_witness :
  Forall (fun item : string * BenchEval.bench_data =>
            length (BenchEval.d_refs item.2) = length (BenchEval.d_preds item.2))
    (BenchEval.combine (map BenchEval.local_bench_names Exact.toy_locals)).
Proof.
  exact (combined_table_balanced Exact.toy_step remove_dups Exact.toy_abcd
           Exact.toy_names Exact.toy_world Exact.toy_locals toy_world_runs).
Defined.

(** X15, a run of [on_evaluate_without_batches]: two processes, no batch. *)
Lemma on_evaluate_without_batches_witness :
  exists e,
    BenchEval.on_evaluate Exact.toy_step Exact.accuracy remove_dups (Exact.of_int 0)
      Exact.toy_abcd Exact.toy_names Samples.idle_world = Py.Raise e /\
    Py.exn_cls e = Py.ZeroDivisionError.
Proof.
  apply (on_evaluate_without_batches Exact.toy_step Exact.accuracy remove_dups
           (Exact.of_int 0) Exact.toy_abcd Exact.toy_names Samples.idle_world).
  repeat constructor.
Defined.

(** X16, a run of [on_evaluate_keys] on the group of two processes. *)
Lemma on_evaluate_keys_witness :
  exists ms,
    Exact.toy_on_evaluate = Py.Ok ms /\
    Forall2 (fun p m =>
               forall k,
                 is_Some (m !! k) <->
                 is_Some (BenchEval.metrics p !! k) \/
                 k = "eval_bench_loss" \/ k = "eval_bench_average_accuracy" \/
                 k = "eval_bench_total_accuracy" \/
                 exists name,
                   name ∈ OrderedDict.keys
                            (BenchEval.combine
                               (map BenchEval.local_bench_names Exact.toy_locals)) /\
                   k = "eval_bench_accuracy_" +:+ name)
      (BenchEval.ranks Exact.toy_world) ms.
Proof.
  exact (on_evaluate_keys Exact.toy_step Exact.accuracy remove_dups (Exact.of_int 0)
           Exact.toy_abcd Exact.toy_names Exact.toy_world Exact.toy_locals
           toy_world_runs toy_world_has_batches).
Defined.

(** ** The sequences of an example in the prediction table *)

Section Sequences.
Import LogPredictionCallback.

Lemma chain_bound (rs : list (Z * Z)) (from last : Z) :
  chain from rs last -> from <= last + 1.
Proof.
  revert from. induction rs as [| [s e] rs IH]; intros from; simpl; [lia |].
  intros (-> & Hle & Hrest). specialize (IH _ Hrest). lia.
Qed.

(** Ranges that follow one another up to the last index of [t] cut [t]
    into slices, each as long as its range. *)
Lemma chain_slices {A} (t : list A) (rs : list (Z * Z)) (from : nat) :
  chain (Z.of_nat from) rs (Z.of_nat (length t) - 1) ->
  concat (map (fun r => slice t r.1 (r.2 + 1)) rs) = drop from t /\
  Forall (fun r => Z.of_nat (length (slice t r.1 (r.2 + 1))) = r.2 - r.1 + 1) rs.
Proof.
  revert from. induction rs as [| [s e] rs IH]; intros from; simpl.
  - intros Hfrom. split; [| constructor].
    symmetry. apply drop_ge. lia.
  - intros (-> & Hle & Hrest).
    pose proof (chain_bound _ _ _ Hrest) as Hbound.
    replace (e + 1) with (Z.of_nat (Z.to_nat (e + 1))) in * by lia.
    destruct (IH _ Hrest) as [IH1 IH2].
    rewrite slice_nat, IH1. split.
    + rewrite <- (take_drop (Z.to_nat (e + 1) - from) (drop from t)) at 2.
      rewrite drop_drop. f_equal. f_equal. lia.
    + constructor; [| done]. simpl. unfold slice.
      rewrite length_take, length_drop, Nat2Z.id. lia.
Qed.

Lemma pos_ranges_chain (pos_ids : option (list Z)) (input_ids_all : list Z) :
  match pos_ids with
  | Some ids => length ids = length input_ids_all
  | None => True
  end ->
  input_ids_all <> [] ->
  chain 0 (pos_ranges pos_ids input_ids_all) (Z.of_nat (length input_ids_all) - 1).
Proof.
  intros Hlen Hne. destruct pos_ids as [ids |]; simpl.
  - rewrite <- Hlen. destruct ids as [| x ids]; [by destruct input_ids_all |].
    rewrite find_ranges_cuts.
    destruct (cuts_slices (x :: ids) (drop 1 (x :: ids)) 0 1) as [_ Hchain];
      [lia | simpl; by rewrite drop_0 | done |].
    exact Hchain.
  - destruct input_ids_all; [done |]. simpl. lia.
Qed.

(** X3: the sequences of an example (with position ids as long as its input
    ids, or without position ids): the ranges cut the input ids into
    consecutive segments that together are the input ids; the segments of a
    single position are skipped, every other segment is kept, and so every
    kept sequence holds at least two tokens. *)
Theorem example_sequences (pos_ids : option (list Z)) (input_ids_all : list Z) :
  match pos_ids with
  | Some ids => length ids = length input_ids_all
  | None => True
  end ->
  input_ids_all <> [] ->
  let segments :=
    map (fun r => slice input_ids_all r.1 (r.2 + 1))
      (pos_ranges pos_ids input_ids_all) in
  concat segments = input_ids_all /\
  Forall (fun sq => (2 <= length sq)%nat) (sequences pos_ids input_ids_all) /\
  Forall (fun sq => sq ∈ sequences pos_ids input_ids_all \/ length sq = 1%nat)
    segments.
Proof.
  intros Hlen Hne. cbv zeta.
  pose proof (pos_ranges_chain pos_ids input_ids_all Hlen Hne) as Hchain.
  destruct (chain_slices input_ids_all _ 0 Hchain) as [Hcat Hlens].
  split; [by rewrite Hcat, drop_0 |].
  assert (Hpos : Forall (fun r : Z * Z => r.1 <= r.2)
                   (pos_ranges pos_ids input_ids_all)).
  { clear Hlens Hcat. revert Hchain. generalize 0.
    induction (pos_ranges pos_ids input_ids_all) as [| [s e] rs IH]; intros from;
      simpl; [constructor |].
    intros (-> & Hle & Hrest). constructor; [done | by eapply IH]. }
  unfold sequences. split.
  - apply Forall_fmap, Forall_forall. intros r Hr.
    apply list_elem_of_filter in Hr as [Hneq Hr].
    rewrite Forall_forall in Hlens, Hpos.
    specialize (Hlens _ Hr). specialize (Hpos _ Hr). simpl. lia.
  - apply Forall_fmap, Forall_forall. intros r Hr. simpl.
    destruct (decide (r.1 = r.2)) as [Heq | Hneq].
    + right. rewrite Forall_forall in Hlens. specialize (Hlens _ Hr). lia.
    + left. apply list_elem_of_fmap. exists r. split; [done |].
      by apply list_elem_of_filter.
Qed.

End Sequences.

(** X3, a run of [example_sequences]: a packed row of three sequences, the
    last one with a single token. *)
Lemma example_sequences_witness :
  let segments :=
    map (fun r => LogPredictionCallback.slice [10; 11; 12; 13; 14; 15] r.1 (r.2 + 1))
      (LogPredictionCallback.pos_ranges (Some [0; 1; 2; 0; 1; 0])
         [10; 11; 12; 13; 14; 15]) in
  concat segments = [10; 11; 12; 13; 14; 15] /\
  Forall (fun sq => (2 <= length sq)%nat)
    (LogPredictionCallback.sequences (Some [0; 1; 2; 0; 1; 0])
       [10; 11; 12; 13; 14; 15]) /\
  Forall (fun sq => sq ∈ LogPredictionCallback.sequences (Some [0; 1; 2; 0; 1; 0])
                          [10; 11; 12; 13; 14; 15]
                    \/ length sq = 1%nat)
    segments.
Proof.
  apply (example_sequences (Some [0; 1; 2; 0; 1; 0]) [10; 11; 12; 13; 14; 15]).
  - reflexivity.
  - discriminate.
Defined.
